(** * abundatron.py: the INSPECT batch fetcher, embedded and verified

    The script is a thin client: it resolves a spectral line, sends one GET
    request per input value, scrapes the [<pre>] block of each answer and
    writes the rows as CSV.  The embedding follows [abundatron.py] function by
    function.

    What is outside the program is taken as input:
    - the network: an answer to every request ([network]);
    - BeautifulSoup: a [document] is what [soup.find] and [get_text] extract;
    - the builtins [int], [float], [str], the [:g] format and [time.sleep]
      ([py_int], [py_float], [py_str], [format_g], [time_sleep]).

    The progress messages that the script prints are left out.

    Strings are [string]s of one-byte characters (code points 0..255).
    A Python float is an IEEE 754 binary64 number, with the rounding, the
    overflow and the NaN of the standard. *)

From Stdlib Require Import ZArith QArith Lia Ascii String DecimalString.
From Stdlib Require Import Floats.SpecFloat.
From stdpp Require Import gmap strings list sorting.

Local Open Scope string_scope.
Local Open Scope list_scope.

(** ** Floats

    A Python float is an IEEE 754 binary64 number: a [spec_float] of the
    standard library read with 53 bits of precision and exponents below
    1024.  The operations are those of [SpecFloat]: a difference is rounded
    to the nearest double, ties to even, and overflows to an infinity.  What
    is proved below holds of every [spec_float], the valid binary64
    representations among them. *)

Definition prec : Z := 53.
Definition emax : Z := 1024.

Abbreviation float := spec_float.
Abbreviation NaN := S754_nan.
Abbreviation Inf := S754_infinity.

(** [math.isnan(x)] *)
Definition isnan (x : float) : bool :=
  match x with S754_nan => true | _ => false end.

(** [x - y] *)
Definition fsub (x y : float) : float := SFsub prec emax x y.

(** [abs(x)] *)
Definition fabs (x : float) : float := SFabs x.

(** [x < y]; false as soon as one side is NaN *)
Definition flt (x y : float) : bool := SFltb x y.

(** neither NaN nor an infinity *)
Definition is_finite (x : float) : bool :=
  match x with S754_zero _ | S754_finite _ _ _ => true | _ => false end.

(** the double nearest to [n / d], with the sign [s] *)
Definition nearest (s : bool) (n d : positive) : float :=
  let '(q, e, l) := SFdiv_core_binary prec emax (Zpos n) 0 (Zpos d) 0 in
  binary_round_aux prec emax s q e l.

(** the double that a decimal literal of value [q] denotes *)
Definition dbl (q : Q) : float :=
  match Qnum q with
  | Z0 => S754_zero false
  | Zpos n => nearest false n (Qden q)
  | Zneg n => nearest true n (Qden q)
  end.

(** the literal [1e-6], which is 0x1.0c6f7a0b5ed8dp-20 *)
Definition tol : float := S754_finite false 4722366482869645 (-72).

(** ** Exceptions *)

Inductive exit_code :=
  | ExitInt (n : Z)
  | ExitMsg (msg : string).

(** [SystemExit] derives from [BaseException]; the other classes derive from
    [Exception]. *)
Inductive exn :=
  | RuntimeError (msg : string)
  | ValueError (msg : string)
  | IndexError (msg : string)
  | TypeError (msg : string)
  | OverflowError (msg : string)
  | RequestException (msg : string)
  | SystemExit (code : exit_code).

Definition is_Exception (e : exn) : bool :=
  match e with SystemExit _ => false | _ => true end.

(** [str(exc)] *)
Definition str_exn (e : exn) : string :=
  match e with
  | RuntimeError m | ValueError m | IndexError m | TypeError m
  | OverflowError m | RequestException m => m
  | SystemExit (ExitInt n) => ""
  | SystemExit (ExitMsg m) => m
  end.

Inductive outcome (A : Type) :=
  | Return (a : A)
  | Raise (e : exn).
Arguments Return {A} a.
Arguments Raise {A} e.

Definition obind {A B} (x : outcome A) (k : A → outcome B) : outcome B :=
  match x with
  | Return a => k a
  | Raise e => Raise e
  end.

(** ** Strings *)

Module Str.

Definition code (c : ascii) : N := N_of_ascii c.

(** [\d] on one-byte characters *)
Definition is_digit (c : ascii) : bool :=
  ((48 <=? code c) && (code c <=? 57))%N.

(** [str.isspace] on one-byte characters *)
Definition is_space (c : ascii) : bool :=
  let n := code c in
  (((9 <=? n) && (n <=? 13)) || ((28 <=? n) && (n <=? 32))
   || (n =? 133) || (n =? 160))%N.

(** the line boundaries of [str.splitlines] among one-byte characters *)
Definition is_linebreak (c : ascii) : bool :=
  let n := code c in
  (((10 <=? n) && (n <=? 13)) || ((28 <=? n) && (n <=? 30)) || (n =? 133))%N.

Definition lower_char (c : ascii) : ascii :=
  let n := code c in
  if (((65 <=? n) && (n <=? 90))
      || ((192 <=? n) && (n <=? 222) && negb (n =? 215)))%N
  then ascii_of_N (n + 32) else c.

(** [s.lower()] *)
Fixpoint lower (s : string) : string :=
  match s with
  | EmptyString => EmptyString
  | String c s' => String (lower_char c) (lower s')
  end.

Fixpoint lstrip (s : string) : string :=
  match s with
  | String c s' => if is_space c then lstrip s' else s
  | EmptyString => EmptyString
  end.

(** [s.strip()] *)
Definition strip (s : string) : string :=
  String.rev (lstrip (String.rev (lstrip s))).

(** [sub in s] *)
Fixpoint contains (sub s : string) : bool :=
  String.prefix sub s
  || match s with
     | EmptyString => false
     | String _ s' => contains sub s'
     end.

(** [any(p(c) for c in s)] *)
Fixpoint has (p : ascii → bool) (s : string) : bool :=
  match s with
  | EmptyString => false
  | String c s' => p c || has p s'
  end.

Definition snoc (s : string) (c : ascii) : string := s +:+ String c "".

(** [s.splitlines()]: [after_cr] is set just after a carriage return, whose
    following line feed belongs to the same boundary. *)
Fixpoint splitlines_from (after_cr : bool) (cur s : string) : list string :=
  match s with
  | EmptyString => if decide (cur = "") then [] else [cur]
  | String c s' =>
      if after_cr && (code c =? 10)%N then splitlines_from false cur s'
      else if is_linebreak c
           then cur :: splitlines_from (code c =? 13)%N "" s'
           else splitlines_from false (snoc cur c) s'
  end.

Definition splitlines (s : string) : list string :=
  splitlines_from false "" s.

(** the string ["\n"] *)
Definition LF : string := String (ascii_of_N 10) "".

(** [sep.join(l)] *)
Definition join (sep : string) (l : list string) : string :=
  String.concat sep l.

(** [s[:n]] *)
Definition prefix_of (n : nat) (s : string) : string :=
  String.substring 0 n s.

End Str.

(** ** The regular expression FLOAT_RE

    [[-+]?\d+(?:\.\d+)?(?:[eE][-+]?\d+)?].  Every group after the mandatory
    digits is optional, so the greedy first attempt of the matcher is the
    match: no backtracking changes it. *)

Module FloatRe.

(** a matcher consumes a prefix and returns it with the rest *)

Fixpoint digits (s : string) : string * string :=
  match s with
  | String c s' =>
      if Str.is_digit c
      then let '(d, r) := digits s' in (String c d, r)
      else ("", s)
  | EmptyString => ("", "")
  end.

(** [\d+] *)
Definition digits1 (s : string) : option (string * string) :=
  match digits s with
  | (EmptyString, _) => None
  | (d, r) => Some (d, r)
  end.

Definition is_sign (c : ascii) : bool :=
  ((Str.code c =? 43) || (Str.code c =? 45))%N.

(** [[-+]?] *)
Definition opt_sign (s : string) : string * string :=
  match s with
  | String c s' => if is_sign c then (String c "", s') else ("", s)
  | EmptyString => ("", "")
  end.

(** [(?:\.\d+)?] *)
Definition opt_fraction (s : string) : string * string :=
  match s with
  | String c s' =>
      if (Str.code c =? 46)%N
      then match digits1 s' with
           | Some (d, r) => (String c d, r)
           | None => ("", s)
           end
      else ("", s)
  | EmptyString => ("", "")
  end.

(** [(?:[eE][-+]?\d+)?] *)
Definition opt_exponent (s : string) : string * string :=
  match s with
  | String c s' =>
      if ((Str.code c =? 101) || (Str.code c =? 69))%N
      then let '(sg, r0) := opt_sign s' in
           match digits1 r0 with
           | Some (d, r) => (String c (sg +:+ d), r)
           | None => ("", s)
           end
      else ("", s)
  | EmptyString => ("", "")
  end.

(** a match anchored at the start of [s] *)
Definition match_at (s : string) : option (string * string) :=
  let '(sg, r0) := opt_sign s in
  match digits1 r0 with
  | None => None
  | Some (d, r1) =>
      let '(fr, r2) := opt_fraction r1 in
      let '(ex, r3) := opt_exponent r2 in
      Some (sg +:+ d +:+ fr +:+ ex, r3)
  end.

(** [FLOAT_RE.search(s)]: the leftmost match *)
Fixpoint search (s : string) : option string :=
  match match_at s with
  | Some (tok, _) => Some tok
  | None =>
      match s with
      | String _ s' => search s'
      | EmptyString => None
      end
  end.

(** [FLOAT_RE.findall(s)]: the scan resumes where the last match ended.
    A match is never empty, so one unit of fuel per character is enough
    ([findall_from_fuel] below). *)
Fixpoint findall_from (fuel : nat) (s : string) : list string :=
  match fuel with
  | O => []
  | S fuel' =>
      match match_at s with
      | Some (tok, rest) => tok :: findall_from fuel' rest
      | None =>
          match s with
          | String _ s' => findall_from fuel' s'
          | EmptyString => []
          end
      end
  end.

Definition findall (s : string) : list string :=
  findall_from (S (String.length s)) s.

End FloatRe.

(** ** More of [str] *)

Module Text.

(** [s.split(sep)] for a separator of one character *)
Fixpoint split_from (sep : ascii) (cur s : string) : list string :=
  match s with
  | EmptyString => [cur]
  | String c s' =>
      if Ascii.eqb c sep then cur :: split_from sep "" s'
      else split_from sep (Str.snoc cur c) s'
  end.

Definition split (sep : ascii) (s : string) : list string :=
  split_from sep "" s.

(** [all(p(c) for c in s)] *)
Fixpoint all (p : ascii → bool) (s : string) : bool :=
  match s with
  | EmptyString => true
  | String c s' => p c && all p s'
  end.

End Text.

(** ** What a match of FLOAT_RE looks like, and where the matches lie *)

Module Shape.

(** [\d+] *)
Definition digits1 (d : string) : Prop :=
  d ≠ "" ∧ Text.all Str.is_digit d = true.

(** [[-+]?] *)
Definition sign (sg : string) : Prop :=
  sg = "" ∨ sg = "+" ∨ sg = "-".

(** [(?:\.\d+)?] *)
Definition fraction (fr : string) : Prop :=
  fr = "" ∨ ∃ d, fr = String "." d ∧ digits1 d.

(** [(?:[eE][-+]?\d+)?] *)
Definition exponent (ex : string) : Prop :=
  ex = "" ∨ ∃ c sg d, ex = String c (sg +:+ d) ∧ (c = "e" ∨ c = "E")%char
                      ∧ sign sg ∧ digits1 d.

Definition literal (tok : string) : Prop :=
  ∃ sg d fr ex, tok = sg +:+ d +:+ fr +:+ ex
                ∧ sign sg ∧ digits1 d ∧ fraction fr ∧ exponent ex.

(** the line cut into gaps and matches: gap, match, gap, ..., match, gap *)
Fixpoint weave (gaps toks : list string) : string :=
  match gaps, toks with
  | g :: gaps', t :: toks' => g +:+ t +:+ weave gaps' toks'
  | g :: _, [] => g
  | [], _ => ""
  end.

End Shape.

(** ** Rows, documents, requests *)

(** a cell of a row: [Dict[str, Union[str, float]]], and [wi] is an [int] *)
Inductive value :=
  | VStr (s : string)
  | VInt (n : Z)
  | VFloat (x : float).

Abbreviation dict := (gmap string value).

(** A line of the dropdown: [(wi_index, wavelength_A, label_text)]. *)
Abbreviation line := (Z * float * string)%type.

(** An [<option>] of the dropdown: its [value] attribute, when it has one, and
    its text. *)
Record option_tag := {
  value_attr : option string;
  text : string;
}.

(** What BeautifulSoup finds in a page: [pre] is [get_text("\n", strip=True)]
    of the first [<pre>], [select_wi] the options of [<select name="wi">]. *)
Record document := {
  pre : option string;
  select_wi : option (list option_tag);
}.

Record request := {
  method : string;
  url : string;
  params : list (string * string);
  timeout : Z;
}.

(** The answer to [session.get]: the call raises, or returns a response on
    which [raise_for_status] raises when [http_error] is set. *)
Record response := {
  http_error : option string;
  body : document;
}.

Inductive http_response :=
  | ConnectionFailed (msg : string)
  | Response (r : response).

(** ** The session of [make_session] *)

Record Retry := {
  total : Z;
  backoff_factor : Q;
  status_forcelist : list Z;
  allowed_methods : list string;
}.

Record HTTPAdapter := { max_retries : Retry }.

Record Session := {
  adapters : gmap string HTTPAdapter;
  headers : gmap string string;
}.

(** [s.mount(prefix, adapter)] *)
Definition mount (prefix : string) (a : HTTPAdapter) (s : Session) : Session :=
  {| adapters := <[prefix := a]> (adapters s); headers := headers s |}.

(** [s.headers.update(h)] *)
Definition headers_update (h : gmap string string) (s : Session) : Session :=
  {| adapters := adapters s; headers := h ∪ headers s |}.

Definition BASE : string := "https://www.inspect-stars.com".
Definition ENDPOINT_EW : string := BASE +:+ "/A_from_e".
Definition ENDPOINT_LTE : string := BASE +:+ "/nonlte_from_lte".

(** ** Effects: the network and the requests sent so far

    [network n rq] is the answer to [rq] when [n] requests were sent before
    it. *)

Record world := {
  network : nat → request → http_response;
  sent : list request;
}.

Definition M (A : Type) : Type := world → outcome A * world.

Global Instance M_ret : MRet M := λ A a w, (Return a, w).

Global Instance M_bind : MBind M := λ A B k m w,
  match m w with
  | (Return a, w') => k a w'
  | (Raise e, w') => (Raise e, w')
  end.

Definition raise {A} (e : exn) : M A := λ w, (Raise e, w).

Definition lift {A} (x : outcome A) : M A := λ w, (x, w).

(** [try: body  except Exception as exc: handler(exc)] *)
Definition try_except {A} (body : M A) (handler : exn → M A) : M A := λ w,
  match body w with
  | (Raise e, w') => if is_Exception e then handler e w' else (Raise e, w')
  | r => r
  end.

Inductive mode := Ew | Lte.

Definition mode_str (m : mode) : string :=
  match m with Ew => "ew" | Lte => "lte" end.

(** the parsed command line; [values] is what [read_values] collects from
    [--values], the file and stdin, in that order *)
Record arguments := {
  element : string;
  arg_mode : mode;
  values : list float;
  teff : float;
  logg : float;
  feh : float;
  vt : float;
  wavelength : option float;
  arg_wi : option Z;
  out : option string;
  sleep : float;
}.

(** the table that [csv.DictWriter] writes: [destination] is the file
    written, [None] for stdout; [header] are the field names; a record holds,
    for a row, the cells that [DictWriter] hands to the writer, one per field
    name *)
Record csv := {
  destination : option string;
  header : list string;
  records : list (list value);
}.

(** What [read_values] reads: the string of [--values]; the text that
    [read_text] returns for the file of [--values-file], or the exception it
    raises; the lines that iterating over stdin gives, when stdin is not a
    terminal. *)
Record sources := {
  src_values : option string;
  src_values_file : option (outcome string);
  src_stdin : option (list string);
}.

(** ** Stand-ins for the builtins and the network

    They run the program on concrete pages; no property of the program is
    stated about them alone. *)

Module Sample.

Fixpoint decimal_value (acc : N) (s : string) : N :=
  match s with
  | String c s' => decimal_value (acc * 10 + (Str.code c - 48)) s'
  | EmptyString => acc
  end.

Definition signed (sg : string) (q : Q) : Q :=
  if String.eqb sg "-" then (- q)%Q else q.

Definition tail (s : string) : string :=
  match s with String _ s' => s' | EmptyString => EmptyString end.

(** [float] on "nan" and on the decimal literals that FLOAT_RE matches *)
Definition py_float (s : string) : option float :=
  if String.eqb s "nan" then Some NaN
  else
    let '(sg, r0) := FloatRe.opt_sign s in
    match FloatRe.digits1 r0 with
    | None => None
    | Some (d, r1) =>
        let '(fr, r2) := FloatRe.opt_fraction r1 in
        let '(ex, r3) := FloatRe.opt_exponent r2 in
        if String.eqb r3 "" then
          let '(esg, ed) := FloatRe.opt_sign (tail ex) in
          let mantissa :=
            ((Z.of_N (decimal_value 0 (d +:+ tail fr)) # 1)
             / 10 ^ Z.of_nat (String.length (tail fr)))%Q in
          let exponent := Qnum (signed esg (Z.of_N (decimal_value 0 ed) # 1)) in
          Some (dbl (signed sg mantissa * 10 ^ exponent))
        else None
    end.

(** [int] on decimal literals *)
Definition py_int (s : string) : option Z :=
  let '(sg, r0) := FloatRe.opt_sign s in
  match FloatRe.digits1 r0 with
  | Some (d, EmptyString) =>
      Some (Qnum (signed sg (Z.of_N (decimal_value 0 d) # 1)))
  | _ => None
  end.

Definition py_str (n : Z) : string := NilZero.string_of_int (Z.to_int n).

(** [:g] on the integers below a million, a placeholder elsewhere *)
Definition format_g (x : float) : string :=
  match x with
  | S754_nan => "nan"
  | S754_infinity neg => if neg then "-inf" else "inf"
  | S754_zero neg => if neg then "-0" else "0"
  | S754_finite neg m e =>
      let z := Z.shiftl (Zpos m) e in
      if (Z.shiftl z (- e) =? Zpos m)%Z && (z <? 1000000)%Z
      then py_str (if neg then (- z)%Z else z)
      else "?"
  end.

(** [time.sleep]: a length that is negative or NaN is refused, as is an
    infinite one *)
Definition time_sleep (secs : float) : outcome unit :=
  match secs with
  | S754_nan => Raise (ValueError "Invalid value NaN (not a number)")
  | S754_infinity true | S754_finite true _ _ =>
      Raise (ValueError "sleep length must be non-negative")
  | S754_infinity false =>
      Raise (OverflowError "timestamp too large to convert to C _PyTime_t")
  | _ => Return ()
  end.

Definition requests_Session : Session := {| adapters := ∅; headers := ∅ |}.

Definition ew_text : string :=
  "EW  A(O) LTE  A(O) NLTE  Delta  [O/Fe] NLTE" +:+ Str.LF +:+
  "65  8.778     8.582      -0.196 -0.118" +:+ Str.LF.

Definition ew_page : document :=
  {| pre := Some ew_text; select_wi := None |}.

Definition dropdown_page : document :=
  {| pre := None;
     select_wi := Some [
       {| value_attr := None; text := "choose a line" |};
       {| value_attr := Some "1"; text := " 6158.2 " |};
       {| value_attr := Some "3"; text := "7771.9" |}
     ] |}.

Definition empty_page : document := {| pre := None; select_wi := None |}.

(** the dropdown, then a result page, then a server error *)
Definition failing_network (n : nat) (rq : request) : http_response :=
  match n with
  | 0 => Response {| http_error := None; body := dropdown_page |}
  | 1 => Response {| http_error := None; body := ew_page |}
  | _ => Response {| http_error := Some "500 Server Error"; body := empty_page |}
  end.

(** the dropdown, then a result page, then pages without [<pre>] *)
Definition out_of_range_network (n : nat) (rq : request) : http_response :=
  match n with
  | 0 => Response {| http_error := None; body := dropdown_page |}
  | 1 => Response {| http_error := None; body := ew_page |}
  | _ => Response {| http_error := None; body := empty_page |}
  end.

Definition args : arguments :=
  {| element := "O"; arg_mode := Ew; values := [dbl 65; dbl 80];
     teff := dbl 5777; logg := dbl (111 # 25); feh := dbl 0; vt := dbl 1;
     wavelength := None; arg_wi := Some 7%Z; out := None;
     sleep := dbl (1 # 5) |}.

(** two lines closer to each other than twice the tolerance *)
Definition close_lines : list line :=
  [(1%Z, dbl (50000000005 # 10000000), "5000.0000005");
   (2%Z, dbl 5000, "5000")].

(** lines away from the request 5000, one of them without a wavelength *)
Definition far_lines : list line :=
  [(1%Z, dbl 4000, "4000"); (2%Z, NaN, "n/a"); (3%Z, dbl 5001, "5001");
   (4%Z, dbl 4999, "4999")].

(** a line without a wavelength, and a line so far from the request
    [-2^1023] that the difference overflows *)
Definition overflow_lines : list line :=
  [(1%Z, NaN, "n/a"); (2%Z, dbl (2 ^ 1023), "8.98846567431158e+307")].

(** labels that are not numbers *)
Definition unlabelled_lines : list line :=
  [(5%Z, NaN, "first"); (6%Z, NaN, "second")].

(** the answers to the queries only: the [n]-th query is the request
    number [n + 1] of a run *)
Definition after_dropdown (net : nat → request → http_response)
    : nat → request → http_response :=
  λ n, net (S n).

Definition csv_rows : list dict :=
  [ {[ "A_LTE" := VFloat (dbl 1); "zeta" := VStr "z" ]};
    {[ "mode" := VStr "ew"; "Alpha" := VStr "a" ]} ].

(** lines of a values file: a comment, a value, a blank line, a value with
    its unit, a missing value *)
Definition value_lines : list string :=
  ["# equivalent widths"; "65"; ""; "  80.5 mA"; "n/a"].

Definition sources_all : sources :=
  {| src_values := Some "65, 80";
     src_values_file := Some (Return ("100" +:+ Str.LF +:+ "# note" +:+ Str.LF));
     src_stdin := Some ["7e1" +:+ Str.LF] |}.

Definition sources_none : sources :=
  {| src_values := None; src_values_file := None; src_stdin := None |}.

(** blank items, a file of comments and a line of text on stdin *)
Definition sources_blank : sources :=
  {| src_values := Some " , ";
     src_values_file := Some (Return ("# widths" +:+ Str.LF +:+ Str.LF));
     src_stdin := Some ["n/a" +:+ Str.LF] |}.

Definition sources_bad : sources :=
  {| src_values := Some "65,abc"; src_values_file := None;
     src_stdin := None |}.

(** the page of [ew_page] with a note after the values *)
Definition footer_text : string :=
  ew_text +:+ "computed by INSPECT" +:+ Str.LF.

Definition footer_page : document :=
  {| pre := Some footer_text; select_wi := None |}.

(** a dropdown in which the index 3 comes twice *)
Definition duplicate_page : document :=
  {| pre := None;
     select_wi := Some [
       {| value_attr := Some "1"; text := "6158.2" |};
       {| value_attr := Some "3"; text := "7771.9" |};
       {| value_attr := Some "3"; text := "7774.2" |}
     ] |}.

Definition duplicate_network (n : nat) (rq : request) : http_response :=
  Response {| http_error := None; body := duplicate_page |}.

(** a server whose pages have no dropdown *)
Definition no_select_network (n : nat) (rq : request) : http_response :=
  Response {| http_error := None; body := empty_page |}.

Definition args_wi3 : arguments :=
  {| element := "O"; arg_mode := Lte; values := [dbl 8];
     teff := dbl 5777; logg := dbl (111 # 25); feh := dbl 0; vt := dbl 1;
     wavelength := None; arg_wi := Some 3%Z; out := None;
     sleep := dbl (1 # 5) |}.

Definition args_wavelength : arguments :=
  {| element := "O"; arg_mode := Ew; values := [dbl 65];
     teff := dbl 5777; logg := dbl (111 # 25); feh := dbl 0; vt := dbl 1;
     wavelength := Some (dbl 7772); arg_wi := None; out := None;
     sleep := dbl (1 # 5) |}.

Definition args_neither : arguments :=
  {| element := "O"; arg_mode := Ew; values := [dbl 65];
     teff := dbl 5777; logg := dbl (111 # 25); feh := dbl 0; vt := dbl 1;
     wavelength := None; arg_wi := None; out := None;
     sleep := dbl (1 # 5) |}.

(** the arguments of [args] with [--sleep -1] *)
Definition args_negative_sleep : arguments :=
  {| element := "O"; arg_mode := Ew; values := [dbl 65; dbl 80];
     teff := dbl 5777; logg := dbl (111 # 25); feh := dbl 0; vt := dbl 1;
     wavelength := None; arg_wi := Some 7%Z; out := None;
     sleep := dbl (-1) |}.

(** a row with an empty cell *)
Definition csv_rows_blank : list dict :=
  [ {[ "element" := VStr ""; "mode" := VStr "ew" ]} ].

Definition csv_rows_swapped : list dict :=
  [ {[ "mode" := VStr "ew"; "Alpha" := VStr "a" ]};
    {[ "A_LTE" := VFloat (dbl 1); "zeta" := VStr "z" ]} ].

End Sample.

(** ** The program *)

Section Program.

(** [int(s)] and [float(s)]: [None] stands for [ValueError]. *)
Variable py_int : string → option Z.
Variable py_float : string → option float.
(** [str(n)] and [f"{x:g}"] *)
Variable py_str : Z → string.
Variable format_g : float → string.
(** [time.sleep(secs)]: it returns or raises *)
Variable time_sleep : float → outcome unit.
(** [requests.Session()] *)
Variable requests_Session : Session.

Definition make_session : Session :=
  let s := requests_Session in
  let retry := {|
    total := 5;
    backoff_factor := 1 # 2;
    status_forcelist := [429; 500; 502; 503; 504]%Z;
    allowed_methods := ["GET"];
  |} in
  let adapter := {| max_retries := retry |} in
  let s := mount "https://" adapter s in
  let s := mount "http://" adapter s in
  headers_update {[ "User-Agent" := "inspect-batch-scraper/1.1 (python requests)" ]} s.

(** [session.get(url, params=params, timeout=timeout)] *)
Definition session_get (session : Session) (url : string)
    (params : list (string * string)) (timeout : Z) : M response := λ w,
  let rq := {| method := "GET"; url := url; params := params;
               timeout := timeout |} in
  let w' := {| network := network w; sent := sent w ++ [rq] |} in
  match network w (length (sent w)) rq with
  | ConnectionFailed msg => (Raise (RequestException msg), w')
  | Response r => (Return r, w')
  end.

(** [r.raise_for_status()] *)
Definition raise_for_status (r : response) : M unit :=
  match http_error r with
  | Some msg => raise (RequestException msg)
  | None => mret ()
  end.

(** the body of the loop over [<option>]s: [continue] leaves [lines] as it
    is *)
Definition add_option (lines : list line) (opt : option_tag) : list line :=
  let val := Str.strip (default "" (value_attr opt)) in
  let txt := Str.strip (text opt) in
  if decide (val = "") then lines
  else match py_int val with
       | None => lines
       | Some wi =>
           let wav := default NaN (py_float txt) in
           lines ++ [(wi, wav, txt)]
       end.

Definition fetch_available_lines (element : string) (session : Session)
    : M (list line) :=
  r ← session_get session (ENDPOINT_LTE +:+ "?element_name=" +:+ element) [] 20;
  _ ← raise_for_status r;
  match select_wi (body r) with
  | None =>
      raise (RuntimeError
        ("Could not find wavelength selector for element " +:+ element +:+ "."))
  | Some options =>
      let lines := foldl add_option [] options in
      if decide (lines = [])
      then raise (RuntimeError ("No lines found for element " +:+ element +:+ "."))
      else mret lines
  end.

(** [min(l, key=key)]: the first element whose key no later key is below *)
Definition py_min {A} (key : A → float) (l : list A) : outcome A :=
  match l with
  | [] => Raise (ValueError "min() arg is an empty sequence")
  | x :: l' =>
      Return (foldl (λ best y, if flt (key y) (key best) then y else best) x l')
  end.

(** the test of the first loop of [choose_wi_from_wavelength] *)
Definition exact_match (wavelength : float) (ln : line) : bool :=
  negb (isnan ln.1.2) && flt (fabs (fsub ln.1.2 wavelength)) tol.

(** the key of [min] in [choose_wi_from_wavelength] *)
Definition distance_key (wavelength : float) (t : line) : float :=
  if negb (isnan t.1.2) then fabs (fsub t.1.2 wavelength) else Inf false.

(** [choose_wi_from_wavelength] after its first statement, on the list that
    [fetch_available_lines] returned *)
Definition choose_among (lines : list line) (wavelength : float)
    : outcome (Z * float) :=
  match List.find (exact_match wavelength) lines with
  | Some (wi, wav, _) => Return (wi, wav)
  | None =>
      obind (py_min (distance_key wavelength) lines)
            (λ nearest, Return (nearest.1.1, nearest.1.2))
  end.

Definition choose_wi_from_wavelength (element : string) (wavelength : float)
    (session : Session) : M (Z * float) :=
  lines ← fetch_available_lines element session;
  lift (choose_among lines wavelength).

(** [[float(x) for x in tokens]] *)
Fixpoint floats_of (tokens : list string) : outcome (list float) :=
  match tokens with
  | [] => Return []
  | x :: rest =>
      match py_float x with
      | None => Raise (ValueError ("could not convert string to float: " +:+ x))
      | Some f => obind (floats_of rest) (λ fs, Return (f :: fs))
      end
  end.

(** [[ln for ln in text.splitlines() if ln.strip()]] *)
Definition nonblank_lines (text : string) : list string :=
  List.filter (λ ln, negb (String.eqb (Str.strip ln) "")) (Str.splitlines text).

(** [next((ln for ln in reversed(lines) if FLOAT_RE.search(ln)), None)] *)
Definition last_numeric_line (lines : list string) : option string :=
  List.find (λ ln, bool_decide (is_Some (FloatRe.search ln))) (rev lines).

Definition fields5 (nums : list float) : outcome dict :=
  match nums with
  | n0 :: n1 :: n2 :: n3 :: n4 :: _ =>
      Return (list_to_map [("EW_mA", VFloat n0); ("A_LTE", VFloat n1);
                           ("A_NLTE", VFloat n2); ("Delta", VFloat n3);
                           ("OFe_NLTE", VFloat n4)])
  | _ => Raise (IndexError "list index out of range")
  end.

Definition fields4 (nums : list float) : outcome dict :=
  match nums with
  | n0 :: n1 :: n2 :: n3 :: _ =>
      Return (list_to_map [("A_LTE", VFloat n0); ("A_NLTE", VFloat n1);
                           ("Delta", VFloat n2); ("OFe_NLTE", VFloat n3)])
  | _ => Raise (IndexError "list index out of range")
  end.

Definition fields3 (nums : list float) : outcome dict :=
  match nums with
  | n0 :: n1 :: n2 :: _ =>
      Return (list_to_map [("A_LTE", VFloat n0); ("A_NLTE", VFloat n1);
                           ("Delta", VFloat n2)])
  | _ => Raise (IndexError "list index out of range")
  end.

(** The message written to stderr before [sys.exit(1)] is not modelled. *)
Definition parse_pre_block (html : document) : outcome dict :=
  match pre html with
  | None => Raise (SystemExit (ExitInt 1))
  | Some text =>
      let lines := nonblank_lines text in
      if decide (lines = []) then Raise (RuntimeError "Empty results block.")
      else
        match last_numeric_line lines with
        | None => Raise (RuntimeError "Could not locate numeric result line.")
        | Some value_line =>
            obind (floats_of (FloatRe.findall value_line)) (λ nums,
              let header := Str.lower (Str.join Str.LF (take 2 lines)) in
              if Str.contains "ew" header && (5 <=? length nums)%nat
              then fields5 nums
              else if (length nums =? 5)%nat then fields5 nums
              else if (length nums =? 4)%nat then fields4 nums
              else if (length nums =? 3)%nat then fields3 nums
              else Raise (RuntimeError
                     ("Unrecognized numeric format in result line: "
                      +:+ value_line)))
        end
  end.

(** ** Queries *)

Definition query_A_from_e (element : string) (ew_mA teff logg feh vt : float)
    (wi : Z) (session : Session) : M dict :=
  let params := [
    ("element_name", element); ("e", format_g ew_mA);
    ("t", format_g teff); ("g", format_g logg); ("f", format_g feh);
    ("x", format_g vt);
    ("wi", py_str wi)
  ] in
  r ← session_get session ENDPOINT_EW params 30;
  _ ← raise_for_status r;
  out ← lift (parse_pre_block (body r));
  mret (<["mode" := VStr "ew"]> out).

Definition query_nlte_from_lte (element : string) (A_lte teff logg feh vt : float)
    (wi : Z) (session : Session) : M dict :=
  let params := [
    ("element_name", element); ("A_lte", format_g A_lte);
    ("t", format_g teff); ("g", format_g logg); ("f", format_g feh);
    ("x", format_g vt);
    ("wi", py_str wi)
  ] in
  r ← session_get session ENDPOINT_LTE params 30;
  _ ← raise_for_status r;
  out ← lift (parse_pre_block (body r));
  mret (<["mode" := VStr "lte"]> out).

(** ** Input and output *)

(** [values args] is the list that the three sources give; reading them is
    [read_values_from], below. *)
Definition read_values (args : arguments) : M (list float) :=
  let vals := values args in
  if decide (vals = [])
  then raise (SystemExit (ExitMsg
         "No input values found. Use --values, --values-file, or pipe via stdin."))
  else mret vals.

Definition preferred : list string :=
  ["mode"; "element"; "wi"; "wavelength_A"; "Teff"; "logg"; "FeH"; "vt";
   "input_value"; "EW_mA"; "A_LTE"; "A_NLTE"; "Delta"; "OFe_NLTE"; "error"].

(** [sorted(cols)] *)
Definition sorted (cols : gset string) : list string :=
  merge_sort String.le (elements cols).

(** [cols = set(); for r in rows: cols.update(r.keys())] *)
Definition columns (rows : list dict) : gset string :=
  foldl (λ cols r, cols ∪ dom r) ∅ rows.

(** The progress message is left out, and the file is taken to open; both
    branches write the same table.
    For a row [DictWriter] takes [rowdict.get(key, "")] under each field
    name: a cell that the row lacks is the empty string. *)
Definition write_csv (rows : list dict) (out_path : option string)
    : option csv :=
  if decide (rows = []) then None
  else
    let cols := columns rows in
    let header :=
      filter (λ c, c ∈ cols) preferred
      ++ filter (λ c, c ∉ preferred) (sorted cols) in
    let dest :=
      match out_path with
      | Some p => if decide (p = "") then None else Some p
      | None => None
      end in
    Some {| destination := dest; header := header;
            records :=
              map (λ r : dict, map (λ c, default (VStr "") (r !! c)) header)
                  rows |}.

(** ** Main *)

(** [for v in vs: rows = body(rows, v)] *)
Fixpoint for_each {S A} (body : S → A → M S) (vs : list A) (st : S) : M S :=
  match vs with
  | [] => mret st
  | v :: vs' => st' ← body st v; for_each body vs' st'
  end.

(** the context added to a result, and carried by an error row *)
Definition context (args : arguments) (wi : Z) (matched_wav v : float)
    : list (string * value) :=
  [("element", VStr (element args)); ("wi", VInt wi);
   ("wavelength_A", VFloat matched_wav);
   ("Teff", VFloat (teff args)); ("logg", VFloat (logg args));
   ("FeH", VFloat (feh args)); ("vt", VFloat (vt args));
   ("input_value", VFloat v)].

(** the query of one value *)
Definition query (args : arguments) (wi : Z) (sess : Session) (v : float)
    : M dict :=
  match arg_mode args with
  | Ew => query_A_from_e (element args) v (teff args) (logg args) (feh args)
                         (vt args) wi sess
  | Lte => query_nlte_from_lte (element args) v (teff args) (logg args)
                               (feh args) (vt args) wi sess
  end.

(** The body of the loop of [main], without its progress messages: the
    pause comes after the handler and outside it. *)
Definition iteration (args : arguments) (wi : Z) (matched_wav : float)
    (sess : Session) (rows : list dict) (v : float) : M (list dict) :=
  rows ← try_except
    (res ← query args wi sess v;
     let res := list_to_map (context args wi matched_wav v) ∪ res in
     mret (rows ++ [res]))
    (λ exc,
     let err_row : dict :=
       list_to_map
         ([("mode", VStr (mode_str (arg_mode args)))]
          ++ context args wi matched_wav v
          ++ [("error", VStr (Str.prefix_of 300 (str_exn exc)))]) in
     mret (rows ++ [err_row]));
  _ ← lift (time_sleep (sleep args));
  mret rows.

(** [wav_map = {widx: wav for (widx, wav, _) in lines}]: a later line
    replaces an earlier one with the same index *)
Definition wav_map (lines : list line) : gmap Z float :=
  foldl (λ m (t : line), <[t.1.1 := t.1.2]> m) ∅ lines.

(** "Resolve wi and matched wavelength" *)
Definition resolve (args : arguments) (sess : Session) : M (Z * float) :=
  match wavelength args, arg_wi args with
  | Some w, _ => choose_wi_from_wavelength (element args) w sess
  | None, Some wi =>
      lines ← fetch_available_lines (element args) sess;
      mret (wi, default NaN (wav_map lines !! wi))
  | None, None =>
      raise (TypeError "int() argument must be a string or a real number")
  end.

Definition main (args : arguments) : M (option csv) :=
  if Bool.eqb (bool_decide (wavelength args = None))
              (bool_decide (arg_wi args = None))
  then raise (SystemExit (ExitInt 2))
  else
    values ← read_values args;
    let sess := make_session in
    '(wi, matched_wav) ← resolve args sess;
    rows ← for_each (iteration args wi matched_wav sess) values [];
    mret (write_csv rows (out args)).

(** ** The naming of the fields, in the words of the specification

    [ew] tells whether the lowercased first two lines contain "ew", [nums] are
    the numbers of the value line. *)
Definition named_by_arity (ew : bool) (nums : list float) (value_line : string)
    : outcome dict :=
  match nums with
  | [a; b; c] =>
      Return (<["A_LTE" := VFloat a]> (<["A_NLTE" := VFloat b]>
             (<["Delta" := VFloat c]> ∅)))
  | [a; b; c; d] =>
      Return (<["A_LTE" := VFloat a]> (<["A_NLTE" := VFloat b]>
             (<["Delta" := VFloat c]> (<["OFe_NLTE" := VFloat d]> ∅))))
  | a :: b :: c :: d :: e :: more =>
      if ew || bool_decide (more = [])
      then Return (<["EW_mA" := VFloat a]> (<["A_LTE" := VFloat b]>
                  (<["A_NLTE" := VFloat c]> (<["Delta" := VFloat d]>
                  (<["OFe_NLTE" := VFloat e]> ∅)))))
      else Raise (RuntimeError
             ("Unrecognized numeric format in result line: " +:+ value_line))
  | _ =>
      Raise (RuntimeError
        ("Unrecognized numeric format in result line: " +:+ value_line))
  end.

(** ** "Nearest", in the words of the specification

    [r] is the [(wi, wavelength)] pair of a line of [lines] whose wavelength is
    not NaN and whose distance to the request no line with a non-NaN
    wavelength undercuts. *)
Definition distance (wavelength : float) (t : line) : float :=
  fabs (fsub t.1.2 wavelength).

Definition nearest_line (lines : list line) (wavelength : float)
    (r : Z * float) : Prop :=
  ∃ t, t ∈ lines ∧ r = (t.1.1, t.1.2) ∧ isnan t.1.2 = false ∧
       ∀ t', t' ∈ lines → isnan t'.1.2 = false →
             flt (distance wavelength t') (distance wavelength t) = false.

(** ** One value at a time, in the words of the specification

    The request of a value, the answer of [query] read off the response to
    that request, and the row that the loop appends for it. *)
Definition request_of (args : arguments) (wi : Z) (v : float) : request :=
  {| method := "GET";
     url := match arg_mode args with
            | Ew => "https://www.inspect-stars.com/A_from_e"
            | Lte => "https://www.inspect-stars.com/nonlte_from_lte"
            end;
     params := [("element_name", element args);
                (match arg_mode args with Ew => "e" | Lte => "A_lte" end,
                 format_g v);
                ("t", format_g (teff args)); ("g", format_g (logg args));
                ("f", format_g (feh args)); ("x", format_g (vt args));
                ("wi", py_str wi)];
     timeout := 30 |}.

(** the request of the dropdown page *)
Definition lines_request (element : string) : request :=
  {| method := "GET";
     url := "https://www.inspect-stars.com/nonlte_from_lte?element_name="
            +:+ element;
     params := [];
     timeout := 20 |}.

Definition answer_of (args : arguments) (resp : http_response) : outcome dict :=
  match resp with
  | ConnectionFailed msg => Raise (RequestException msg)
  | Response r =>
      match http_error r with
      | Some msg => Raise (RequestException msg)
      | None =>
          obind (parse_pre_block (body r))
                (λ parsed, Return (<["mode" := VStr (mode_str (arg_mode args))]> parsed))
      end
  end.

Definition success_row (args : arguments) (wi : Z) (matched_wav v : float)
    (res : dict) : dict :=
  list_to_map (context args wi matched_wav v) ∪ res.

Definition error_row (args : arguments) (wi : Z) (matched_wav v : float)
    (message : string) : dict :=
  list_to_map
    ([("mode", VStr (mode_str (arg_mode args)))]
     ++ context args wi matched_wav v
     ++ [("error", VStr (Str.prefix_of 300 message))]).

Definition row_of (args : arguments) (wi : Z) (matched_wav v : float)
    (resp : http_response) : outcome dict :=
  match answer_of args resp with
  | Return res => Return (success_row args wi matched_wav v res)
  | Raise e =>
      if is_Exception e
      then Return (error_row args wi matched_wav v (str_exn e))
      else Raise e
  end.

(** the rows of a batch, from the values and the responses to their
    requests: row after row, with the pause of the loop after each *)
Fixpoint rows_of (args : arguments) (wi : Z) (matched_wav : float)
    (inputs : list (float * http_response)) : outcome (list dict) :=
  match inputs with
  | [] => Return []
  | (v, resp) :: rest =>
      obind (row_of args wi matched_wav v resp) (λ row,
        obind (time_sleep (sleep args)) (λ _,
          obind (rows_of args wi matched_wav rest)
                (λ more, Return (row :: more))))
  end.

(** each value of [vs] with the response to its own request, the requests
    being sent one after the other from [w] on *)
Definition exchanges (args : arguments) (wi : Z) (w : world)
    (vs : list float) : list (float * http_response) :=
  imap (λ i v, (v, network w (length (sent w) + i) (request_of args wi v))) vs.

(** ** Rows, in the words of the specification *)

Definition parsed_names : list string :=
  ["EW_mA"; "A_LTE"; "A_NLTE"; "Delta"; "OFe_NLTE"].

Definition context_names : list string :=
  ["mode"; "element"; "wi"; "wavelength_A"; "Teff"; "logg"; "FeH"; "vt";
   "input_value"].

Definition has_context (args : arguments) (wi : Z) (matched_wav v : float)
    (row : dict) : Prop :=
  row !! "mode" = Some (VStr (mode_str (arg_mode args))) ∧
  row !! "element" = Some (VStr (element args)) ∧
  row !! "wi" = Some (VInt wi) ∧
  row !! "wavelength_A" = Some (VFloat matched_wav) ∧
  row !! "Teff" = Some (VFloat (teff args)) ∧
  row !! "logg" = Some (VFloat (logg args)) ∧
  row !! "FeH" = Some (VFloat (feh args)) ∧
  row !! "vt" = Some (VFloat (vt args)) ∧
  row !! "input_value" = Some (VFloat v).

(** the parsed fields plus the context, and no error field *)
Definition is_success_row (args : arguments) (wi : Z) (matched_wav v : float)
    (parsed row : dict) : Prop :=
  has_context args wi matched_wav v row ∧
  row !! "error" = None ∧
  (∀ k x, parsed !! k = Some x → row !! k = Some x) ∧
  (∀ k, k ∉ context_names → row !! k = parsed !! k).

(** the context and the message cut to 300 characters, nothing else: the
    error cell is the beginning of the message, 300 characters long or the
    whole message when that is shorter *)
Definition is_error_row (args : arguments) (wi : Z) (matched_wav v : float)
    (message : string) (row : dict) : Prop :=
  has_context args wi matched_wav v row ∧
  (∃ s rest, row !! "error" = Some (VStr s) ∧
             message = s +:+ rest ∧
             String.length s = Nat.min 300 (String.length message)) ∧
  (∀ k, k ∉ context_names → k ≠ "error" → row !! k = None).

(** one row per value, in the order of the values: the success row of a value
    whose query returned, the error row of a value whose query raised; [w1] is
    the world in which the loop starts *)
Definition one_row_per_value (args : arguments) (wi : Z) (matched_wav : float)
    (w1 : world) (rows : list dict) : Prop :=
  length rows = length (values args) ∧
  ∀ i v, values args !! i = Some v →
    ∃ row, rows !! i = Some row ∧
      let resp := network w1 (length (sent w1) + i) (request_of args wi v) in
      ((∃ r parsed,
          resp = Response r ∧ http_error r = None ∧
          parse_pre_block (body r) = Return parsed ∧
          is_success_row args wi matched_wav v parsed row)
       ∨ (∃ e,
            answer_of args resp = Raise e ∧ is_Exception e = true ∧
            is_error_row args wi matched_wav v (str_exn e) row)).

(** ** [read_values] on its three sources *)

(** [float(s.strip()) for s in v.split(",") if s.strip()] *)
Definition values_of_flag (v : string) : outcome (list float) :=
  floats_of (List.filter (λ s, negb (String.eqb s ""))
                         (map Str.strip (Text.split "," v))).

(** the loop over the lines of the file, and over those of stdin *)
Fixpoint values_of_lines (lns : list string) : outcome (list float) :=
  match lns with
  | [] => Return []
  | ln :: rest =>
      let ln := Str.strip ln in
      if String.eqb ln "" then values_of_lines rest
      else
        match FloatRe.search ln with
        | None => values_of_lines rest
        | Some tok =>
            match py_float tok with
            | None =>
                Raise (ValueError ("could not convert string to float: " +:+ tok))
            | Some f => obind (values_of_lines rest) (λ fs, Return (f :: fs))
            end
        end
  end.

(** [if args.values: ...] *)
Definition flag_values (src : sources) : outcome (list float) :=
  match src_values src with
  | Some v => if String.eqb v "" then Return [] else values_of_flag v
  | None => Return []
  end.

(** [if args.values_file: ...] *)
Definition file_values (src : sources) : outcome (list float) :=
  match src_values_file src with
  | Some (Return text) => values_of_lines (Str.splitlines text)
  | Some (Raise e) => Raise e
  | None => Return []
  end.

(** [if not sys.stdin.isatty(): ...] *)
Definition stdin_values (src : sources) : outcome (list float) :=
  match src_stdin src with
  | Some lns => values_of_lines lns
  | None => Return []
  end.

Definition read_values_from (src : sources) : outcome (list float) :=
  obind (flag_values src) (λ vals1,
  obind (file_values src) (λ vals2,
  obind (stdin_values src) (λ vals3,
  let vals := vals1 ++ vals2 ++ vals3 in
  if decide (vals = [])
  then Raise (SystemExit (ExitMsg
         "No input values found. Use --values, --values-file, or pipe via stdin."))
  else Return vals))).

(** ** The dropdown, option by option, in the words of the code's comments

    The line that an [<option>] gives, if it gives one. *)
Definition line_of_option (opt : option_tag) : option line :=
  let val := Str.strip (default "" (value_attr opt)) in
  let txt := Str.strip (text opt) in
  if decide (val = "") then None
  else match py_int val with
       | None => None
       | Some wi => Some (wi, default NaN (py_float txt), txt)
       end.

(** ** Reading a table back

    The row that a record of the table stands for: the columns whose cell is
    not the empty string. *)
Definition row_of_record (header : list string) (record : list value) : dict :=
  list_to_map (omap (λ cell : string * value,
                       match cell.2 with
                       | VStr EmptyString => None
                       | v => Some (cell.1, v)
                       end)
                    (zip header record)).

(** * Properties *)

Local Open Scope nat_scope.

(** ** The scanner *)

Lemma digits_rest_le s :
  (String.length (FloatRe.digits s).2 ≤ String.length s)%nat.
Proof.
  induction s as [|c s IH]; simpl; [lia|].
  destruct (Str.is_digit c); simpl; [|lia].
  destruct (FloatRe.digits s) as [d r]; simpl in *. lia.
Qed.

Lemma digits1_rest_lt s d r :
  FloatRe.digits1 s = Some (d, r) → String.length r < String.length s.
Proof.
  unfold FloatRe.digits1. destruct s as [|c s]; simpl; [discriminate|].
  destruct (Str.is_digit c); [|discriminate].
  pose proof (digits_rest_le s) as Hle.
  destruct (FloatRe.digits s) as [d' r']; simpl in *.
  intros [= <- <-]. lia.
Qed.

Lemma opt_sign_rest_le s :
  (String.length (FloatRe.opt_sign s).2 ≤ String.length s)%nat.
Proof.
  destruct s as [|c s]; simpl; [lia|].
  destruct (FloatRe.is_sign c); simpl; lia.
Qed.

Lemma opt_fraction_rest_le s :
  (String.length (FloatRe.opt_fraction s).2 ≤ String.length s)%nat.
Proof.
  destruct s as [|c s]; simpl; [lia|].
  destruct (Str.code c =? 46)%N; simpl; [|lia].
  destruct (FloatRe.digits1 s) as [[d r]|] eqn:Hd; simpl; [|lia].
  apply digits1_rest_lt in Hd. lia.
Qed.

Lemma opt_exponent_rest_le s :
  (String.length (FloatRe.opt_exponent s).2 ≤ String.length s)%nat.
Proof.
  destruct s as [|c s]; simpl; [lia|].
  destruct ((Str.code c =? 101) || (Str.code c =? 69))%N; simpl; [|lia].
  pose proof (opt_sign_rest_le s) as Hs.
  destruct (FloatRe.opt_sign s) as [sg r0]; simpl in *.
  destruct (FloatRe.digits1 r0) as [[d r]|] eqn:Hd; simpl; [|lia].
  apply digits1_rest_lt in Hd. lia.
Qed.

(** A match consumes at least one character. *)
Lemma match_at_rest_lt s tok rest :
  FloatRe.match_at s = Some (tok, rest) →
  (String.length rest < String.length s)%nat.
Proof.
  unfold FloatRe.match_at.
  pose proof (opt_sign_rest_le s) as Hs.
  destruct (FloatRe.opt_sign s) as [sg r0]; simpl in *.
  destruct (FloatRe.digits1 r0) as [[d r1]|] eqn:Hd; [|discriminate].
  apply digits1_rest_lt in Hd.
  pose proof (opt_fraction_rest_le r1) as Hf.
  destruct (FloatRe.opt_fraction r1) as [fr r2]; simpl in *.
  pose proof (opt_exponent_rest_le r2) as He.
  destruct (FloatRe.opt_exponent r2) as [ex r3]; simpl in *.
  intros [= <- <-]. lia.
Qed.

(** The fuel of [findall] is enough: more fuel finds the same matches. *)
Lemma findall_from_fuel s : ∀ fuel,
  (String.length s < fuel)%nat →
  FloatRe.findall_from fuel s = FloatRe.findall s.
Proof.
  intros fuel. unfold FloatRe.findall.
  generalize (S (String.length s)), (Nat.lt_succ_diag_r (String.length s)).
  revert s. induction fuel as [|fuel IH]; intros s f2 Hf2 Hf1; [lia|].
  destruct f2 as [|f2]; [lia|]. simpl.
  destruct (FloatRe.match_at s) as [[tok rest]|] eqn:Hm.
  - apply match_at_rest_lt in Hm. f_equal. apply IH; lia.
  - destruct s as [|c s]; [done|]. simpl in *. apply IH; lia.
Qed.

Lemma search_None_findall s :
  FloatRe.search s = None → ∀ fuel, FloatRe.findall_from fuel s = [].
Proof.
  induction s as [|c s IH]; intros Hs [|fuel]; simpl in *; try done.
  destruct (FloatRe.match_at (String c s)) as [[??]|]; [done|]. auto.
Qed.

(** [search] finds the first match of [findall]. *)
Lemma search_Some_findall s tok :
  FloatRe.search s = Some tok → head (FloatRe.findall s) = Some tok.
Proof.
  unfold FloatRe.findall. generalize (Nat.lt_succ_diag_r (String.length s)).
  generalize (S (String.length s)) as fuel. intros fuel; revert fuel.
  induction s as [|c s IH]; intros [|fuel] Hf Hs; simpl in *;
    try lia; try done.
  destruct (FloatRe.match_at (String c s)) as [[??]|]; simplify_eq/=; [done|].
  apply IH; [lia|done].
Qed.

(** A line holds a number exactly when the search succeeds on it. *)
Lemma search_is_Some s : is_Some (FloatRe.search s) ↔ FloatRe.findall s ≠ [].
Proof.
  split.
  - intros [tok Hs]. apply search_Some_findall in Hs.
    by destruct (FloatRe.findall s).
  - intros Hne. destruct (FloatRe.search s) eqn:Hs; [eauto|].
    destruct Hne. by apply search_None_findall.
Qed.

Lemma find_rev_Some {A} (f : A → bool) (l : list A) x :
  List.find f (rev l) = Some x →
  ∃ l1 l2, l = l1 ++ x :: l2 ∧ f x = true ∧ Forall (λ y, f y = false) l2.
Proof.
  induction l as [|a l IH] using rev_ind; [done|].
  rewrite rev_app_distr. simpl. destruct (f a) eqn:Hfa.
  - intros [= <-]. exists l, []. split; [done|]. split; [done|]. constructor.
  - intros (l1 & l2 & -> & Hfx & Hl2)%IH.
    exists l1, (l2 ++ [a]). rewrite <- app_assoc. split; [done|]. split; [done|].
    apply Forall_app. by repeat constructor.
Qed.

Lemma find_rev_None {A} (f : A → bool) (l : list A) :
  List.find f (rev l) = None → Forall (λ y, f y = false) l.
Proof.
  intros Hnone. apply List.Forall_forall. intros y Hy.
  apply (find_none _ _ Hnone). by apply in_rev in Hy.
Qed.

(** A line holds a number exactly when it holds a digit. *)
Lemma digit_not_sign c : Str.is_digit c = true → FloatRe.is_sign c = false.
Proof.
  unfold Str.is_digit, FloatRe.is_sign.
  intros [H1 H2]%andb_true_iff. apply N.leb_le in H1, H2.
  apply orb_false_iff. split; apply N.eqb_neq; lia.
Qed.

Lemma match_at_digit c s :
  Str.is_digit c = true → is_Some (FloatRe.match_at (String c s)).
Proof.
  intros Hc. unfold FloatRe.match_at, FloatRe.opt_sign.
  rewrite (digit_not_sign c Hc). unfold FloatRe.digits1. simpl. rewrite Hc.
  destruct (FloatRe.digits s) as [d r1].
  destruct (FloatRe.opt_fraction r1) as [fr r2].
  by destruct (FloatRe.opt_exponent r2) as [ex r3].
Qed.

Lemma digits1_has s d r :
  FloatRe.digits1 s = Some (d, r) → Str.has Str.is_digit s = true.
Proof.
  unfold FloatRe.digits1. destruct s as [|c s]; simpl; [done|].
  by destruct (Str.is_digit c).
Qed.

Lemma match_at_has s tok rest :
  FloatRe.match_at s = Some (tok, rest) → Str.has Str.is_digit s = true.
Proof.
  unfold FloatRe.match_at, FloatRe.opt_sign.
  destruct s as [|c s].
  { by destruct (FloatRe.digits1 "") as [[??]|] eqn:Hd. }
  destruct (FloatRe.is_sign c).
  - destruct (FloatRe.digits1 s) as [[d r1]|] eqn:Hd; [|done].
    intros _. simpl. rewrite (digits1_has _ _ _ Hd). apply orb_true_r.
  - destruct (FloatRe.digits1 (String c s)) as [[d r1]|] eqn:Hd; [|done].
    intros _. by apply digits1_has in Hd.
Qed.

Lemma search_is_Some_digit s :
  is_Some (FloatRe.search s) ↔ Str.has Str.is_digit s = true.
Proof.
  induction s as [|c s IH]; simpl.
  - destruct (FloatRe.match_at "") as [[tok rest]|] eqn:Hm.
    + by apply match_at_has in Hm.
    + split; [by intros [??]|done].
  - destruct (FloatRe.match_at (String c s)) as [[tok rest]|] eqn:Hm.
    + apply match_at_has in Hm. simpl in Hm. split; [done|eauto].
    + rewrite IH. destruct (Str.is_digit c) eqn:Hc; [|done].
      destruct (match_at_digit c s Hc) as [? Hsome]. congruence.
Qed.

(** ** The header *)

Lemma app_cons a x y : String a x +:+ y = String a (x +:+ y).
Proof. reflexivity. Qed.

Lemma lower_app x y : Str.lower (x +:+ y) = Str.lower x +:+ Str.lower y.
Proof.
  induction x as [|a x IH]; [done|]. rewrite app_cons. simpl.
  by rewrite IH, app_cons.
Qed.

Lemma prefix_nil s : String.prefix "" s = true.
Proof. by destruct s. Qed.

Lemma prefix_w_app x c y :
  c ≠ "w"%char → String.prefix "w" (x +:+ String c y) = String.prefix "w" x.
Proof.
  intros Hw. destruct x as [|b x].
  - change ("" +:+ String c y) with (String c y). cbn [String.prefix].
    by destruct (ascii_dec "w" c).
  - rewrite app_cons. cbn [String.prefix].
    destruct (ascii_dec "w" b); [|done]. by rewrite !prefix_nil.
Qed.

(** "ew" does not straddle a character that is neither "e" nor "w". *)
Lemma contains_ew_app x c y :
  c ≠ "e"%char → c ≠ "w"%char →
  Str.contains "ew" (x +:+ String c y)
  = Str.contains "ew" x || Str.contains "ew" y.
Proof.
  intros He Hw. induction x as [|a x IH].
  - change ("" +:+ String c y) with (String c y).
    cbn [Str.contains String.prefix].
    by destruct (ascii_dec "e" c).
  - rewrite app_cons. cbn [Str.contains String.prefix].
    rewrite IH, orb_assoc. do 2 f_equal.
    destruct (ascii_dec "e" a); [|done]. by apply prefix_w_app.
Qed.

(** The header has "ew" exactly when one of the first two lines has it. *)
Lemma header_contains_ew (lines : list string) :
  Str.contains "ew" (Str.lower (Str.join Str.LF (take 2 lines)))
  = existsb (λ ln, Str.contains "ew" (Str.lower ln)) (take 2 lines).
Proof.
  destruct lines as [|a [|b rest]]; simpl.
  - done.
  - by rewrite orb_false_r.
  - unfold Str.join. simpl String.concat.
    change (a ++ Str.LF ++ b)%string
      with (a +:+ String (ascii_of_N 10) b).
    rewrite lower_app. simpl Str.lower at 2.
    change (Str.lower_char (ascii_of_N 10)) with (ascii_of_N 10).
    rewrite contains_ew_app by done. by rewrite orb_false_r.
Qed.


(** ** Comparisons of floats *)

Lemma flt_irrefl x : flt x x = false.
Proof.
  unfold flt, SFltb.
  destruct x as [[]|[]| |[] m e]; simpl; try done;
    rewrite Z.compare_refl;
    change (Pos.compare_cont Eq m m) with (m ?= m)%positive;
    by rewrite Pos.compare_refl.
Qed.

Local Ltac compare_floats a b c :=
  unfold flt, SFltb;
  destruct a as [[]|[]| |[] ?ma ?ea], b as [[]|[]| |[] ?mb ?eb],
           c as [[]|[]| |[] ?mc ?ec]; simpl; try done;
  change (Pos.compare_cont Eq) with Pos.compare;
  repeat match goal with
         | |- context [(?x ?= ?y)%Z] => destruct (Z.compare_spec x y)
         end; try done; try lia;
  repeat match goal with
         | |- context [(?x ?= ?y)%positive] => destruct (Pos.compare_spec x y)
         end; simpl; try done; try lia.

Lemma flt_trans a b c : flt a b = true → flt b c = true → flt a c = true.
Proof. compare_floats a b c. Qed.

(** [y < b] and not [z < b] leave no room for [z < y], NaN or not. *)
Lemma flt_below y b z :
  flt y b = true → flt z b = false → flt z y = false.
Proof.
  intros Hyb Hzb. destruct (flt z y) eqn:Hzy; [|done].
  by rewrite (flt_trans z y b Hzy Hyb) in Hzb.
Qed.

(** Without NaN the order is total: not [a < b] is [b <= a]. *)
Lemma flt_above a b c :
  isnan a = false → isnan b = false →
  flt a b = false → flt a c = true → flt b c = true.
Proof. compare_floats a b c. Qed.

Lemma flt_inf_false d :
  flt d (Inf false) = false → d = NaN ∨ d = Inf false.
Proof. destruct d as [[]|[]| |[] m e]; simpl; auto; done. Qed.

(** ** Differences of doubles

    The rounding of [SpecFloat] has a NaN for a negative mantissa, which the
    difference of two finite doubles never reaches. *)

Lemma shr_1_nonneg mrs : (0 ≤ shr_m mrs)%Z → (0 ≤ shr_m (shr_1 mrs))%Z.
Proof. destruct mrs as [[|[p|p|]|p] r s]; simpl; lia. Qed.

Lemma iter_pos_shr_1_nonneg p : ∀ mrs,
  (0 ≤ shr_m mrs)%Z → (0 ≤ shr_m (SpecFloat.iter_pos shr_1 p mrs))%Z.
Proof. induction p; intros mrs H; simpl; auto using shr_1_nonneg. Qed.

Lemma shr_fexp_nonneg m e l :
  (0 ≤ m)%Z → (0 ≤ shr_m (shr_fexp prec emax m e l).1)%Z.
Proof.
  intros Hm. unfold shr_fexp, shr.
  assert (0 ≤ shr_m (shr_record_of_loc m l))%Z as H0
    by (by destruct l as [|[]]).
  destruct (_ - e)%Z; simpl; [done| |done]. by apply iter_pos_shr_1_nonneg.
Qed.

Lemma round_nearest_even_nonneg m l :
  (0 ≤ m)%Z → (0 ≤ round_nearest_even m l)%Z.
Proof.
  destruct l as [|[]]; simpl; try lia. destruct (Z.even m); lia.
Qed.

Lemma binary_round_aux_not_nan s m e l :
  (0 ≤ m)%Z → isnan (binary_round_aux prec emax s m e l) = false.
Proof.
  intros Hm. unfold binary_round_aux.
  pose proof (shr_fexp_nonneg m e l Hm) as H1.
  destruct (shr_fexp prec emax m e l) as [mrs' e']. simpl in H1.
  pose proof (shr_fexp_nonneg _ e' loc_Exact
                (round_nearest_even_nonneg _ (loc_of_shr_record mrs') H1)) as H2.
  destruct (shr_fexp prec emax _ e' loc_Exact) as [mrs'' e'']. simpl in H2.
  destruct (shr_m mrs''); [done| |lia]. by destruct (_ <=? _)%Z.
Qed.

Lemma fsub_not_nan x y :
  is_finite x = true → is_finite y = true → isnan (fsub x y) = false.
Proof.
  destruct x as [sx| | |sx mx ex], y as [sy| | |sy my ey]; try done;
    intros _ _; unfold fsub, SFsub.
  - by destruct sx, sy.
  - unfold binary_normalize, binary_round.
    destruct (_ - _)%Z; [done|..];
      destruct (shl_align _ _ _); by apply binary_round_aux_not_nan.
Qed.

Lemma isnan_fabs x : isnan (fabs x) = isnan x.
Proof. by destruct x. Qed.

(** ** [min] with a key *)

Lemma py_min_fold_spec {A} (key : A → float) (l : list A) (x : A) :
  let r := foldl (λ best y, if flt (key y) (key best) then y else best) x l in
  r ∈ x :: l ∧ ∀ z, z ∈ x :: l → flt (key z) (key r) = false.
Proof.
  revert x. induction l as [|y l IH] using rev_ind; intros x; simpl.
  { split; [left|]. intros z ->%list_elem_of_singleton. apply flt_irrefl. }
  rewrite foldl_snoc. destruct (IH x) as [Hin Hmin].
  set (b := foldl _ x l) in *. rewrite app_comm_cons.
  destruct (flt (key y) (key b)) eqn:Hlt.
  - split; [apply elem_of_app; right; left|].
    intros z [Hz| ->%list_elem_of_singleton]%elem_of_app.
    + eapply flt_below; eauto.
    + apply flt_irrefl.
  - split; [apply elem_of_app; by left|].
    intros z [Hz| ->%list_elem_of_singleton]%elem_of_app; auto.
Qed.

Lemma py_min_nonempty {A} (key : A → float) (l : list A) :
  l ≠ [] →
  ∃ r, py_min key l = Return r ∧ r ∈ l ∧
       ∀ z, z ∈ l → flt (key z) (key r) = false.
Proof.
  destruct l as [|x l]; [done|]. intros _. eexists. split; [done|].
  apply py_min_fold_spec.
Qed.

(** With equal keys everywhere, [min] keeps the first element. *)
Lemma py_min_first {A} (key : A → float) (x : A) (l : list A) :
  Forall (λ y, flt (key y) (key x) = false) l →
  py_min key (x :: l) = Return x.
Proof.
  simpl. intros Hl. f_equal. induction Hl as [|y l Hy _ IH]; simpl; [done|].
  by rewrite Hy.
Qed.

(** ** The line resolver *)

Lemma find_no_match {A} (f : A → bool) (l : list A) :
  Forall (λ x, f x = false) l → List.find f l = None.
Proof.
  intros Hl. induction Hl as [|x l Hx _ IH]; simpl; [done|]. by rewrite Hx.
Qed.

Lemma distance_key_not_nan w (t : line) :
  isnan t.1.2 = false → distance_key w t = distance w t.
Proof. unfold distance_key, distance. by intros ->. Qed.

Lemma find_Some_split {A} (f : A → bool) (l : list A) x :
  List.find f l = Some x →
  ∃ l1 l2, l = l1 ++ x :: l2 ∧ Forall (λ y, f y = false) l1 ∧ f x = true.
Proof.
  induction l as [|a l IH]; simpl; [done|].
  destruct (f a) eqn:Hfa.
  - intros [= <-]. exists [], l. by repeat split.
  - intros (l1 & l2 & -> & Hl1 & Hx)%IH. exists (a :: l1), l2.
    split; [done|]. split; [by constructor|done].
Qed.

Lemma exact_match_spec w (t : line) :
  exact_match w t = true
  ↔ isnan t.1.2 = false ∧ flt (distance w t) tol = true.
Proof.
  unfold exact_match, distance. by rewrite andb_true_iff, negb_true_iff.
Qed.

(** A distance below infinity is the distance to a finite request. *)
Lemma distance_finite_request w (t : line) :
  flt (distance w t) (Inf false) = true → is_finite w = true.
Proof.
  unfold distance, fsub, fabs. intros H.
  destruct w as [sw|sw| |sw mw ew]; try reflexivity;
    destruct (t.1.2) as [sx|sx| |sx mx ex]; try destruct sx; try destruct sw;
    simpl in H; discriminate H.
Qed.

Lemma distance_not_nan w (t : line) :
  is_finite w = true → isnan t.1.2 = false → isnan (distance w t) = false.
Proof.
  intros Hw Ht. unfold distance. rewrite isnan_fabs.
  destruct (t.1.2) as [sx|sx| |sx mx ex] eqn:Hx; [|clear Hx|done|].
  - by apply fsub_not_nan.
  - by destruct w.
  - by apply fsub_not_nan.
Qed.

Lemma tol_finite : flt tol (Inf false) = true.
Proof. reflexivity. Qed.

(** When no line has a finite distance to the request, every key of [min] is
    an infinity or NaN and no key is below another. *)
Lemma distance_key_unordered w (lines : list line) (x y : line) :
  (∀ t, t ∈ lines → isnan t.1.2 = false →
        flt (distance w t) (Inf false) = false) →
  x ∈ lines → y ∈ lines →
  flt (distance_key w y) (distance_key w x) = false.
Proof.
  intros Hall Hx Hy.
  assert (∀ t, t ∈ lines →
            distance_key w t = NaN ∨ distance_key w t = Inf false) as Hkey.
  { intros t Ht. unfold distance_key.
    destruct (isnan t.1.2) eqn:Hn; simpl; [by right|].
    apply flt_inf_false. by apply Hall. }
  by destruct (Hkey x Hx) as [->| ->], (Hkey y Hy) as [->| ->].
Qed.

(** C2, as the code has it, in the arithmetic of doubles.  A line within 1e-6
    of the request wins by position: the first such line is returned, whether
    or not a later line is nearer.  Without such a line, when some line with
    a wavelength has a finite distance to the request, the result is a line
    whose non-NaN wavelength minimizes the distance over all lines with a
    non-NaN wavelength, and this distance is finite.  The tolerance is the
    double nearest to one millionth.  When no line with a
    wavelength has a finite distance, because the request is NaN or infinite,
    because the wavelengths are, or because every difference overflows, the
    first line of the list is returned. *)
Theorem choose_among_first_within_else_nearest (lines : list line) (w : float) :
  lines ≠ [] →
  tol = dbl (1 # 1000000)
  ∧ (∀ t0, t0 ∈ lines → isnan t0.1.2 = false → flt (distance w t0) tol = true →
     ∃ l1 t l2,
       lines = l1 ++ t :: l2 ∧
       Forall (λ x : line,
                 ¬ (isnan x.1.2 = false ∧ flt (distance w x) tol = true)) l1 ∧
       isnan t.1.2 = false ∧ flt (distance w t) tol = true ∧
       choose_among lines w = Return (t.1.1, t.1.2))
  ∧ ((∀ t, t ∈ lines → isnan t.1.2 = false →
           flt (distance w t) tol = false) →
     (∃ t, t ∈ lines ∧ isnan t.1.2 = false
           ∧ flt (distance w t) (Inf false) = true) →
     ∃ t, t ∈ lines ∧
          choose_among lines w = Return (t.1.1, t.1.2) ∧
          isnan t.1.2 = false ∧
          flt (distance w t) (Inf false) = true ∧
          (∀ t', t' ∈ lines → isnan t'.1.2 = false →
                 flt (distance w t') (distance w t) = false) ∧
          nearest_line lines w (t.1.1, t.1.2))
  ∧ ((∀ t, t ∈ lines → isnan t.1.2 = false →
           flt (distance w t) (Inf false) = false) →
     ∃ t rest, lines = t :: rest ∧
               choose_among lines w = Return (t.1.1, t.1.2)).
Proof.
  intros Hne. split; [by vm_compute|]. split; [|split].
  - intros t0 Ht0 Hn0 Hd0. unfold choose_among.
    destruct (List.find (exact_match w) lines) as [t|] eqn:Hfind.
    + apply find_Some_split in Hfind as (l1 & l2 & Hl & Hl1 & Ht).
      apply exact_match_spec in Ht as [Hn Hd].
      exists l1, t, l2. split; [done|]. split.
      { eapply Forall_impl; [exact Hl1|]. intros x Hx; simpl in Hx.
        rewrite <- exact_match_spec. by rewrite Hx. }
      destruct t as [[wi wav] lbl]. by repeat split.
    + exfalso. apply list_elem_of_In in Ht0.
      pose proof (find_none _ _ Hfind t0 Ht0) as Hf.
      assert (exact_match w t0 = true) as Ht by by apply exact_match_spec.
      congruence.
  - intros Hnone (t0 & Ht0 & Hn0 & Hfin0). unfold choose_among.
    rewrite find_no_match.
    2:{ apply List.Forall_forall. intros x Hx%list_elem_of_In.
        destruct (exact_match w x) eqn:Hx'; [|done].
        apply exact_match_spec in Hx' as [Hn Hd].
        by rewrite (Hnone x Hx Hn) in Hd. }
    destruct (py_min_nonempty (distance_key w) lines Hne)
      as (r & -> & Hr & Hmin). simpl.
    pose proof (distance_finite_request w t0 Hfin0) as Hw.
    specialize (Hmin t0 Ht0) as Hmin0.
    rewrite (distance_key_not_nan w t0 Hn0) in Hmin0.
    assert (isnan r.1.2 = false) as Hrn.
    { destruct (isnan r.1.2) eqn:Hrn; [|done].
      unfold distance_key in Hmin0. rewrite Hrn in Hmin0. simpl in Hmin0.
      congruence. }
    rewrite (distance_key_not_nan w r Hrn) in Hmin0.
    assert (∀ t', t' ∈ lines → isnan t'.1.2 = false →
                  flt (distance w t') (distance w r) = false) as Hnear.
    { intros t' Ht' Hn'. rewrite <- !distance_key_not_nan by done.
      by apply Hmin. }
    exists r. split; [done|]. split; [done|]. split; [done|].
    split; [|split; [done|by exists r]].
    apply (flt_above (distance w t0)); [|by apply distance_not_nan|done..].
    by apply distance_not_nan.
  - intros Hfar. destruct lines as [|t rest]; [done|]. exists t, rest.
    split; [done|]. unfold choose_among. rewrite find_no_match.
    2:{ apply List.Forall_forall. intros x Hx%list_elem_of_In.
        destruct (exact_match w x) eqn:Hx'; [|done].
        apply exact_match_spec in Hx' as [Hn Hd].
        pose proof (Hfar x Hx Hn) as Hf.
        by rewrite (flt_trans _ _ _ Hd tol_finite) in Hf. }
    rewrite py_min_first; [done|].
    apply List.Forall_forall. intros y Hy%list_elem_of_In.
    apply (distance_key_unordered w (t :: rest)); [done|left|by right].
Qed.

(** C10: the resolver returns on every non-empty list; on a list whose
    wavelengths are all NaN it returns the first line; a list that
    [fetch_available_lines] returns is never empty, so that whenever the fetch
    returns, [choose_wi_from_wavelength] returns as well. *)
Theorem choose_wi_total_on_fetched_lines :
  (∀ (lines : list line) w, lines ≠ [] → ∃ r, choose_among lines w = Return r)
  ∧ (∀ (t : line) rest w,
       Forall (λ x : line, isnan x.1.2 = true) (t :: rest) →
       choose_among (t :: rest) w = Return (t.1.1, t.1.2))
  ∧ (∀ element sess wavelength w0 lines w1,
       fetch_available_lines element sess w0 = (Return lines, w1) →
       lines ≠ [] ∧
       ∃ r, choose_wi_from_wavelength element wavelength sess w0
            = (Return r, w1)).
Proof.
  assert (∀ (lines : list line) w, lines ≠ [] →
            ∃ r, choose_among lines w = Return r) as Htotal.
  { intros lines w Hne. unfold choose_among.
    destruct (List.find _ lines) as [[[wi wav] lbl]|]; [eauto|].
    destruct (py_min_nonempty (distance_key w) lines Hne) as (r & -> & _).
    simpl. eauto. }
  split; [done|]. split.
  - intros t rest w Hnan. unfold choose_among.
    rewrite find_no_match.
    2:{ eapply Forall_impl; [exact Hnan|]. intros x Hx; simpl in *.
        unfold exact_match. by rewrite Hx. }
    rewrite py_min_first; [done|].
    apply Forall_cons in Hnan as [Ht Hrest].
    eapply Forall_impl; [exact Hrest|]. intros x Hx; simpl in *.
    unfold distance_key. by rewrite Hx, Ht.
  - intros element sess wavelength w0 lines w1 Hfetch.
    assert (lines ≠ []) as Hne.
    { unfold fetch_available_lines, mbind, M_bind in Hfetch.
      destruct (session_get _ _ _ _ w0) as [[r|e] w']; [|done].
      unfold raise_for_status in Hfetch.
      destruct (http_error r); [done|]. simpl in Hfetch.
      destruct (select_wi (body r)); [|done].
      destruct (decide (foldl add_option [] l = [])); [done|].
      by injection Hfetch as <- _. }
    split; [done|].
    destruct (Htotal lines wavelength Hne) as [r Hr]. exists r.
    unfold choose_wi_from_wavelength, mbind, M_bind. rewrite Hfetch.
    unfold lift. by rewrite Hr.
Qed.

(** ** The CSV header *)

Lemma columns_acc (rows : list dict) (acc : gset string) c :
  c ∈ foldl (λ cols (r : dict), cols ∪ dom r) acc rows
  ↔ c ∈ acc ∨ ∃ r, r ∈ rows ∧ is_Some (r !! c).
Proof.
  revert acc. induction rows as [|r rows IH]; intros acc; simpl.
  - split; [auto|]. intros [?|(r & Hr & _)]; [done|]. by apply elem_of_nil in Hr.
  - rewrite IH, elem_of_union, elem_of_dom. split.
    + intros [[?|?]|(r' & ? & ?)]; [by left|right..].
      * exists r. split; [left|done].
      * exists r'. split; [by right|done].
    + intros [?|(r' & [->|?]%elem_of_cons & ?)]; [by left; left|by left; right|].
      right. by exists r'.
Qed.

Lemma columns_spec (rows : list dict) c :
  c ∈ columns rows ↔ ∃ r, r ∈ rows ∧ is_Some (r !! c).
Proof.
  unfold columns. rewrite columns_acc. split; [|by right].
  intros [?%not_elem_of_empty|?]; done.
Qed.

Lemma StronglySorted_filter {A} (R : relation A) (P : A → Prop)
    `{∀ x, Decision (P x)} (l : list A) :
  StronglySorted R l → StronglySorted R (filter P l).
Proof.
  induction 1 as [|x l Hl IH Hx]; [constructor|].
  rewrite filter_cons. destruct (decide (P x)); [|done].
  constructor; [done|]. apply List.Forall_forall. intros y Hy.
  apply list_elem_of_In, list_elem_of_filter in Hy as [_ Hy].
  rewrite List.Forall_forall in Hx. by apply Hx, list_elem_of_In.
Qed.

Lemma preferred_NoDup : NoDup preferred.
Proof. apply (bool_decide_unpack _). by vm_compute. Qed.

(** C5: the header lists every column name found in some row exactly once:
    first the preferred names in their fixed order, those present only, then
    the other names in ascending order of Python's string comparison. *)
Theorem write_csv_header (rows : list dict) (out_path : option string) :
  rows ≠ [] →
  ∃ t rest,
    write_csv rows out_path = Some t ∧
    header t = filter (λ c, c ∈ columns rows) preferred ++ rest ∧
    StronglySorted String.le rest ∧
    (∀ c, c ∈ rest ↔ c ∈ columns rows ∧ c ∉ preferred) ∧
    (∀ c, c ∈ columns rows ↔ ∃ r, r ∈ rows ∧ is_Some (r !! c)) ∧
    NoDup (header t) ∧
    (∀ c, c ∈ header t ↔ ∃ r, r ∈ rows ∧ is_Some (r !! c)).
Proof using Type.
  clear py_int py_float py_str format_g time_sleep requests_Session.
  intros Hne. unfold write_csv. destruct (decide (rows = [])) as [|_]; [done|].
  eexists _, _. split; [done|]. simpl. split; [done|].
  assert (∀ c, c ∈ sorted (columns rows) ↔ c ∈ columns rows) as Hsorted.
  { intros c. unfold sorted. rewrite merge_sort_Permutation.
    apply elem_of_elements. }
  assert (NoDup (sorted (columns rows))) as Hnd.
  { unfold sorted. rewrite merge_sort_Permutation. apply NoDup_elements. }
  split.
  { apply StronglySorted_filter, StronglySorted_merge_sort; apply _. }
  split.
  { intros c. rewrite list_elem_of_filter, Hsorted. tauto. }
  split; [apply columns_spec|]. split.
  - apply NoDup_app. split; [apply NoDup_filter, preferred_NoDup|]. split.
    + intros c [_ Hc]%list_elem_of_filter [Hc' _]%list_elem_of_filter. done.
    + by apply NoDup_filter.
  - intros c. rewrite <- columns_spec, elem_of_app, !list_elem_of_filter, Hsorted.
    destruct (decide (c ∈ preferred)); tauto.
Qed.

(** ** The session *)

(** What [make_session] hands to the library: the adapter mounted for both
    schemes carries a retry policy with a total of 5, a backoff factor of
    1/2, the forced statuses 429, 500, 502, 503 and 504, and GET as the only
    allowed method.  The retrying itself is done by urllib3, outside the
    program, and is not described here. *)
Lemma make_session_retry_policy :
  ∃ adapter,
    adapters make_session !! "https://" = Some adapter ∧
    adapters make_session !! "http://" = Some adapter ∧
    total (max_retries adapter) = 5%Z ∧
    backoff_factor (max_retries adapter) = (1 # 2)%Q ∧
    (∀ st, st ∈ status_forcelist (max_retries adapter)
           ↔ st ∈ [429; 500; 502; 503; 504]%Z) ∧
    (∀ m, m ∈ allowed_methods (max_retries adapter) ↔ m = "GET").
Proof.
  eexists. split; [|split].
  - unfold make_session; simpl. rewrite lookup_insert_ne by done.
    apply lookup_insert_eq.
  - unfold make_session; simpl. apply lookup_insert_eq.
  - simpl. repeat split; try done.
    + by intros ->%list_elem_of_singleton.
    + intros ->. by left.
Qed.

(** ** One query, one request *)

Lemma query_eq args wi sess v w :
  query args wi sess v w =
  (answer_of args (network w (length (sent w)) (request_of args wi v)),
   {| network := network w; sent := sent w ++ [request_of args wi v] |}).
Proof.
  unfold query, request_of, answer_of.
  destruct (arg_mode args); simpl;
    unfold query_A_from_e, query_nlte_from_lte, mbind, M_bind, session_get;
    [change ENDPOINT_EW with "https://www.inspect-stars.com/A_from_e"
    |change ENDPOINT_LTE with "https://www.inspect-stars.com/nonlte_from_lte"];
    (destruct (network w _ _) as [msg|r]; [done|]);
    unfold raise_for_status; (destruct (http_error r); [done|]); simpl;
    unfold lift; by destruct (parse_pre_block (body r)).
Qed.

Lemma iteration_eq args wi mw sess rows v w :
  iteration args wi mw sess rows v w =
  (obind (row_of args wi mw v
            (network w (length (sent w)) (request_of args wi v)))
         (λ row, obind (time_sleep (sleep args))
                       (λ _, Return (rows ++ [row]))),
   {| network := network w; sent := sent w ++ [request_of args wi v] |}).
Proof.
  unfold iteration, try_except, mbind, M_bind, row_of, lift. rewrite query_eq.
  destruct (answer_of args _) as [res|e]; simpl.
  - by destruct (time_sleep (sleep args)) as [[]|].
  - destruct (is_Exception e); simpl; [|done].
    by destruct (time_sleep (sleep args)) as [[]|].
Qed.

Lemma exchanges_cons args wi w v vs :
  exchanges args wi w (v :: vs) =
  (v, network w (length (sent w)) (request_of args wi v))
  :: exchanges args wi
       {| network := network w; sent := sent w ++ [request_of args wi v] |} vs.
Proof.
  unfold exchanges. rewrite imap_cons. simpl. rewrite Nat.add_0_r.
  f_equal. apply imap_ext. intros i x _. simpl.
  rewrite length_app. simpl. do 2 f_equal. lia.
Qed.

Lemma exchanges_lookup args wi w vs i v :
  vs !! i = Some v →
  exchanges args wi w vs !! i =
  Some (v, network w (length (sent w) + i) (request_of args wi v)).
Proof. intros Hv. unfold exchanges. by rewrite list_lookup_imap, Hv. Qed.

(** The rows of the loop, from the values and the responses to their own
    requests. *)
Lemma for_each_rows args wi mw sess vs : ∀ rows w,
  (for_each (iteration args wi mw sess) vs rows w).1 =
  obind (rows_of args wi mw (exchanges args wi w vs))
        (λ new, Return (rows ++ new)).
Proof.
  induction vs as [|v vs IH]; intros rows w.
  - simpl. by rewrite app_nil_r.
  - rewrite exchanges_cons. simpl. unfold mbind, M_bind.
    rewrite iteration_eq.
    destruct (row_of args wi mw v _) as [row|e]; simpl; [|done].
    destruct (time_sleep (sleep args)) as [[]|e]; simpl; [|done].
    rewrite IH. destruct (rows_of args wi mw _) as [more|e]; simpl; [|done].
    by rewrite <- app_assoc.
Qed.

(** The requests of the loop: those of the values, in order, from the first
    value up to the value at which the loop stopped. *)
Lemma for_each_sent args wi mw sess vs : ∀ rows w,
  let res := for_each (iteration args wi mw sess) vs rows w in
  network res.2 = network w ∧
  ∃ n, n ≤ length vs ∧ (vs ≠ [] → 0 < n) ∧
       sent res.2 = sent w ++ map (request_of args wi) (take n vs) ∧
       (∀ rows', res.1 = Return rows' → n = length vs).
Proof.
  induction vs as [|v vs IH]; intros rows w; simpl.
  - split; [done|]. exists 0. by rewrite app_nil_r.
  - unfold mbind, M_bind. rewrite iteration_eq.
    destruct (row_of args wi mw v _) as [row|e]; simpl.
    + destruct (time_sleep (sleep args)) as [[]|e]; simpl.
      * destruct (IH (rows ++ [row])
          {| network := network w; sent := sent w ++ [request_of args wi v] |})
          as (Hnet & n & Hn & _ & Hsent & Hret).
        split; [done|]. exists (S n). split; [lia|]. split; [lia|]. split.
        -- rewrite Hsent. simpl. by rewrite <- app_assoc.
        -- intros rows' Hr. f_equal. by eapply Hret.
      * split; [done|]. exists 1. split; [lia|]. split; [lia|].
        split; [|done]. simpl. by destruct vs.
    + split; [done|]. exists 1. split; [lia|]. split; [lia|]. split; [|done].
      simpl. by destruct vs.
Qed.

(** C7: a query is one GET request: to [A_from_e] with the value as [e] in
    mode "ew", to [nonlte_from_lte] with the value as [A_lte] in mode "lte",
    with [element_name], [t], [g], [f], [x] and [wi] in both; and the loop of
    [main] sends these requests and no other. *)
Theorem queries_get_fixed_endpoints args wi mw sess :
  (∀ v w, ∃ rq,
     sent (query args wi sess v w).2 = sent w ++ [rq] ∧
     method rq = "GET" ∧
     url rq = match arg_mode args with
              | Ew => "https://www.inspect-stars.com/A_from_e"
              | Lte => "https://www.inspect-stars.com/nonlte_from_lte"
              end ∧
     params rq = [("element_name", element args);
                  (match arg_mode args with Ew => "e" | Lte => "A_lte" end,
                   format_g v);
                  ("t", format_g (teff args)); ("g", format_g (logg args));
                  ("f", format_g (feh args)); ("x", format_g (vt args));
                  ("wi", py_str wi)] ∧
     rq = request_of args wi v)
  ∧ (∀ vs rows w, ∃ n,
       sent (for_each (iteration args wi mw sess) vs rows w).2 =
       sent w ++ map (request_of args wi) (take n vs)).
Proof.
  split.
  - intros v w. rewrite query_eq. simpl. eexists. split; [done|]. done.
  - intros vs rows w.
    destruct (for_each_sent args wi mw sess vs rows w)
      as (_ & n & _ & _ & Hs & _).
    eauto.
Qed.

(** ** What a query raises, what it returns *)

Lemma floats_of_raise tokens e :
  floats_of tokens = Raise e → is_Exception e = true.
Proof.
  induction tokens as [|x rest IH]; simpl; [done|].
  destruct (py_float x); [|by intros [= <-]].
  destruct (floats_of rest); simpl; [done|]. intros [= <-]. by apply IH.
Qed.

(** [SystemExit] comes from the missing [<pre>] and from nowhere else. *)
Lemma parse_pre_block_raise html e :
  parse_pre_block html = Raise e →
  (pre html = None ∧ e = SystemExit (ExitInt 1))
  ∨ (is_Some (pre html) ∧ is_Exception e = true).
Proof.
  unfold parse_pre_block. destruct (pre html) as [text|]; [|intros [= <-]; by left].
  intros He. right. split; [done|].
  destruct (decide _); [by injection He as <-|].
  destruct (last_numeric_line _) as [vl|]; [|by injection He as <-].
  destruct (floats_of _) as [nums|e'] eqn:Hf; simpl in He.
  - unfold fields5, fields4, fields3 in He.
    repeat match type of He with
           | (if ?b then _ else _) = _ => destruct b
           end;
    destruct nums as [|? [|? [|? [|? [|? ?]]]]]; by simplify_eq.
  - injection He as <-. by eapply floats_of_raise.
Qed.

Lemma parse_pre_block_names html parsed k :
  parse_pre_block html = Return parsed → is_Some (parsed !! k) →
  k ∈ parsed_names.
Proof.
  unfold parse_pre_block. destruct (pre html) as [text|]; [|done].
  destruct (decide _); [done|].
  destruct (last_numeric_line _) as [vl|]; [|done].
  destruct (floats_of _) as [nums|e'] eqn:Hf; simpl; [|done].
  intros He [x Hx]. unfold fields5, fields4, fields3 in He.
  repeat match type of He with
         | (if ?b then _ else _) = _ => destruct b
         end;
  destruct nums as [|? [|? [|? [|? [|? ?]]]]]; simplify_eq;
    repeat (apply lookup_insert_Some in Hx as [[<- _]|[_ Hx]];
            [unfold parsed_names; by repeat constructor|]);
    by rewrite lookup_empty in Hx.
Qed.

Lemma row_of_raise args wi mw v resp e :
  row_of args wi mw v resp = Raise e → e = SystemExit (ExitInt 1).
Proof.
  unfold row_of, answer_of. destruct resp as [msg|r]; simpl; [done|].
  destruct (http_error r); simpl; [done|].
  destruct (parse_pre_block (body r)) as [parsed|e'] eqn:Hp; simpl; [done|].
  apply parse_pre_block_raise in Hp as [[_ ->]|[_ He']]; [by intros [= <-]|].
  by rewrite He'.
Qed.

Lemma rows_of_exit args wi mw inputs : ∀ i v resp,
  inputs !! i = Some (v, resp) →
  row_of args wi mw v resp = Raise (SystemExit (ExitInt 1)) →
  i = 0 ∨ time_sleep (sleep args) = Return () →
  rows_of args wi mw inputs = Raise (SystemExit (ExitInt 1)).
Proof.
  induction inputs as [|[v0 resp0] inputs IH]; intros i v resp Hi Hrow Hp;
    [done|].
  simpl. destruct i as [|i]; simpl in Hi.
  - injection Hi as -> ->. by rewrite Hrow.
  - destruct Hp as [|Hp]; [done|].
    destruct (row_of args wi mw v0 resp0) as [row|e] eqn:H0; simpl.
    + rewrite Hp. simpl. by rewrite (IH i v resp Hi Hrow (or_intror Hp)).
    + by apply row_of_raise in H0 as ->.
Qed.

Lemma rows_of_return args wi mw inputs :
  (∀ i v resp, inputs !! i = Some (v, resp) →
               ∃ row, row_of args wi mw v resp = Return row) →
  time_sleep (sleep args) = Return () →
  ∃ new, rows_of args wi mw inputs = Return new ∧
         length new = length inputs ∧
         ∀ i v resp, inputs !! i = Some (v, resp) →
                     ∃ row, new !! i = Some row ∧
                            row_of args wi mw v resp = Return row.
Proof.
  intros Hall Hp. induction inputs as [|[v0 resp0] inputs IH]; simpl.
  { exists []. by repeat split. }
  destruct (Hall 0 v0 resp0 eq_refl) as [row0 Hrow0]. rewrite Hrow0. simpl.
  rewrite Hp. simpl.
  destruct IH as (new & -> & Hlen & Hnew).
  { intros i v resp Hi. by apply (Hall (S i)). }
  simpl. exists (row0 :: new). split; [done|]. split; [simpl; by f_equal|].
  intros [|i] v resp Hi; simpl in *.
  - injection Hi as <- <-. eauto.
  - by apply Hnew.
Qed.

(** ** The rows *)

Local Ltac lookup_literal :=
  repeat (rewrite lookup_insert_ne by done);
  first [apply lookup_insert_eq | apply lookup_empty].

Lemma context_lookup_None args wi mw v k :
  k ∉ context_names →
  (list_to_map (context args wi mw v) : dict) !! k = None.
Proof.
  intros Hk. apply not_elem_of_list_to_map_1. simpl.
  intros Hin. apply Hk. unfold context_names. by right.
Qed.

Lemma parsed_not_context k :
  k ∈ parsed_names → (k ∉ context_names) ∧ (k ≠ "error").
Proof.
  unfold parsed_names, context_names. intros Hk.
  repeat (apply elem_of_cons in Hk as [->|Hk];
          [split; [apply (bool_decide_unpack _); by vm_compute|done]|]).
  by apply elem_of_nil in Hk.
Qed.

Lemma success_row_spec args wi mw v html parsed :
  parse_pre_block html = Return parsed →
  is_success_row args wi mw v parsed
    (success_row args wi mw v
       (<["mode" := VStr (mode_str (arg_mode args))]> parsed)).
Proof.
  intros Hp. unfold is_success_row, has_context, success_row.
  assert (∀ k, k ∉ context_names →
            (list_to_map (context args wi mw v)
             ∪ <["mode" := VStr (mode_str (arg_mode args))]> parsed) !! k
            = parsed !! k) as Hother.
  { intros k Hk. rewrite lookup_union_r.
    - apply lookup_insert_ne. intros <-. apply Hk. by left.
    - by apply context_lookup_None. }
  split; [|split; [|split]]; [|..|done].
  - split.
    { rewrite lookup_union_r; [apply lookup_insert_eq|].
      unfold context; simpl. lookup_literal. }
    repeat split; apply lookup_union_Some_l; unfold context; simpl;
      lookup_literal.
  - rewrite Hother by (apply (bool_decide_unpack _); by vm_compute).
    destruct (parsed !! "error") eqn:He; [|done].
    assert ("error" ∈ parsed_names) as Hin
      by (eapply parse_pre_block_names; eauto).
    by apply parsed_not_context in Hin as [_ ?].
  - intros k x Hk. rewrite Hother; [done|].
    eapply parsed_not_context, parse_pre_block_names; eauto.
Qed.

Lemma prefix_of_cut n : ∀ s,
  ∃ rest, s = Str.prefix_of n s +:+ rest
          ∧ String.length (Str.prefix_of n s) = Nat.min n (String.length s).
Proof.
  unfold Str.prefix_of. induction n as [|n IH]; intros s.
  - exists s. by destruct s.
  - destruct s as [|c s]; [by exists ""|].
    destruct (IH s) as (rest & Hs & Hlen). exists rest. simpl.
    split; [by rewrite app_cons, <- Hs|by rewrite Hlen].
Qed.

Lemma error_row_spec args wi mw v message :
  is_error_row args wi mw v message (error_row args wi mw v message).
Proof.
  unfold is_error_row, has_context, error_row, context. simpl.
  split; [repeat split; lookup_literal|]. split.
  { destruct (prefix_of_cut 300 message) as (rest & Hs & Hlen).
    exists (Str.prefix_of 300 message), rest. split; [lookup_literal|done]. }
  intros k Hk Herr. unfold context_names in Hk.
  repeat (rewrite lookup_insert_ne;
          [|first [congruence | intros <-; apply Hk; by repeat constructor]]).
  apply lookup_empty.
Qed.

(** When no query leaves through [SystemExit], the loop appends one row per
    value, in the order of the values. *)
Lemma loop_rows_spec args wi mw sess (vs : list float) rows w :
  (∀ i v, vs !! i = Some v →
     ∀ e, answer_of args
            (network w (length (sent w) + i) (request_of args wi v)) = Raise e →
          is_Exception e = true) →
  time_sleep (sleep args) = Return () →
  ∃ new,
    (for_each (iteration args wi mw sess) vs rows w).1 = Return (rows ++ new) ∧
    length new = length vs ∧
    ∀ i v, vs !! i = Some v →
      ∃ row, new !! i = Some row ∧
        let resp := network w (length (sent w) + i) (request_of args wi v) in
        ((∃ r parsed,
            resp = Response r ∧ http_error r = None ∧
            parse_pre_block (body r) = Return parsed ∧
            is_success_row args wi mw v parsed row)
         ∨ (∃ e,
              answer_of args resp = Raise e ∧ is_Exception e = true ∧
              is_error_row args wi mw v (str_exn e) row)).
Proof.
  intros Hall Hp. rewrite for_each_rows.
  destruct (rows_of_return args wi mw (exchanges args wi w vs))
    as (new & -> & Hlen & Hnew); [|done|].
  { intros i v resp Hi.
    assert (is_Some (vs !! i)) as [v' Hv'].
    { apply lookup_lt_is_Some. apply lookup_lt_Some in Hi.
      unfold exchanges in Hi. by rewrite length_imap in Hi. }
    rewrite (exchanges_lookup _ _ _ _ _ _ Hv') in Hi. injection Hi as <- <-.
    unfold row_of. destruct (answer_of args _) as [res|e] eqn:Ha; [eauto|].
    rewrite (Hall i v' Hv' e Ha). eauto. }
  simpl. exists new. split; [done|]. split.
  { rewrite Hlen. unfold exchanges. by rewrite length_imap. }
  intros i v Hv.
  destruct (Hnew i v _ (exchanges_lookup args wi w vs i v Hv))
    as (row & Hrow & Hof).
  exists row. split; [done|]. simpl.
  unfold row_of in Hof.
  destruct (answer_of args _) as [res|e] eqn:Ha.
  - left. injection Hof as <-. unfold answer_of in Ha.
    destruct (network w _ _) as [msg|r]; [done|].
    destruct (http_error r) eqn:Herr; [done|].
    destruct (parse_pre_block (body r)) as [parsed|e] eqn:Hp'; [|done].
    simpl in Ha. injection Ha as <-. exists r, parsed.
    split; [done|]. split; [done|]. split; [done|].
    by eapply success_row_spec.
  - right. rewrite (Hall i v Hv e Ha) in Hof. injection Hof as <-.
    exists e. split; [done|]. split; [by eapply Hall|]. apply error_row_spec.
Qed.

Lemma rows_of_inv args wi mw inputs : ∀ new,
  rows_of args wi mw inputs = Return new →
  Forall2 (λ (x : float * http_response) row,
             row_of args wi mw x.1 x.2 = Return row) inputs new.
Proof.
  induction inputs as [|[v resp] inputs IH]; intros new; simpl.
  - intros [= <-]. constructor.
  - destruct (row_of args wi mw v resp) as [row|] eqn:Hrow; simpl; [|done].
    destruct (time_sleep (sleep args)) as [[]|]; simpl; [|done].
    destruct (rows_of args wi mw inputs) as [more|]; simpl; [|done].
    intros [= <-]. constructor; [done|]. by apply IH.
Qed.

(** A batch that has a value and runs to its end has paused. *)
Lemma rows_of_pause args wi mw inputs new :
  rows_of args wi mw inputs = Return new → inputs ≠ [] →
  time_sleep (sleep args) = Return ().
Proof.
  destruct inputs as [|[v resp] inputs]; [done|]. simpl. intros H _.
  destruct (row_of args wi mw v resp); simpl in H; [|done].
  by destruct (time_sleep (sleep args)) as [[]|].
Qed.

(** When the pause raises, the loop ends after its first value. *)
Lemma rows_of_pause_raise args wi mw v resp rest e :
  time_sleep (sleep args) = Raise e →
  rows_of args wi mw ((v, resp) :: rest)
  = obind (row_of args wi mw v resp) (λ _, Raise e).
Proof. intros Hp. simpl. rewrite Hp. by destruct (row_of _ _ _ _ _). Qed.

Lemma row_of_wavelength args wi mw v resp row :
  row_of args wi mw v resp = Return row →
  row !! "wavelength_A" = Some (VFloat mw).
Proof.
  unfold row_of. destruct (answer_of args resp) as [res|e].
  - intros [= <-]. unfold success_row, context.
    apply lookup_union_Some_l. simpl. lookup_literal.
  - destruct (is_Exception e); [|done]. intros [= <-].
    unfold error_row, context. simpl. lookup_literal.
Qed.

(** ** Resolving the line *)

Lemma fetch_world element sess w :
  (fetch_available_lines element sess w).2 =
  {| network := network w; sent := sent w ++ [lines_request element] |}.
Proof.
  unfold fetch_available_lines, mbind, M_bind, session_get, lines_request.
  change ENDPOINT_LTE with "https://www.inspect-stars.com/nonlte_from_lte".
  change ("https://www.inspect-stars.com/nonlte_from_lte"
          +:+ "?element_name=" +:+ element)
    with ("https://www.inspect-stars.com/nonlte_from_lte?element_name="
          +:+ element).
  destruct (network w _ _) as [msg|r]; [done|].
  unfold raise_for_status. destruct (http_error r); [done|]. simpl.
  destruct (select_wi (body r)); [|done].
  by destruct (decide _).
Qed.

Lemma resolve_return args sess w x w1 :
  resolve args sess w = (Return x, w1) →
  w1 = {| network := network w;
          sent := sent w ++ [lines_request (element args)] |}.
Proof.
  unfold resolve, choose_wi_from_wavelength, mbind, M_bind.
  pose proof (fetch_world (element args) sess w) as Hw.
  destruct (wavelength args), (arg_wi args);
    unfold lift, mret, M_ret, raise; cbv beta; try done;
    destruct (fetch_available_lines (element args) sess w) as [[lines|e] w'];
    simpl in Hw; subst w'; intros Heq; by simplify_eq.
Qed.

Lemma wav_map_acc (lines : list line) (wi : Z) : ∀ m : gmap Z float,
  (∀ t, t ∈ lines → t.1.1 ≠ wi) →
  foldl (λ m (t : line), <[t.1.1 := t.1.2]> m) m lines !! wi = m !! wi.
Proof.
  induction lines as [|t lines IH]; intros m Hno; simpl; [done|].
  rewrite IH.
  - apply lookup_insert_ne. apply Hno. by left.
  - intros t' Ht'. apply Hno. by right.
Qed.

(** ** The whole run *)

Lemma main_eq args w wi mw w1 :
  Bool.eqb (bool_decide (wavelength args = None))
           (bool_decide (arg_wi args = None)) = false →
  values args ≠ [] →
  resolve args make_session w = (Return (wi, mw), w1) →
  main args w =
  let res := for_each (iteration args wi mw make_session) (values args) [] w1 in
  (obind res.1 (λ rows, Return (write_csv rows (out args))), res.2).
Proof.
  intros Hargs Hvals Hres. unfold main. rewrite Hargs.
  unfold mbind, M_bind, read_values.
  destruct (decide (values args = [])); [done|].
  unfold mret at 1, M_ret at 1. rewrite Hres.
  by destruct (for_each _ (values args) [] w1) as [[rows|e] w2].
Qed.

(** C4: in a run that reaches the loop and in which every query returns or
    raises an [Exception], the rows that [write_csv] receives are one row per
    value, in the order of the values; the row of a value whose query
    returned holds the parsed fields, the context and no error field; the row
    of a value whose query raised holds the context and the message of the
    exception cut to 300 characters.  [write_csv] receives them whenever
    [time.sleep] accepts the pause; when it refuses it, the run ends with its
    exception and [write_csv] is not called. *)
Theorem main_one_row_per_value args w wi mw w1 :
  Bool.eqb (bool_decide (wavelength args = None))
           (bool_decide (arg_wi args = None)) = false →
  values args ≠ [] →
  resolve args make_session w = (Return (wi, mw), w1) →
  (∀ i v, values args !! i = Some v →
     ∀ e, answer_of args
            (network w1 (length (sent w1) + i) (request_of args wi v)) = Raise e →
          is_Exception e = true) →
  (time_sleep (sleep args) = Return () →
     ∃ rows, (main args w).1 = Return (write_csv rows (out args)) ∧
             one_row_per_value args wi mw w1 rows)
  ∧ (∀ x, (main args w).1 = Return x →
       ∃ rows, x = write_csv rows (out args) ∧
               one_row_per_value args wi mw w1 rows)
  ∧ (∀ e, time_sleep (sleep args) = Raise e → (main args w).1 = Raise e).
Proof.
  intros Hargs Hvals Hres Hall.
  assert (time_sleep (sleep args) = Return () →
     ∃ rows, (main args w).1 = Return (write_csv rows (out args)) ∧
             one_row_per_value args wi mw w1 rows) as Hok.
  { intros Hp.
    destruct (loop_rows_spec args wi mw make_session (values args) [] w1 Hall Hp)
      as (rows & Hrows & Hlen & Hspec).
    exists rows. rewrite (main_eq args w wi mw w1 Hargs Hvals Hres). simpl.
    rewrite Hrows. simpl. done. }
  assert (∀ e, time_sleep (sleep args) = Raise e → (main args w).1 = Raise e)
    as Hno.
  { intros e Hp. rewrite (main_eq args w wi mw w1 Hargs Hvals Hres). simpl.
    rewrite for_each_rows.
    destruct (values args) as [|v vs] eqn:Hvs; [done|].
    rewrite exchanges_cons, (rows_of_pause_raise _ _ _ _ _ _ e Hp).
    unfold row_of. destruct (answer_of args _) as [res|e'] eqn:Ha; [done|].
    specialize (Hall 0 v eq_refl e'). rewrite Nat.add_0_r in Hall.
    by rewrite (Hall Ha). }
  split; [done|]. split; [|done].
  intros x Hx. destruct (time_sleep (sleep args)) as [[]|e] eqn:Hp.
  - destruct (Hok eq_refl) as (rows & Hmain & Hrows). exists rows.
    split; [congruence|done].
  - rewrite (Hno e eq_refl) in Hx. done.
Qed.

(** ** The batch *)

Lemma row_of_missing_pre args wi mw v r :
  http_error r = None → pre (body r) = None →
  row_of args wi mw v (Response r) = Raise (SystemExit (ExitInt 1)).
Proof.
  intros Herr Hpre. unfold row_of, answer_of, parse_pre_block.
  by rewrite Herr, Hpre.
Qed.

Lemma row_of_raise_iff args wi mw v resp e :
  row_of args wi mw v resp = Raise e
  ↔ e = SystemExit (ExitInt 1)
    ∧ ∃ r, resp = Response r ∧ http_error r = None ∧ pre (body r) = None.
Proof.
  split.
  - intros Hrow. split; [by eapply row_of_raise|].
    unfold row_of, answer_of in Hrow. destruct resp as [msg|r]; [done|].
    destruct (http_error r) eqn:Herr; [done|]. exists r. split; [done|].
    split; [done|].
    destruct (parse_pre_block (body r)) as [parsed|e'] eqn:Hp; [done|].
    apply parse_pre_block_raise in Hp as [[Hpre _]|[_ He']]; [done|].
    simpl in Hrow. by rewrite He' in Hrow.
  - intros (-> & r & -> & Herr & Hpre). by apply row_of_missing_pre.
Qed.

(** The rows of a batch in which no response lacks a [<pre>] *)
Lemma rows_of_pre_present args wi mw w (vs : list float) :
  (∀ i v r,
     vs !! i = Some v →
     network w (length (sent w) + i) (request_of args wi v) = Response r →
     http_error r = None → is_Some (pre (body r))) →
  ∀ i v resp, exchanges args wi w vs !! i = Some (v, resp) →
              ∃ row, row_of args wi mw v resp = Return row.
Proof.
  intros Hall i v resp Hi.
  assert (is_Some (vs !! i)) as [v' Hv'].
  { apply lookup_lt_is_Some. apply lookup_lt_Some in Hi.
    unfold exchanges in Hi. by rewrite length_imap in Hi. }
  rewrite (exchanges_lookup _ _ _ _ _ _ Hv') in Hi. injection Hi as <- <-.
  destruct (row_of args wi mw v' _) as [row|e] eqn:Hrow; [eauto|].
  apply row_of_raise_iff in Hrow as (_ & r & Hnet & Herr & Hpre).
  destruct (Hall i v' r Hv' Hnet Herr) as [? ?]. congruence.
Qed.

(** The loop stops at the first value whose response lacks a [<pre>]: the
    request of that value is the last one sent. *)
Lemma for_each_exit args wi mw sess : ∀ vs rows w i v,
  vs !! i = Some v →
  row_of args wi mw v (network w (length (sent w) + i) (request_of args wi v))
  = Raise (SystemExit (ExitInt 1)) →
  i = 0 ∨ time_sleep (sleep args) = Return () →
  ∃ j v', j ≤ i ∧ vs !! j = Some v' ∧
    row_of args wi mw v'
      (network w (length (sent w) + j) (request_of args wi v'))
    = Raise (SystemExit (ExitInt 1)) ∧
    (∀ k u, k < j → vs !! k = Some u →
       ∃ row, row_of args wi mw u
                (network w (length (sent w) + k) (request_of args wi u))
              = Return row) ∧
    for_each (iteration args wi mw sess) vs rows w
    = (Raise (SystemExit (ExitInt 1)),
       {| network := network w;
          sent := sent w ++ map (request_of args wi) (take (S j) vs) |}).
Proof.
  induction vs as [|v0 vs IH]; intros rows w i v Hv Hrow Hp; [done|].
  simpl for_each. unfold mbind, M_bind. rewrite iteration_eq.
  destruct (row_of args wi mw v0 (network w (length (sent w)) _))
    as [row|e] eqn:H0.
  - destruct i as [|i]; simpl in Hv.
    { injection Hv as <-. rewrite Nat.add_0_r in Hrow. congruence. }
    destruct Hp as [|Hp]; [done|]. simpl. rewrite Hp. simpl.
    destruct (IH (rows ++ [row])
                {| network := network w;
                   sent := sent w ++ [request_of args wi v0] |} i v Hv)
      as (j & v' & Hj & Hv' & Hrow' & Hbefore & Hloop).
    { simpl. rewrite length_app. simpl.
      by replace (length (sent w) + 1 + i) with (length (sent w) + S i) by lia. }
    { by right. }
    exists (S j), v'. split; [lia|]. split; [done|]. split.
    { simpl in Hrow'. rewrite length_app in Hrow'. simpl in Hrow'.
      by replace (length (sent w) + 1 + j) with (length (sent w) + S j)
        in Hrow' by lia. }
    split.
    { intros [|k] u Hk Hu; simpl in Hu.
      - injection Hu as <-. rewrite Nat.add_0_r. eauto.
      - destruct (Hbefore k u ltac:(lia) Hu) as [row' Hrow'']. exists row'.
        simpl in Hrow''. rewrite length_app in Hrow''. simpl in Hrow''.
        by replace (length (sent w) + 1 + k) with (length (sent w) + S k)
          in Hrow'' by lia. }
    rewrite Hloop. simpl. by rewrite <- app_assoc.
  - apply row_of_raise in H0 as He. subst e. simpl.
    exists 0, v0. split; [lia|]. split; [done|]. rewrite Nat.add_0_r.
    split; [done|]. split; [intros k u Hk; lia|]. by rewrite take_0.
Qed.

(** C3: without a [<pre>] element [parse_pre_block] raises [SystemExit] with
    code 1, which is not an [Exception].  When the response to the query of a
    value reaches the parser without a [<pre>], the handler of the loop lets
    the exit through: the loop ends with it at the first such value, whose
    request is the last one sent, whatever the later values are; [main] ends
    with it as well, so that [write_csv] is not reached and no table is
    produced.  A value after the first is reached only when [time.sleep]
    accepts the pause. *)
Theorem missing_pre_exits_batch :
  (∀ html, pre html = None →
     parse_pre_block html = Raise (SystemExit (ExitInt 1)))
  ∧ is_Exception (SystemExit (ExitInt 1)) = false
  ∧ (∀ args wi mw sess vs rows w i v r,
       vs !! i = Some v →
       network w (length (sent w) + i) (request_of args wi v) = Response r →
       http_error r = None → pre (body r) = None →
       i = 0 ∨ time_sleep (sleep args) = Return () →
       ∃ j v' r', j ≤ i ∧ vs !! j = Some v' ∧
         network w (length (sent w) + j) (request_of args wi v') = Response r' ∧
         http_error r' = None ∧ pre (body r') = None ∧
         (∀ k u r0, k < j → vs !! k = Some u →
            network w (length (sent w) + k) (request_of args wi u)
            = Response r0 →
            http_error r0 = None → is_Some (pre (body r0))) ∧
         for_each (iteration args wi mw sess) vs rows w
         = (Raise (SystemExit (ExitInt 1)),
            {| network := network w;
               sent := sent w ++ map (request_of args wi) (take (S j) vs) |}))
  ∧ (∀ args w wi mw w1 i v r,
       Bool.eqb (bool_decide (wavelength args = None))
                (bool_decide (arg_wi args = None)) = false →
       resolve args make_session w = (Return (wi, mw), w1) →
       values args !! i = Some v →
       network w1 (length (sent w1) + i) (request_of args wi v) = Response r →
       http_error r = None → pre (body r) = None →
       i = 0 ∨ time_sleep (sleep args) = Return () →
       ∃ j, j ≤ i ∧
         main args w
         = (Raise (SystemExit (ExitInt 1)),
            {| network := network w;
               sent := sent w ++ lines_request (element args)
                       :: map (request_of args wi)
                              (take (S j) (values args)) |})).
Proof.
  assert (∀ args wi mw sess vs rows w i v r,
       vs !! i = Some v →
       network w (length (sent w) + i) (request_of args wi v) = Response r →
       http_error r = None → pre (body r) = None →
       i = 0 ∨ time_sleep (sleep args) = Return () →
       ∃ j v' r', j ≤ i ∧ vs !! j = Some v' ∧
         network w (length (sent w) + j) (request_of args wi v') = Response r' ∧
         http_error r' = None ∧ pre (body r') = None ∧
         (∀ k u r0, k < j → vs !! k = Some u →
            network w (length (sent w) + k) (request_of args wi u)
            = Response r0 →
            http_error r0 = None → is_Some (pre (body r0))) ∧
         for_each (iteration args wi mw sess) vs rows w
         = (Raise (SystemExit (ExitInt 1)),
            {| network := network w;
               sent := sent w ++ map (request_of args wi) (take (S j) vs) |}))
    as Hloop.
  { intros args wi mw sess vs rows w i v r Hv Hnet Herr Hpre Hp.
    destruct (for_each_exit args wi mw sess vs rows w i v Hv)
      as (j & v' & Hj & Hv' & Hrow' & Hbefore & Hfor); [|done|].
    { rewrite Hnet. by apply row_of_missing_pre. }
    apply row_of_raise_iff in Hrow' as (_ & r' & Hnet' & Herr' & Hpre').
    exists j, v', r'. do 5 (split; [done|]). split; [|done].
    intros k u r0 Hk Hu Hnet0 Herr0.
    destruct (pre (body r0)) eqn:Hpre0; [done|].
    destruct (Hbefore k u Hk Hu) as [row Hrow]. rewrite Hnet0 in Hrow.
    by rewrite (row_of_missing_pre args wi mw u r0 Herr0 Hpre0) in Hrow. }
  split; [|split; [done|split; [done|]]].
  { intros html Hpre. unfold parse_pre_block. by rewrite Hpre. }
  intros args w wi mw w1 i v r Hargs Hres Hv Hnet Herr Hpre Hp.
  assert (values args ≠ []) as Hvals by (intros Hnil; by rewrite Hnil in Hv).
  destruct (Hloop args wi mw make_session (values args) [] w1 i v r
              Hv Hnet Herr Hpre Hp)
    as (j & _ & _ & Hj & _ & _ & _ & _ & _ & Hfor).
  exists j. split; [done|].
  rewrite (main_eq args w wi mw w1 Hargs Hvals Hres), Hfor. simpl.
  apply resolve_return in Hres. subst w1. simpl. by rewrite <- app_assoc.
Qed.

(** C8: the outcome of the loop is computed from the values and the
    responses to their own requests, row by row: each row is [row_of] of its
    value and of the response to the request of that value; two runs that see
    the same exchanges end alike, with the same rows or the same exception;
    and of the arguments a row uses the element, the mode and the four
    stellar parameters only. *)
Theorem rows_depend_on_own_exchange args wi mw sess (vs : list float) rows :
  (∀ w, (for_each (iteration args wi mw sess) vs rows w).1 =
        obind (rows_of args wi mw (exchanges args wi w vs))
              (λ new, Return (rows ++ new)))
  ∧ (∀ w new,
       (for_each (iteration args wi mw sess) vs rows w).1 = Return (rows ++ new) →
       length new = length vs ∧
       ∀ i v, vs !! i = Some v →
         ∃ row, new !! i = Some row ∧
           row_of args wi mw v
             (network w (length (sent w) + i) (request_of args wi v))
           = Return row)
  ∧ (∀ w1 w2,
       exchanges args wi w1 vs = exchanges args wi w2 vs →
       (for_each (iteration args wi mw sess) vs rows w1).1 =
       (for_each (iteration args wi mw sess) vs rows w2).1)
  ∧ (∀ args' v resp,
       element args' = element args → arg_mode args' = arg_mode args →
       teff args' = teff args → logg args' = logg args →
       feh args' = feh args → vt args' = vt args →
       row_of args' wi mw v resp = row_of args wi mw v resp).
Proof.
  split; [intros w; apply for_each_rows|]. split; [|split].
  - intros w new. rewrite for_each_rows.
    destruct (rows_of args wi mw _) as [new'|e] eqn:Hrows; simpl; [|done].
    intros [= ->%app_inv_head]. apply rows_of_inv in Hrows.
    split.
    { apply Forall2_length in Hrows. unfold exchanges in Hrows.
      by rewrite length_imap in Hrows. }
    intros i v Hv.
    destruct (Forall2_lookup_l _ _ _ i _ Hrows
                (exchanges_lookup args wi w vs i v Hv)) as (row & Hrow & Hof).
    by exists row.
  - intros w1 w2 Hex. by rewrite !for_each_rows, Hex.
  - intros args' v resp He Hm Ht Hg Hf Hx.
    unfold row_of, answer_of, success_row, error_row, context.
    by rewrite He, Hm, Ht, Hg, Hf, Hx.
Qed.

(** C9: with [--wi] and no [--wavelength], an index that no line of the
    dropdown carries is taken as it is.  Resolving returns it with a NaN
    wavelength; the run then sends the queries of the values in their order,
    each with this index as [wi], the first in any case and all of them when
    it returns; it returns whenever no response lacks a [<pre>] and the pause
    is accepted; and every row of the table has NaN as [wavelength_A]. *)
Theorem unlisted_wi_taken_unvalidated args wi w (lines : list line) w1 :
  wavelength args = None → arg_wi args = Some wi →
  fetch_available_lines (element args) make_session w = (Return lines, w1) →
  (∀ t, t ∈ lines → t.1.1 ≠ wi) →
  values args ≠ [] →
  resolve args make_session w = (Return (wi, NaN), w1)
  ∧ (∃ n, 0 < n ≤ length (values args) ∧
          sent (main args w).2
          = sent w ++ lines_request (element args)
                   :: map (request_of args wi) (take n (values args)) ∧
          (∀ x, (main args w).1 = Return x → n = length (values args)))
  ∧ (∀ v, url (request_of args wi v)
          = match arg_mode args with
            | Ew => "https://www.inspect-stars.com/A_from_e"
            | Lte => "https://www.inspect-stars.com/nonlte_from_lte"
            end
          ∧ ("wi", py_str wi) ∈ params (request_of args wi v))
  ∧ (∀ x, (main args w).1 = Return x →
       ∃ rows, x = write_csv rows (out args) ∧
               length rows = length (values args) ∧
               ∀ row, row ∈ rows → row !! "wavelength_A" = Some (VFloat NaN))
  ∧ ((∀ i v r,
        values args !! i = Some v →
        network w1 (length (sent w1) + i) (request_of args wi v) = Response r →
        http_error r = None → is_Some (pre (body r))) →
     time_sleep (sleep args) = Return () →
     ∃ x, (main args w).1 = Return x).
Proof.
  intros Hwav Hwi Hfetch Hno Hvals.
  assert (resolve args make_session w = (Return (wi, NaN), w1)) as Hres.
  { unfold resolve, mbind, M_bind. rewrite Hwav, Hwi, Hfetch.
    unfold mret, M_ret, wav_map. by rewrite wav_map_acc, lookup_empty. }
  assert (Bool.eqb (bool_decide (wavelength args = None))
                   (bool_decide (arg_wi args = None)) = false) as Hargs
    by (by rewrite Hwav, Hwi).
  pose proof (main_eq args w wi NaN w1 Hargs Hvals Hres) as Hmain.
  split; [done|]. split; [|split; [|split]].
  - destruct (for_each_sent args wi NaN make_session (values args) [] w1)
      as (_ & n & Hn & Hpos & Hsent & Hret).
    exists n. split; [split; [by apply Hpos|done]|].
    rewrite Hmain. simpl. split.
    + rewrite Hsent. apply resolve_return in Hres. subst w1. simpl.
      by rewrite <- app_assoc.
    + intros x Hx. destruct (for_each _ _ _ _).1 as [rows|e] eqn:Hfor; [|done].
      by eapply Hret.
  - intros v. split; [done|]. unfold request_of; simpl. by repeat constructor.
  - intros x. rewrite Hmain. simpl. rewrite for_each_rows.
    destruct (rows_of args wi NaN _) as [new|e] eqn:Hrows; simpl; [|done].
    intros [= <-]. exists new. split; [done|]. apply rows_of_inv in Hrows.
    split.
    { apply Forall2_length in Hrows. unfold exchanges in Hrows.
      by rewrite length_imap in Hrows. }
    intros row Hrow. apply list_elem_of_lookup in Hrow as [i Hi].
    destruct (Forall2_lookup_r _ _ _ i _ Hrows Hi) as ([v resp] & _ & Hof).
    by eapply row_of_wavelength.
  - intros Hpre Hp. rewrite Hmain. simpl. rewrite for_each_rows.
    destruct (rows_of_return args wi NaN (exchanges args wi w1 (values args)))
      as (new & -> & _); [by apply rows_of_pre_present|done|].
    simpl. eauto.
Qed.

(** * More of the code *)

(** ** The matches of FLOAT_RE *)

Lemma app_assoc_s x y z : (x +:+ y) +:+ z = x +:+ (y +:+ z).
Proof.
  induction x as [|a x IH]; [done|]. by rewrite !app_cons, IH.
Qed.

Lemma app_nil_s x : x +:+ "" = x.
Proof. induction x as [|a x IH]; [done|]. by rewrite app_cons, IH. Qed.

Lemma digits_cut s :
  s = (FloatRe.digits s).1 +:+ (FloatRe.digits s).2
  ∧ Text.all Str.is_digit (FloatRe.digits s).1 = true.
Proof.
  induction s as [|c s [IH1 IH2]]; simpl; [done|].
  destruct (Str.is_digit c) eqn:Hc; [|done].
  destruct (FloatRe.digits s) as [d r]; simpl in *.
  rewrite app_cons, <- IH1. simpl. by rewrite Hc, IH2.
Qed.

Lemma digits1_cut s d r :
  FloatRe.digits1 s = Some (d, r) → s = d +:+ r ∧ Shape.digits1 d.
Proof.
  unfold FloatRe.digits1. destruct (digits_cut s) as [Hs Hd].
  destruct (FloatRe.digits s) as [[|c d'] r']; [done|].
  intros [= <- <-]. by repeat split.
Qed.

Lemma opt_sign_cut s :
  s = (FloatRe.opt_sign s).1 +:+ (FloatRe.opt_sign s).2
  ∧ Shape.sign (FloatRe.opt_sign s).1.
Proof.
  destruct s as [|c s]; simpl; [by split; [|left]|].
  unfold FloatRe.is_sign.
  destruct (Str.code c =? 43)%N eqn:H1; simpl.
  { apply N.eqb_eq in H1. split; [done|]. right; left.
    unfold Str.code in H1. by rewrite <- (ascii_N_embedding c), H1. }
  destruct (Str.code c =? 45)%N eqn:H2; simpl.
  { apply N.eqb_eq in H2. split; [done|]. right; right.
    unfold Str.code in H2. by rewrite <- (ascii_N_embedding c), H2. }
  by split; [|left].
Qed.

Lemma opt_fraction_cut s :
  s = (FloatRe.opt_fraction s).1 +:+ (FloatRe.opt_fraction s).2
  ∧ Shape.fraction (FloatRe.opt_fraction s).1.
Proof.
  destruct s as [|c s]; simpl; [by split; [|left]|].
  destruct (Str.code c =? 46)%N eqn:Hc; simpl; [|by split; [|left]].
  destruct (FloatRe.digits1 s) as [[d r]|] eqn:Hd; simpl; [|by split; [|left]].
  apply digits1_cut in Hd as [-> Hd]. split; [done|]. right. exists d.
  split; [|done]. apply N.eqb_eq in Hc. unfold Str.code in Hc.
  by rewrite <- (ascii_N_embedding c), Hc.
Qed.

Lemma opt_exponent_cut s :
  s = (FloatRe.opt_exponent s).1 +:+ (FloatRe.opt_exponent s).2
  ∧ Shape.exponent (FloatRe.opt_exponent s).1.
Proof.
  destruct s as [|c s]; simpl; [by split; [|left]|].
  destruct ((Str.code c =? 101) || (Str.code c =? 69))%N eqn:Hc; simpl;
    [|by split; [|left]].
  destruct (opt_sign_cut s) as [Hs Hsg].
  destruct (FloatRe.opt_sign s) as [sg r0]; simpl in *.
  destruct (FloatRe.digits1 r0) as [[d r]|] eqn:Hd; simpl; [|by split; [|left]].
  apply digits1_cut in Hd as [-> Hd]. split.
  { by rewrite app_cons, app_assoc_s, <- Hs. }
  right. exists c, sg, d. split; [done|]. split; [|done].
  apply orb_true_iff in Hc as [Hc|Hc]; apply N.eqb_eq in Hc;
    unfold Str.code in Hc; rewrite <- (ascii_N_embedding c), Hc; auto.
Qed.

(** A match is a prefix of what is scanned, and a well-formed literal. *)
Lemma match_at_cut s tok rest :
  FloatRe.match_at s = Some (tok, rest) → s = tok +:+ rest ∧ Shape.literal tok.
Proof.
  unfold FloatRe.match_at.
  destruct (opt_sign_cut s) as [Hs Hsg].
  destruct (FloatRe.opt_sign s) as [sg r0]; simpl in *.
  destruct (FloatRe.digits1 r0) as [[d r1]|] eqn:Hd; [|done].
  apply digits1_cut in Hd as [-> Hd].
  destruct (opt_fraction_cut r1) as [Hf Hfr].
  destruct (FloatRe.opt_fraction r1) as [fr r2]; simpl in *.
  destruct (opt_exponent_cut r2) as [He Hex].
  destruct (FloatRe.opt_exponent r2) as [ex r3]; simpl in *.
  intros [= <- <-]. split.
  - rewrite Hs, Hf, He. by rewrite !app_assoc_s.
  - by exists sg, d, fr, ex.
Qed.

Lemma match_at_None_not_digit c s :
  FloatRe.match_at (String c s) = None → Str.is_digit c = false.
Proof.
  intros Hm. destruct (Str.is_digit c) eqn:Hc; [|done].
  destruct (match_at_digit c s Hc) as [? Hsome]. congruence.
Qed.

Lemma findall_from_cut fuel : ∀ s,
  String.length s < fuel →
  ∃ gaps,
    length gaps = S (length (FloatRe.findall_from fuel s)) ∧
    Shape.weave gaps (FloatRe.findall_from fuel s) = s ∧
    Forall (λ g, Str.has Str.is_digit g = false) gaps ∧
    Forall Shape.literal (FloatRe.findall_from fuel s).
Proof.
  induction fuel as [|fuel IH]; intros s Hlen; [lia|]. simpl.
  destruct (FloatRe.match_at s) as [[tok rest]|] eqn:Hm.
  - pose proof (match_at_rest_lt _ _ _ Hm) as Hlt.
    apply match_at_cut in Hm as [-> Hlit].
    destruct (IH rest) as (gaps & Hn & Hw & Hg & Ht); [lia|].
    exists ("" :: gaps). split; [simpl; by rewrite Hn|]. split.
    { simpl. by rewrite Hw. }
    split; by constructor.
  - destruct s as [|c s].
    { exists [""]. by repeat split; try constructor. }
    apply match_at_None_not_digit in Hm. simpl in Hlen.
    destruct (IH s) as (gaps & Hn & Hw & Hg & Ht); [lia|].
    destruct gaps as [|g gaps]; [done|].
    exists (String c g :: gaps). split; [done|]. split.
    { destruct (FloatRe.findall_from fuel s) as [|t toks]; simpl in *.
      - by rewrite Hw.
      - by rewrite app_cons, Hw. }
    split; [|done]. apply Forall_cons in Hg as [Hg1 Hg2].
    constructor; [|done]. simpl. by rewrite Hm, Hg1.
Qed.

(** Every number that FLOAT_RE finds in a line is a well-formed literal: an
    optional sign, digits, an optional point with digits, an optional
    exponent with digits. *)
Theorem findall_literals s : Forall Shape.literal (FloatRe.findall s).
Proof.
  destruct (findall_from_cut (S (String.length s)) s) as (_ & _ & _ & _ & H);
    [lia|done].
Qed.

(** The matches lie in the line one after the other, without overlap, and
    every digit of the line is in one of them: the line is gap, match, gap,
    ..., match, gap, with gaps free of digits. *)
Theorem findall_cuts_line s :
  ∃ gaps,
    length gaps = S (length (FloatRe.findall s)) ∧
    Shape.weave gaps (FloatRe.findall s) = s ∧
    Forall (λ g, Str.has Str.is_digit g = false) gaps ∧
    Forall (λ tok, tok ≠ "") (FloatRe.findall s).
Proof.
  destruct (findall_from_cut (S (String.length s)) s)
    as (gaps & Hn & Hw & Hg & Hl); [lia|].
  exists gaps. repeat split; try done.
  eapply Forall_impl; [exact Hl|]. intros tok (sg & d & fr & ex & -> & _ & [Hd _] & _).
  destruct sg; [|done]. destruct d; done.
Qed.

(** A line holds a number exactly when it holds a decimal digit. *)
Theorem findall_nonempty_iff_digit s :
  FloatRe.findall s ≠ [] ↔ Str.has Str.is_digit s = true.
Proof. by rewrite <- search_is_Some, search_is_Some_digit. Qed.

(** ** Reading the values *)

Lemma has_rev_app p s1 s2 :
  Str.has p (String.rev_app s1 s2) = Str.has p s1 || Str.has p s2.
Proof.
  revert s2. induction s1 as [|c s1 IH]; intros s2; simpl; [done|].
  rewrite IH. simpl. by rewrite orb_assoc, (orb_comm (Str.has p s1)).
Qed.

Lemma has_rev p s : Str.has p (String.rev s) = Str.has p s.
Proof. unfold String.rev. rewrite has_rev_app. apply orb_false_r. Qed.

Lemma has_lstrip p s :
  (∀ c, p c = true → Str.is_space c = false) →
  Str.has p (Str.lstrip s) = Str.has p s.
Proof.
  intros Hp. induction s as [|c s IH]; simpl; [done|].
  destruct (Str.is_space c) eqn:Hc; [|done].
  rewrite IH. destruct (p c) eqn:Hpc; [|done].
  apply Hp in Hpc. congruence.
Qed.

Lemma has_strip p s :
  (∀ c, p c = true → Str.is_space c = false) →
  Str.has p (Str.strip s) = Str.has p s.
Proof.
  intros Hp. unfold Str.strip.
  by rewrite has_rev, has_lstrip, has_rev, has_lstrip.
Qed.

Lemma digit_not_space c : Str.is_digit c = true → Str.is_space c = false.
Proof.
  unfold Str.is_digit, Str.is_space.
  intros [H1 H2]%andb_true_iff. apply N.leb_le in H1, H2.
  repeat (apply orb_false_iff; split);
    try (apply andb_false_iff; right; apply N.leb_gt; lia);
    apply N.eqb_neq; lia.
Qed.

Lemma has_digit_strip s :
  Str.has Str.is_digit (Str.strip s) = Str.has Str.is_digit s.
Proof. apply has_strip, digit_not_space. Qed.

(** The loop over lines converts the first number of each line that has
    one. *)
Lemma values_of_lines_first_numbers lns :
  values_of_lines lns
  = floats_of (omap (λ ln, FloatRe.search (Str.strip ln)) lns).
Proof.
  induction lns as [|ln lns IH]; [done|]. simpl.
  destruct (String.eqb_spec (Str.strip ln) "") as [->|Hne].
  { assert (FloatRe.search "" = None) as -> by done. exact IH. }
  destruct (FloatRe.search (Str.strip ln)) as [tok|]; [|exact IH].
  simpl. by rewrite IH.
Qed.

Lemma floats_of_length tokens vs :
  floats_of tokens = Return vs → length vs = length tokens.
Proof.
  revert vs. induction tokens as [|x rest IH]; intros vs; simpl.
  { by intros [= <-]. }
  destruct (py_float x); [|done].
  destruct (floats_of rest) as [fs|]; simpl; [|done].
  intros [= <-]. simpl. f_equal. by apply IH.
Qed.

Lemma floats_of_reject tokens x :
  x ∈ tokens → py_float x = None →
  ∃ msg, floats_of tokens = Raise (ValueError msg).
Proof.
  intros Hx Hnone. induction tokens as [|y rest IH]; [by apply elem_of_nil in Hx|].
  simpl. destruct (py_float y) eqn:Hy; [|eauto].
  apply elem_of_cons in Hx as [->|Hx]; [congruence|].
  destruct (IH Hx) as [msg ->]. eauto.
Qed.

Lemma first_numbers_count lns :
  length (omap (λ ln, FloatRe.search (Str.strip ln)) lns)
  = length (filter (λ ln, Str.has Str.is_digit ln = true) lns).
Proof.
  induction lns as [|ln lns IH]; [done|]. csimpl. rewrite filter_cons.
  pose proof (search_is_Some_digit (Str.strip ln)) as Hd.
  rewrite has_digit_strip in Hd.
  destruct (FloatRe.search (Str.strip ln)) as [tok|]; csimpl.
  - rewrite decide_True by (apply Hd; eauto). simpl. by rewrite IH.
  - rewrite decide_False; [done|]. intros [? ?]%Hd. done.
Qed.

(** In the file and on stdin a line gives one value, its first number, when
    it holds a digit, and no value otherwise: blank lines and lines of text
    are passed over. *)
Theorem values_of_lines_one_per_digit_line lns vs :
  values_of_lines lns = Return vs →
  length vs = length (filter (λ ln, Str.has Str.is_digit ln = true) lns)
  ∧ floats_of (omap (λ ln, FloatRe.search (Str.strip ln)) lns) = Return vs.
Proof.
  rewrite values_of_lines_first_numbers. intros Hvs. split; [|done].
  by rewrite (floats_of_length _ _ Hvs), first_numbers_count.
Qed.

(** Lines without a digit can be put in or taken out anywhere: the values
    read are the same. *)
Theorem values_of_lines_skips_text l1 ln l2 :
  Str.has Str.is_digit ln = false →
  values_of_lines (l1 ++ ln :: l2) = values_of_lines (l1 ++ l2).
Proof.
  intros Hln. rewrite !values_of_lines_first_numbers, !omap_app. simpl.
  destruct (FloatRe.search (Str.strip ln)) as [tok|] eqn:Hs; [|done].
  assert (is_Some (FloatRe.search (Str.strip ln))) as Hsome by eauto.
  apply search_is_Some_digit in Hsome. rewrite has_digit_strip in Hsome.
  congruence.
Qed.

Lemma values_of_lines_raise lns e :
  values_of_lines lns = Raise e → is_Exception e = true.
Proof.
  rewrite values_of_lines_first_numbers. apply floats_of_raise.
Qed.

Lemma values_of_lines_no_digit lns :
  Forall (λ ln, Str.has Str.is_digit ln = false) lns →
  values_of_lines lns = Return [].
Proof.
  induction 1 as [|ln lns Hln _ IH]; simpl; [done|].
  destruct (String.eqb (Str.strip ln) ""); [done|].
  destruct (FloatRe.search (Str.strip ln)) as [tok|] eqn:Hs; [|done].
  assert (is_Some (FloatRe.search (Str.strip ln))) as Hsome by eauto.
  apply search_is_Some_digit in Hsome. rewrite has_digit_strip in Hsome.
  congruence.
Qed.

Lemma values_of_flag_blank v :
  Forall (λ item, Str.strip item = "") (Text.split "," v) →
  values_of_flag v = Return [].
Proof.
  unfold values_of_flag. induction 1 as [|item items Hitem _ IH]; simpl; [done|].
  by rewrite Hitem.
Qed.

(** [read_values] never returns an empty list, and what it returns is what
    [main] goes on with.  With nothing to read it exits with its message:
    when [--values] is absent or holds blank items only, and the file and
    stdin are absent or hold no line with a digit.  And it exits in no other
    case: when it ends in [SystemExit], without the reading of the file
    having raised it, the three sources gave no value and the exit carries
    the message. *)
Theorem read_values_from_nonempty_or_exit src :
  (∀ vs, read_values_from src = Return vs →
     vs ≠ [] ∧
     ∀ args w, values args = vs → read_values args w = (Return vs, w))
  ∧ ((∀ v, src_values src = Some v →
           Forall (λ item, Str.strip item = "") (Text.split "," v)) →
     (∀ x, src_values_file src = Some x →
           ∃ text, x = Return text ∧
                   Forall (λ ln, Str.has Str.is_digit ln = false)
                          (Str.splitlines text)) →
     (∀ lns, src_stdin src = Some lns →
             Forall (λ ln, Str.has Str.is_digit ln = false) lns) →
     read_values_from src
     = Raise (SystemExit (ExitMsg
         "No input values found. Use --values, --values-file, or pipe via stdin.")))
  ∧ (∀ code, read_values_from src = Raise (SystemExit code) →
     (∀ e, src_values_file src = Some (Raise e) → is_Exception e = true) →
     code = ExitMsg
       "No input values found. Use --values, --values-file, or pipe via stdin."
     ∧ flag_values src = Return []
     ∧ file_values src = Return []
     ∧ stdin_values src = Return []
     ∧ ∀ args w, values args = [] →
         read_values args w = (Raise (SystemExit code), w)).
Proof.
  unfold read_values_from. split; [|split].
  - intros vs Hvs.
    destruct (flag_values src) as [vals1|]; simpl in Hvs; [|done].
    destruct (file_values src) as [vals2|]; simpl in Hvs; [|done].
    destruct (stdin_values src) as [vals3|]; simpl in Hvs; [|done].
    destruct (decide (vals1 ++ vals2 ++ vals3 = [])) as [|Hne]; [done|].
    injection Hvs as <-. split; [done|].
    intros args w Hargs. unfold read_values. rewrite Hargs.
    by destruct (decide _).
  - intros Hflag Hfile Hstdin.
    assert (flag_values src = Return []) as ->.
    { unfold flag_values. destruct (src_values src) as [v|]; [|done].
      destruct (String.eqb v ""); [done|]. by apply values_of_flag_blank, Hflag. }
    assert (file_values src = Return []) as ->.
    { unfold file_values. destruct (src_values_file src) as [x|]; [|done].
      destruct (Hfile x eq_refl) as (text & -> & Hlines).
      by apply values_of_lines_no_digit. }
    assert (stdin_values src = Return []) as ->.
    { unfold stdin_values. destruct (src_stdin src) as [lns|]; [|done].
      by apply values_of_lines_no_digit, Hstdin. }
    done.
  - intros code Hexit Hfile.
    destruct (flag_values src) as [vals1|e1] eqn:H1; simpl in Hexit.
    2:{ injection Hexit as ->. unfold flag_values in H1.
        destruct (src_values src) as [v|]; [|done].
        destruct (String.eqb v ""); [done|].
        by apply floats_of_raise in H1. }
    destruct (file_values src) as [vals2|e2] eqn:H2; simpl in Hexit.
    2:{ injection Hexit as ->. unfold file_values in H2.
        destruct (src_values_file src) as [[text|e]|]; [| |done].
        - by apply values_of_lines_raise in H2.
        - injection H2 as ->. by specialize (Hfile _ eq_refl). }
    destruct (stdin_values src) as [vals3|e3] eqn:H3; simpl in Hexit.
    2:{ injection Hexit as ->. unfold stdin_values in H3.
        destruct (src_stdin src) as [lns|]; [|done].
        by apply values_of_lines_raise in H3. }
    destruct (decide (vals1 ++ vals2 ++ vals3 = [])) as [Hnil|]; [|done].
    injection Hexit as <-. split; [done|].
    apply app_eq_nil in Hnil as [-> [-> ->]%app_eq_nil].
    split; [done|]. split; [done|]. split; [done|].
    intros args w Hargs. unfold read_values. rewrite Hargs.
    by destruct (decide _).
Qed.

(** [--values] is strict where the file is lenient: an item between commas
    that is not blank and that [float] rejects makes [read_values] raise
    [ValueError], whatever the file and stdin hold. *)
Theorem read_values_from_rejects_bad_item src v item :
  src_values src = Some v →
  item ∈ Text.split "," v →
  Str.strip item ≠ "" →
  py_float (Str.strip item) = None →
  ∃ msg, read_values_from src = Raise (ValueError msg).
Proof.
  intros Hv Hitem Hne Hnone. unfold read_values_from, flag_values. rewrite Hv.
  destruct (String.eqb_spec v "") as [->|_].
  { apply list_elem_of_singleton in Hitem as ->. done. }
  unfold values_of_flag.
  destruct (floats_of_reject
              (List.filter (λ s, negb (String.eqb s ""))
                           (map Str.strip (Text.split "," v)))
              (Str.strip item)) as [msg ->]; [|done|by eexists].
  apply list_elem_of_In, filter_In. split.
  - apply in_map. by apply list_elem_of_In.
  - apply negb_true_iff. by apply String.eqb_neq.
Qed.

(** ** The dropdown *)

Lemma foldl_add_option options : ∀ acc,
  foldl add_option acc options = acc ++ omap line_of_option options.
Proof.
  induction options as [|opt options IH]; intros acc; csimpl.
  { by rewrite app_nil_r. }
  rewrite IH. unfold add_option, line_of_option.
  destruct (decide (Str.strip (default "" (value_attr opt)) = "")); [done|].
  destruct (py_int _); csimpl; [|done]. by rewrite <- app_assoc.
Qed.

(** [fetch_available_lines] returns the lines of the options that have a
    non-blank [value] which is an integer, in the order of the page: an
    option without such a value is passed over, an option whose text is not
    a number is kept with a NaN wavelength. *)
Theorem fetch_available_lines_options element sess w (lines : list line) :
  (fetch_available_lines element sess w).1 = Return lines
  ↔ ∃ r options,
      network w (length (sent w)) (lines_request element) = Response r ∧
      http_error r = None ∧
      select_wi (body r) = Some options ∧
      lines = omap line_of_option options ∧
      lines ≠ [].
Proof.
  unfold fetch_available_lines, mbind, M_bind, session_get.
  change ENDPOINT_LTE with "https://www.inspect-stars.com/nonlte_from_lte".
  change ("https://www.inspect-stars.com/nonlte_from_lte"
          +:+ "?element_name=" +:+ element)
    with ("https://www.inspect-stars.com/nonlte_from_lte?element_name="
          +:+ element).
  fold (lines_request element).
  destruct (network w _ _) as [msg|r]; simpl.
  { split; [done|]. by intros (? & ? & ? & _). }
  unfold raise_for_status. destruct (http_error r) as [msg|] eqn:Herr; simpl.
  { split; [done|]. intros (? & ? & [= <-] & ? & _). congruence. }
  destruct (select_wi (body r)) as [options|] eqn:Hsel; simpl.
  2:{ split; [done|]. intros (? & ? & [= <-] & _ & ? & _). congruence. }
  rewrite foldl_add_option. simpl.
  destruct (decide (omap line_of_option options = [])) as [Hnil|Hne]; simpl.
  - split; [done|]. intros (? & ? & [= <-] & _ & Hs & -> & Hne).
    rewrite Hsel in Hs. injection Hs as <-. done.
  - split.
    + intros [= <-]. by exists r, options.
    + intros (? & ? & [= <-] & _ & Hs & -> & _).
      rewrite Hsel in Hs. by injection Hs as <-.
Qed.

(** What [fetch_available_lines] raises: the failure of the request or the
    HTTP error, with its message; a [RuntimeError] naming the element when
    the page has no [<select name="wi">]; another when no option gives a
    line.  It never exits the process. *)
Theorem fetch_available_lines_failures element sess w e :
  (fetch_available_lines element sess w).1 = Raise e →
  let resp := network w (length (sent w)) (lines_request element) in
  is_Exception e = true ∧
  ((∃ msg, e = RequestException msg ∧
           (resp = ConnectionFailed msg
            ∨ ∃ r, resp = Response r ∧ http_error r = Some msg))
   ∨ (e = RuntimeError ("Could not find wavelength selector for element "
                        +:+ element +:+ ".")
      ∧ ∃ r, resp = Response r ∧ http_error r = None
             ∧ select_wi (body r) = None)
   ∨ (e = RuntimeError ("No lines found for element " +:+ element +:+ ".")
      ∧ ∃ r options, resp = Response r ∧ http_error r = None
                     ∧ select_wi (body r) = Some options
                     ∧ omap line_of_option options = [])).
Proof.
  unfold fetch_available_lines, mbind, M_bind, session_get.
  change ENDPOINT_LTE with "https://www.inspect-stars.com/nonlte_from_lte".
  change ("https://www.inspect-stars.com/nonlte_from_lte"
          +:+ "?element_name=" +:+ element)
    with ("https://www.inspect-stars.com/nonlte_from_lte?element_name="
          +:+ element).
  fold (lines_request element).
  destruct (network w _ _) as [msg|r]; simpl.
  { intros [= <-]. split; [done|]. left. eauto. }
  unfold raise_for_status. destruct (http_error r) as [msg|] eqn:Herr; simpl.
  { intros [= <-]. split; [done|]. left. eauto 6. }
  destruct (select_wi (body r)) as [options|] eqn:Hsel; simpl.
  2:{ intros [= <-]. split; [done|]. right; left. eauto. }
  rewrite foldl_add_option. simpl.
  destruct (decide (omap line_of_option options = [])) as [Hnil|Hne]; simpl;
    [|done].
  intros [= <-]. split; [done|]. right; right. eauto 8.
Qed.

(** ** More on resolving the line *)

Lemma choose_among_from_list (lines : list line) w wi wav :
  choose_among lines w = Return (wi, wav) →
  ∃ label, (wi, wav, label) ∈ lines.
Proof.
  unfold choose_among.
  destruct (List.find (exact_match w) lines) as [[[wi' wav'] lbl]|] eqn:Hfind.
  - intros [= <- <-]. apply find_some in Hfind as [Hin _].
    exists lbl. by apply list_elem_of_In.
  - destruct lines as [|t rest]; [done|].
    destruct (py_min_nonempty (distance_key w) (t :: rest)) as (r & -> & Hr & _);
      [done|].
    simpl. intros [= <- <-]. exists r.2. by destruct r as [[??]?].
Qed.

Lemma distance_not_finite w (t : line) :
  is_finite w = false → isnan t.1.2 = false →
  flt (distance w t) (Inf false) = false.
Proof.
  intros Hw _. destruct (flt (distance w t) (Inf false)) eqn:Hd; [|done].
  apply distance_finite_request in Hd. congruence.
Qed.

Lemma exact_match_not_finite w (x : line) :
  is_finite w = false → exact_match w x = false.
Proof.
  intros Hw. destruct (exact_match w x) eqn:Hx; [|done].
  apply exact_match_spec in Hx as [Hn Hd].
  pose proof (distance_not_finite w x Hw Hn) as Hf.
  by rewrite (flt_trans _ _ _ Hd tol_finite) in Hf.
Qed.

Lemma distance_key_not_finite w (x y : line) :
  is_finite w = false →
  flt (distance_key w y) (distance_key w x) = false.
Proof.
  intros Hw. apply (distance_key_unordered w [x; y]).
  - intros t _. by apply distance_not_finite.
  - left.
  - right; left.
Qed.

(** A request that is NaN or infinite, which [--wavelength] accepts, selects
    the first line of the dropdown whatever the wavelengths are. *)
Theorem choose_among_request_not_finite (t : line) rest w :
  is_finite w = false →
  choose_among (t :: rest) w = Return (t.1.1, t.1.2).
Proof.
  intros Hw. unfold choose_among. rewrite find_no_match.
  2:{ apply List.Forall_forall. intros x _. by apply exact_match_not_finite. }
  rewrite py_min_first; [done|].
  apply List.Forall_forall. intros y _. by apply distance_key_not_finite.
Qed.

Lemma wav_map_last (l1 l2 : list line) wi wav lbl :
  (∀ t, t ∈ l2 → t.1.1 ≠ wi) →
  wav_map (l1 ++ (wi, wav, lbl) :: l2) !! wi = Some wav.
Proof.
  intros Hl2. unfold wav_map. rewrite foldl_app. simpl.
  rewrite wav_map_acc by done. apply lookup_insert_eq.
Qed.

(** With [--wi], an index that the dropdown carries is given the wavelength
    of the last line that carries it. *)
Theorem resolve_listed_wi args wi w (l1 l2 : list line) wav lbl w1 :
  wavelength args = None → arg_wi args = Some wi →
  fetch_available_lines (element args) make_session w
  = (Return (l1 ++ (wi, wav, lbl) :: l2), w1) →
  (∀ t, t ∈ l2 → t.1.1 ≠ wi) →
  resolve args make_session w = (Return (wi, wav), w1).
Proof.
  intros Hwav Hwi Hfetch Hl2. unfold resolve, mbind, M_bind.
  rewrite Hwav, Hwi, Hfetch. unfold mret, M_ret.
  by rewrite wav_map_last.
Qed.

(** With [--wavelength], once the dropdown is fetched the resolution does not
    fail, and the index and the wavelength it gives to the run are those of
    one and the same line of the dropdown. *)
Theorem resolve_wavelength_picks_a_line args w0 w (lines : list line) w1 :
  wavelength args = Some w0 →
  fetch_available_lines (element args) make_session w = (Return lines, w1) →
  ∃ wi wav label,
    (wi, wav, label) ∈ lines ∧
    resolve args make_session w = (Return (wi, wav), w1).
Proof.
  intros Hwav Hfetch.
  assert (lines ≠ []) as Hne.
  { assert ((fetch_available_lines (element args) make_session w).1
            = Return lines) as Hf by by rewrite Hfetch.
    unfold fetch_available_lines, mbind, M_bind in Hf.
    destruct (session_get _ _ _ _ w) as [[r|e] w']; [|done].
    unfold raise_for_status in Hf. destruct (http_error r); [done|].
    simpl in Hf. destruct (select_wi (body r)); [|done].
    destruct (decide (foldl add_option [] l = [])); [done|].
    by injection Hf as <-. }
  assert (∃ r, choose_among lines w0 = Return r) as [[wi wav] Hr].
  { unfold choose_among.
    destruct (List.find _ lines) as [[[wi wav] lbl]|]; [eauto|].
    destruct (py_min_nonempty (distance_key w0) lines Hne) as (r & -> & _).
    simpl. eauto. }
  destruct (choose_among_from_list lines w0 wi wav Hr) as [label Hin].
  exists wi, wav, label. split; [done|].
  unfold resolve, choose_wi_from_wavelength, mbind, M_bind.
  rewrite Hwav, Hfetch. unfold lift. by rewrite Hr.
Qed.

(** ** When the batch stops *)

(** The loop runs to its end exactly when [time.sleep] accepts the pause,
    or there is no value, and no response that passed [raise_for_status]
    lacks a [<pre>]: a failed request, an HTTP error or a block that cannot
    be parsed costs a row its values and nothing more. *)
Theorem batch_completes_iff_pre_present args wi mw sess (vs : list float)
    rows w :
  (∃ rows', (for_each (iteration args wi mw sess) vs rows w).1 = Return rows')
  ↔ (vs = [] ∨ time_sleep (sleep args) = Return ())
    ∧ ∀ i v r,
        vs !! i = Some v →
        network w (length (sent w) + i) (request_of args wi v) = Response r →
        http_error r = None →
        is_Some (pre (body r)).
Proof.
  rewrite for_each_rows. split.
  - intros [rows' Hrows].
    destruct (rows_of args wi mw _) as [new|] eqn:Hnew; [|done].
    split.
    + destruct vs as [|v vs]; [by left|right].
      by apply (rows_of_pause _ _ _ _ _ Hnew).
    + intros i v r Hv Hnet Herr.
      destruct (pre (body r)) eqn:Hpre; [done|].
      apply rows_of_inv in Hnew.
      destruct (Forall2_lookup_l _ _ _ i _ Hnew
                  (exchanges_lookup args wi w vs i v Hv)) as (row & _ & Hof).
      simpl in Hof. rewrite Hnet in Hof.
      by rewrite (row_of_missing_pre args wi mw v r Herr Hpre) in Hof.
  - intros [[->|Hp] Hall]; [simpl; eauto|].
    destruct (rows_of_return args wi mw (exchanges args wi w vs))
      as (new & -> & _); [by apply rows_of_pre_present|done|].
    simpl. eauto.
Qed.

(** ** The requests of a run *)

Lemma resolve_world args sess w :
  network (resolve args sess w).2 = network w ∧
  (sent (resolve args sess w).2 = sent w ++ [lines_request (element args)]
   ∨ (wavelength args = None ∧ arg_wi args = None
      ∧ sent (resolve args sess w).2 = sent w)).
Proof.
  unfold resolve, choose_wi_from_wavelength, mbind, M_bind.
  pose proof (fetch_world (element args) sess w) as Hw.
  destruct (wavelength args), (arg_wi args);
    unfold lift, mret, M_ret, raise; cbv beta;
    try (split; [done|by right]);
    destruct (fetch_available_lines (element args) sess w) as [[lines|e] w'];
    simpl in Hw; subst w'; simpl; by split; [|left].
Qed.

(** A run sends nothing when the arguments are refused or no value is given.
    Otherwise it asks for the dropdown once; when the line cannot be
    resolved it ends there with the exception of the resolution; when it is
    resolved, the run goes on with the queries of the values in their order,
    each with the resolved index: the first in any case, at most one per
    value, and all of them when it returns. *)
Theorem main_requests args w :
  let res := main args w in
  network res.2 = network w ∧
  (Bool.eqb (bool_decide (wavelength args = None))
            (bool_decide (arg_wi args = None)) = true ∨ values args = [] →
   sent res.2 = sent w) ∧
  (Bool.eqb (bool_decide (wavelength args = None))
            (bool_decide (arg_wi args = None)) = false →
   values args ≠ [] →
   match (resolve args make_session w).1 with
   | Raise e =>
       res.1 = Raise e ∧
       sent res.2 = sent w ++ [lines_request (element args)]
   | Return (wi, mw) =>
       ∃ n,
         0 < n ≤ length (values args) ∧
         sent res.2 = sent w ++ lines_request (element args)
                             :: map (request_of args wi) (take n (values args)) ∧
         (∀ x, res.1 = Return x → n = length (values args))
   end).
Proof.
  unfold main.
  destruct (Bool.eqb _ _) eqn:Hargs.
  { simpl. split; [done|]. split; done. }
  unfold mbind, M_bind, read_values.
  destruct (decide (values args = [])) as [Hnil|Hne].
  { simpl. split; [done|]. split; done. }
  unfold mret, M_ret. cbv beta iota zeta.
  destruct (resolve_world args make_session w) as [Hnet Hsent].
  destruct Hsent as [Hsent|(Hw & Hwi & _)].
  2:{ by rewrite Hw, Hwi in Hargs. }
  destruct (resolve args make_session w) as [[[wi mw]|e] w1]; simpl in *.
  - destruct (for_each_sent args wi mw make_session (values args) [] w1)
      as (Hnet' & n & Hn & Hpos & Hs & Hret).
    destruct (for_each _ (values args) [] w1) as [[rows|e] w2]; simpl in *.
    + split; [congruence|]. split; [by intros [?|?]|]. intros _ _.
      exists n. split; [split; [by apply Hpos|done]|]. split.
      { by rewrite Hs, Hsent, <- app_assoc. }
      intros x _. by eapply Hret.
    + split; [congruence|]. split; [by intros [?|?]|]. intros _ _.
      exists n. split; [split; [by apply Hpos|done]|]. split; [|done].
      by rewrite Hs, Hsent, <- app_assoc.
  - split; [done|]. split; [by intros [?|?]|]. by intros _ _.
Qed.

(** When [time.sleep] refuses the pause, as it does for a negative or NaN
    [--sleep], a run that reaches the loop ends after the query of its first
    value, the only one it sends: with the exception of [time.sleep] when
    that query gave a row, with the exit of the parser when its response
    lacked a [<pre>]; no table is written. *)
Theorem refused_pause_ends_run args w wi mw w1 e v vs :
  Bool.eqb (bool_decide (wavelength args = None))
           (bool_decide (arg_wi args = None)) = false →
  values args = v :: vs →
  resolve args make_session w = (Return (wi, mw), w1) →
  time_sleep (sleep args) = Raise e →
  main args w
  = (Raise (match row_of args wi mw v
                    (network w1 (length (sent w1)) (request_of args wi v)) with
            | Return _ => e
            | Raise exit => exit
            end),
     {| network := network w;
        sent := sent w ++ [lines_request (element args);
                           request_of args wi v] |}).
Proof.
  intros Hargs Hvals Hres Hp.
  rewrite (main_eq args w wi mw w1 Hargs) by (by rewrite Hvals || done).
  rewrite Hvals. simpl for_each. unfold mbind, M_bind. rewrite iteration_eq.
  apply resolve_return in Hres. subst w1. simpl.
  destruct (row_of args wi mw v _) as [row|exit]; simpl.
  - rewrite Hp. simpl. by rewrite <- app_assoc.
  - by rewrite <- app_assoc.
Qed.

(** ** The table of a run *)

Lemma preferred_split : preferred = context_names ++ parsed_names ++ ["error"].
Proof. reflexivity. Qed.

Lemma filter_all {A} (P : A → Prop) `{∀ x, Decision (P x)} (l : list A) :
  Forall P l → filter P l = l.
Proof.
  induction 1 as [|x l Hx _ IH]; [done|].
  by rewrite filter_cons, decide_True, IH.
Qed.

Lemma filter_none {A} (P : A → Prop) `{∀ x, Decision (P x)} (l : list A) :
  Forall (λ x, ¬ P x) l → filter P l = [].
Proof.
  induction 1 as [|x l Hx _ IH]; [done|].
  by rewrite filter_cons, decide_False, IH.
Qed.

Lemma has_context_names args wi mw v (row : dict) k :
  has_context args wi mw v row → k ∈ context_names → is_Some (row !! k).
Proof.
  intros (H1 & H2 & H3 & H4 & H5 & H6 & H7 & H8 & H9) Hk.
  unfold context_names in Hk.
  repeat (apply elem_of_cons in Hk as [->|Hk]; [eauto|]).
  by apply elem_of_nil in Hk.
Qed.

Lemma row_of_keys args wi mw v resp (row : dict) :
  row_of args wi mw v resp = Return row →
  (∀ k, k ∈ context_names → is_Some (row !! k))
  ∧ (∀ k, is_Some (row !! k) → k ∈ preferred).
Proof.
  unfold row_of. destruct (answer_of args resp) as [res|e] eqn:Ha.
  - intros [= <-]. unfold answer_of in Ha.
    destruct resp as [msg|r]; [done|]. destruct (http_error r); [done|].
    destruct (parse_pre_block (body r)) as [parsed|] eqn:Hp; [|done].
    simpl in Ha. injection Ha as <-.
    destruct (success_row_spec args wi mw v _ _ Hp) as (Hctx & _ & _ & Hother).
    split; [intros k; by apply (has_context_names args wi mw v)|].
    intros k Hk. rewrite preferred_split.
    destruct (decide (k ∈ context_names)) as [|Hno];
      [apply elem_of_app; by left|].
    rewrite (Hother k Hno) in Hk.
    apply elem_of_app; right. apply elem_of_app; left.
    by eapply parse_pre_block_names.
  - destruct (is_Exception e); [|done]. intros [= <-].
    destruct (error_row_spec args wi mw v (str_exn e)) as (Hctx & _ & Hother).
    split; [intros k; by apply (has_context_names args wi mw v)|].
    intros k Hk. rewrite preferred_split.
    destruct (decide (k ∈ context_names)) as [|Hno];
      [apply elem_of_app; by left|].
    destruct (decide (k = "error")) as [->|Hne].
    + apply elem_of_app; right. apply elem_of_app; right. by left.
    + rewrite (Hother k Hno Hne) in Hk. by destruct Hk.
Qed.

Lemma header_of_run_rows (rows : list dict) :
  rows ≠ [] →
  Forall (λ row : dict,
            (∀ k, k ∈ context_names → is_Some (row !! k))
            ∧ (∀ k, is_Some (row !! k) → k ∈ preferred)) rows →
  filter (λ c, c ∈ columns rows) preferred
  ++ filter (λ c, c ∉ preferred) (sorted (columns rows))
  = context_names
    ++ filter (λ c, c ∈ columns rows) (parsed_names ++ ["error"]).
Proof.
  intros Hne Hrows.
  rewrite (filter_none (λ c, c ∉ preferred)).
  2:{ apply List.Forall_forall. intros c Hc%list_elem_of_In Hno. apply Hno.
      unfold sorted in Hc. rewrite merge_sort_Permutation in Hc.
      apply elem_of_elements, columns_spec in Hc as (r & Hr & Hk).
      rewrite List.Forall_forall in Hrows.
      by apply (Hrows r (proj1 (list_elem_of_In _ _) Hr)). }
  rewrite app_nil_r. rewrite preferred_split at 1. rewrite filter_app.
  f_equal. apply filter_all. apply List.Forall_forall.
  intros c Hc%list_elem_of_In. apply columns_spec.
  destruct rows as [|r rows]; [done|]. exists r. split; [left|].
  apply Forall_cons in Hrows as [[Hctx _] _]. by apply Hctx.
Qed.

(** When a run returns, it has handed a table to the writer, never printed
    the "No rows to write." notice: one record per value, each as long as
    the header, under a header that begins with the nine context columns and
    goes on with those of EW_mA, A_LTE, A_NLTE, Delta, OFe_NLTE and error
    that some row has, in that order, and with no other column. *)
Theorem main_returns_table args w x :
  (main args w).1 = Return x →
  ∃ t rest,
    x = Some t ∧
    values args ≠ [] ∧
    length (records t) = length (values args) ∧
    Forall (λ record, length record = length (header t)) (records t) ∧
    header t = context_names ++ rest ∧
    rest `sublist_of` parsed_names ++ ["error"].
Proof.
  unfold main. destruct (Bool.eqb _ _); [done|].
  unfold mbind, M_bind, read_values.
  destruct (decide (values args = [])) as [|Hvals]; [done|].
  unfold mret, M_ret. cbv beta iota zeta.
  destruct (resolve args make_session w) as [[[wi mw]|e] w1]; [|done].
  pose proof (for_each_rows args wi mw make_session (values args) [] w1)
    as Hloop.
  destruct (for_each _ (values args) [] w1) as [[rows|e] w2]; [|done].
  simpl in Hloop. simpl. intros [= <-].
  destruct (rows_of args wi mw _) as [new|] eqn:Hrows; [|done].
  simpl in Hloop. injection Hloop as ->. apply rows_of_inv in Hrows.
  assert (length new = length (values args)) as Hlen.
  { apply Forall2_length in Hrows. unfold exchanges in Hrows.
    by rewrite length_imap in Hrows. }
  assert (new ≠ []) as Hne.
  { intros ->. destruct (values args); done. }
  assert (Forall (λ row : dict,
            (∀ k, k ∈ context_names → is_Some (row !! k))
            ∧ (∀ k, is_Some (row !! k) → k ∈ preferred)) new) as Hkeys.
  { apply List.Forall_forall. intros row Hrow%list_elem_of_In.
    apply list_elem_of_lookup in Hrow as [i Hi].
    destruct (Forall2_lookup_r _ _ _ i _ Hrows Hi) as ([v resp] & _ & Hof).
    by eapply row_of_keys. }
  unfold write_csv. destruct (decide (new = [])); [done|].
  eexists _, _. split; [done|]. simpl. split; [done|].
  split; [by rewrite length_map|]. split.
  { apply List.Forall_forall. intros record Hrec.
    apply in_map_iff in Hrec as (r & <- & _). by rewrite length_map. }
  split; [by apply header_of_run_rows|]. apply sublist_filter.
Qed.

(** ** Reading the table back *)

Lemma row_of_record_lookup (hd : list string) (r : dict) k :
  (∀ c, r !! c ≠ Some (VStr "")) →
  row_of_record hd (map (λ c, default (VStr "") (r !! c)) hd) !! k
  = if decide (k ∈ hd) then r !! k else None.
Proof.
  intros Hr. unfold row_of_record. induction hd as [|c hd IH]; csimpl.
  { apply lookup_empty. }
  destruct (r !! c) as [x|] eqn:Hc; csimpl.
  - assert (x ≠ VStr "") as Hx by (intros ->; by destruct (Hr c)).
    destruct x as [[|a s0]|n|y]; [done|..]; csimpl;
      (destruct (decide (k = c)) as [->|Hne];
       [rewrite lookup_insert_eq, decide_True; [done|left]
       |rewrite lookup_insert_ne by done; rewrite IH;
        destruct (decide (k ∈ hd)) as [Hin|Hno];
        [rewrite decide_True; [done|by right]
        |rewrite decide_False; [done|]; by intros [?|?]%elem_of_cons]]).
  - rewrite IH. destruct (decide (k = c)) as [->|Hne].
    + rewrite (decide_True (P := c ∈ c :: hd)); [|left].
      by destruct (decide (c ∈ hd)).
    + destruct (decide (k ∈ hd)) as [Hin|Hno].
      * rewrite decide_True; [done|by right].
      * rewrite decide_False; [done|]. by intros [?|?]%elem_of_cons.
Qed.

Lemma header_covers (rows : list dict) (r : dict) k :
  r ∈ rows → is_Some (r !! k) →
  k ∈ filter (λ c, c ∈ columns rows) preferred
      ++ filter (λ c, c ∉ preferred) (sorted (columns rows)).
Proof using Type.
  clear py_int py_float py_str format_g time_sleep requests_Session.
  intros Hr Hk.
  assert (k ∈ columns rows) as Hcol by (apply columns_spec; eauto).
  rewrite elem_of_app, !list_elem_of_filter. unfold sorted.
  rewrite merge_sort_Permutation, elem_of_elements.
  destruct (decide (k ∈ preferred)); tauto.
Qed.

(** No entry of a row is lost in the table: the record of a row has one cell
    per column, the value of the row under each of its keys, all of which are
    columns, and the empty string under the other columns.  A missing key
    and an empty string are written alike, so that the cells that are not
    empty give the row back when the row holds no empty string. *)
Theorem write_csv_keeps_rows (rows : list dict) out_path t i (r : dict) :
  write_csv rows out_path = Some t →
  rows !! i = Some r →
  ∃ record,
    records t !! i = Some record ∧
    length record = length (header t) ∧
    (∀ j c, header t !! j = Some c →
            record !! j = Some (default (VStr "") (r !! c))) ∧
    (∀ k x, r !! k = Some x →
            ∃ j, header t !! j = Some k ∧ record !! j = Some x) ∧
    ((∀ k, r !! k ≠ Some (VStr "")) → row_of_record (header t) record = r).
Proof using Type.
  clear py_int py_float py_str format_g time_sleep requests_Session.
  unfold write_csv. destruct (decide (rows = [])); [done|].
  intros [= <-] Hr. simpl.
  set (hd := filter _ preferred ++ filter _ (sorted (columns rows))).
  assert (∀ k, is_Some (r !! k) → k ∈ hd) as Hcover.
  { intros k Hk. apply (header_covers rows r k); [|done].
    by eapply list_elem_of_lookup_2. }
  exists (map (λ c, default (VStr "") (r !! c)) hd). split.
  { by rewrite list_lookup_fmap, Hr. }
  split; [by rewrite length_map|]. split.
  { intros j c Hj. by rewrite list_lookup_fmap, Hj. }
  split.
  { intros k x Hk.
    destruct (proj1 (list_elem_of_lookup hd k) (Hcover k (mk_is_Some _ _ Hk)))
      as [j Hj].
    exists j. split; [done|]. by rewrite list_lookup_fmap, Hj; simpl; rewrite Hk. }
  intros Hne. apply map_eq. intros k. rewrite row_of_record_lookup by done.
  destruct (decide (k ∈ hd)) as [|Hno]; [done|].
  destruct (r !! k) eqn:Hk; [|done]. destruct Hno. apply Hcover. eauto.
Qed.

(** ** The error cell *)

(** A row has an error cell only when its query raised, and the cell is the
    beginning of the message of the exception: at most 300 characters, the
    whole message when it is not longer. *)
Theorem error_cell_is_message_prefix args wi mw v resp (row : dict) cell :
  row_of args wi mw v resp = Return row →
  row !! "error" = Some cell →
  ∃ e s rest,
    answer_of args resp = Raise e ∧
    cell = VStr s ∧
    str_exn e = s +:+ rest ∧
    String.length s = Nat.min 300 (String.length (str_exn e)).
Proof.
  unfold row_of. destruct (answer_of args resp) as [res|e] eqn:Ha.
  - intros [= <-] Hcell. unfold answer_of in Ha.
    destruct resp as [msg|r]; [done|]. destruct (http_error r); [done|].
    destruct (parse_pre_block (body r)) as [parsed|] eqn:Hp; [|done].
    simpl in Ha. injection Ha as <-.
    destruct (success_row_spec args wi mw v _ _ Hp) as (_ & Herr & _).
    congruence.
  - destruct (is_Exception e); [|done]. intros [= <-] Hcell.
    destruct (error_row_spec args wi mw v (str_exn e))
      as (_ & (s & rest & Herr & Hs & Hlen) & _).
    rewrite Herr in Hcell. injection Hcell as <-.
    by exists e, s, rest.
Qed.

(** ** The fields of a result *)

(** A parsed result has one of three sets of fields, the three abundance
    fields always among them, and every field is a number. *)
Theorem parse_pre_block_fields html (parsed : dict) :
  parse_pre_block html = Return parsed →
  (dom parsed = list_to_set ["A_LTE"; "A_NLTE"; "Delta"]
   ∨ dom parsed = list_to_set ["A_LTE"; "A_NLTE"; "Delta"; "OFe_NLTE"]
   ∨ dom parsed
     = list_to_set ["EW_mA"; "A_LTE"; "A_NLTE"; "Delta"; "OFe_NLTE"])
  ∧ ∀ k cell, parsed !! k = Some cell → ∃ x, cell = VFloat x.
Proof.
  unfold parse_pre_block. destruct (pre html) as [text|]; [|done].
  destruct (decide _); [done|].
  destruct (last_numeric_line _) as [vl|]; [|done].
  destruct (floats_of _) as [nums|e'] eqn:Hf; simpl; [|done].
  intros He. unfold fields5, fields4, fields3 in He.
  repeat match type of He with
         | (if ?b then _ else _) = _ => destruct b
         end;
  destruct nums as [|? [|? [|? [|? [|? ?]]]]]; simplify_eq;
    (split;
     [ rewrite !dom_insert_L, dom_empty_L; simpl; auto
     | intros k cell Hk;
       repeat (apply lookup_insert_Some in Hk as [[_ <-]|[_ Hk]]; [eauto|]);
       by rewrite lookup_empty in Hk ]).
Qed.

(** ** Text after the values *)

Lemma find_skip {A} (f : A → bool) (l1 l2 : list A) :
  Forall (λ x, f x = false) l1 → List.find f (l1 ++ l2) = List.find f l2.
Proof.
  induction 1 as [|x l Hx _ IH]; simpl; [done|]. by rewrite Hx.
Qed.

Lemma last_numeric_line_footer lines footer :
  Forall (λ ln, Str.has Str.is_digit ln = false) footer →
  last_numeric_line (lines ++ footer) = last_numeric_line lines.
Proof.
  intros Hfoot. unfold last_numeric_line. rewrite rev_app_distr.
  apply find_skip. apply List.Forall_forall. intros ln Hln%in_rev.
  rewrite List.Forall_forall in Hfoot. specialize (Hfoot ln Hln).
  apply bool_decide_eq_false. rewrite search_is_Some_digit. congruence.
Qed.

(** Lines without a digit that follow the values, a footer or a note, do not
    change the result, neither the fields nor the error, as soon as the
    block has two lines before them. *)
Theorem parse_pre_block_ignores_footer html html' text text' footer :
  pre html = Some text → pre html' = Some text' →
  nonblank_lines text' = nonblank_lines text ++ footer →
  Forall (λ ln, Str.has Str.is_digit ln = false) footer →
  2 ≤ length (nonblank_lines text) →
  parse_pre_block html' = parse_pre_block html.
Proof.
  intros Hpre Hpre' Hlines Hfoot Hlen. unfold parse_pre_block.
  rewrite Hpre, Hpre', Hlines.
  rewrite last_numeric_line_footer by done.
  rewrite take_app_le by done.
  destruct (nonblank_lines text) as [|l1 rest] eqn:Hl; [simpl in Hlen; lia|].
  destruct (decide (l1 :: rest = [])); [done|].
  by destruct (decide ((l1 :: rest) ++ footer = [])).
Qed.

(** ** A run without the dropdown *)

Lemma fetch_raise_is_Exception element sess w e :
  (fetch_available_lines element sess w).1 = Raise e → is_Exception e = true.
Proof.
  unfold fetch_available_lines, mbind, M_bind, session_get.
  destruct (network w _ _) as [msg|r]; simpl; [by intros [= <-]|].
  unfold raise_for_status. destruct (http_error r); simpl; [by intros [= <-]|].
  destruct (select_wi (body r)); simpl; [|by intros [= <-]].
  destruct (decide _); simpl; [by intros [= <-]|done].
Qed.

(** The dropdown is asked for with [--wi] as with [--wavelength]: when that
    request fails, the run ends with its exception after this one request,
    and no value is queried. *)
Theorem main_needs_the_dropdown args w e :
  Bool.eqb (bool_decide (wavelength args = None))
           (bool_decide (arg_wi args = None)) = false →
  values args ≠ [] →
  (fetch_available_lines (element args) make_session w).1 = Raise e →
  (main args w).1 = Raise e ∧
  is_Exception e = true ∧
  sent (main args w).2 = sent w ++ [lines_request (element args)].
Proof.
  intros Hargs Hvals Hfetch. unfold main. rewrite Hargs.
  unfold mbind, M_bind, read_values.
  destruct (decide (values args = [])); [done|].
  unfold mret, M_ret. cbv beta iota zeta.
  pose proof (fetch_world (element args) make_session w) as Hw.
  pose proof (fetch_raise_is_Exception _ _ _ _ Hfetch) as He.
  unfold resolve, choose_wi_from_wavelength, mbind, M_bind.
  destruct (wavelength args) as [w0|], (arg_wi args) as [wi|];
    try done; cbv beta;
    destruct (fetch_available_lines (element args) make_session w)
      as [[lines|e'] w1]; simpl in *; simplify_eq; done.
Qed.

(** ** The header and the order of the rows *)

Lemma columns_Permutation (rows rows' : list dict) :
  rows ≡ₚ rows' → columns rows = columns rows'.
Proof.
  intros Hperm. apply set_eq. intros c. rewrite !columns_spec.
  by setoid_rewrite Hperm.
Qed.

(** The header is the same in whatever order the rows come. *)
Theorem write_csv_header_order_free (rows rows' : list dict) out_path :
  rows ≡ₚ rows' →
  header <$> write_csv rows out_path = header <$> write_csv rows' out_path.
Proof using Type.
  clear py_int py_float py_str format_g time_sleep requests_Session.
  intros Hperm. unfold write_csv.
  destruct (decide (rows = [])) as [Hnil|Hne];
    destruct (decide (rows' = [])) as [Hnil'|Hne']; simpl; try done.
  - subst rows. by apply Permutation_nil_l in Hperm.
  - subst rows'. by apply Permutation_nil_r in Hperm.
  - by rewrite (columns_Permutation rows rows' Hperm).
Qed.

(** ** The two calculators *)

(** The two query functions treat an answer alike: on a server that gives
    the same answer to both, they fail with the same exception or return
    results that differ in the [mode] entry only, "ew" for the one and "lte"
    for the other. *)
Theorem queries_differ_in_mode_only element v teff logg feh vt wi sess w resp :
  (∀ rq, network w (length (sent w)) rq = resp) →
  match (query_A_from_e element v teff logg feh vt wi sess w).1,
        (query_nlte_from_lte element v teff logg feh vt wi sess w).1 with
  | Return d1, Return d2 =>
      d1 !! "mode" = Some (VStr "ew") ∧ d2 !! "mode" = Some (VStr "lte")
      ∧ ∀ k, k ≠ "mode" → d1 !! k = d2 !! k
  | Raise e1, Raise e2 => e1 = e2
  | _, _ => False
  end.
Proof.
  intros Hnet.
  pose (a := λ m, {| element := element; arg_mode := m; values := [];
                     teff := teff; logg := logg; feh := feh; vt := vt;
                     wavelength := None; arg_wi := None; out := None;
                     sleep := S754_zero false |}).
  pose proof (query_eq (a Ew) wi sess v w) as H1.
  pose proof (query_eq (a Lte) wi sess v w) as H2.
  change (query (a Ew) wi sess v w)
    with (query_A_from_e element v teff logg feh vt wi sess w) in H1.
  change (query (a Lte) wi sess v w)
    with (query_nlte_from_lte element v teff logg feh vt wi sess w) in H2.
  rewrite H1, H2. simpl. rewrite !Hnet. unfold answer_of.
  destruct resp as [msg|r]; [done|].
  destruct (http_error r); [done|].
  destruct (parse_pre_block (body r)) as [parsed|e]; simpl; [|done].
  split; [apply lookup_insert_eq|]. split; [apply lookup_insert_eq|].
  intros k Hk. by rewrite !lookup_insert_ne.
Qed.

End Program.

(** * The program on concrete inputs *)

Example findall_ex1 :
  FloatRe.findall "65  8.778 8.582  -0.196 -0.118" =
  ["65"; "8.778"; "8.582"; "-0.196"; "-0.118"].
Proof. reflexivity. Qed.

Example findall_ex2 :
  FloatRe.findall "a1e5x+-3.e2 1.5e+x 7e-2" = ["1e5"; "-3"; "2"; "1.5"; "7e-2"].
Proof. reflexivity. Qed.

Example splitlines_ex :
  Str.splitlines ("ab" +:+ String (ascii_of_N 13) Str.LF +:+ "c" +:+ Str.LF
                  +:+ Str.LF +:+ "d" +:+ Str.LF)
  = ["ab"; "c"; ""; "d"].
Proof. reflexivity. Qed.

Example parse_ew_page :
  parse_pre_block Sample.py_float Sample.ew_page =
  Return (list_to_map [("EW_mA", VFloat (dbl 65));
                       ("A_LTE", VFloat (dbl (4389 # 500)));
                       ("A_NLTE", VFloat (dbl (4291 # 500)));
                       ("Delta", VFloat (dbl (-49 # 250)));
                       ("OFe_NLTE", VFloat (dbl (-59 # 500)))]).
Proof. by vm_compute. Qed.

Example fetch_dropdown :
  (fetch_available_lines Sample.py_int Sample.py_float "O"
     (make_session Sample.requests_Session)
     {| network := Sample.failing_network; sent := [] |}).1 =
  Return [(1%Z, dbl (30791 # 5), "6158.2"); (3%Z, dbl (77719 # 10), "7771.9")].
Proof. by vm_compute. Qed.

Example main_with_server_error :
  (main Sample.py_int Sample.py_float Sample.py_str Sample.format_g
     Sample.time_sleep Sample.requests_Session Sample.args
     {| network := Sample.failing_network; sent := [] |}).1 =
  Return (Some {|
    destination := None;
    header := preferred;
    records := [
      [VStr "ew"; VStr "O"; VInt 7; VFloat NaN;
       VFloat (dbl 5777); VFloat (dbl (111 # 25));
       VFloat (dbl 0); VFloat (dbl 1); VFloat (dbl 65);
       VFloat (dbl 65); VFloat (dbl (4389 # 500));
       VFloat (dbl (4291 # 500)); VFloat (dbl (-49 # 250));
       VFloat (dbl (-59 # 500)); VStr ""];
      [VStr "ew"; VStr "O"; VInt 7; VFloat NaN;
       VFloat (dbl 5777); VFloat (dbl (111 # 25));
       VFloat (dbl 0); VFloat (dbl 1); VFloat (dbl 80);
       VStr ""; VStr ""; VStr ""; VStr ""; VStr "";
       VStr "500 Server Error"]
    ] |}).
Proof. by vm_compute. Qed.

(** With [--sleep -1] the first pause is refused: the run ends after the
    query of the first value. *)
Example main_negative_sleep :
  main Sample.py_int Sample.py_float Sample.py_str Sample.format_g
    Sample.time_sleep Sample.requests_Session Sample.args_negative_sleep
    {| network := Sample.failing_network; sent := [] |} =
  (Raise (ValueError "sleep length must be non-negative"),
   {| network := Sample.failing_network;
      sent := [lines_request "O";
               request_of Sample.py_str Sample.format_g
                 Sample.args_negative_sleep 7 (dbl 65)] |}).
Proof. by vm_compute. Qed.

(** The literal [1e-6] and the double written 0.1 *)
Example dbl_literals :
  dbl (1 # 1000000) = tol
  ∧ dbl (1 # 10) = S754_finite false 7205759403792794 (-56).
Proof. by vm_compute. Qed.

(** ** C1 on a page of the A_from_e calculator *)


(** ** C2 on two lines within the tolerance of each other, and on lines
    without wavelengths

    In the first list the request is the wavelength of the second line; the
    first line lies 5e-7 away and is returned.  In the second list no line has
    a wavelength and the first line is returned. *)

Lemma choose_among_close_lines :
  choose_among Sample.close_lines (dbl 5000)
  = Return (1%Z, dbl (50000000005 # 10000000)).
Proof. reflexivity. Qed.

Lemma choose_among_unlabelled_lines :
  choose_among Sample.unlabelled_lines (dbl 5000) = Return (5%Z, NaN).
Proof. reflexivity. Qed.

Lemma nearest_fails_on_close_lines :
  (Sample.close_lines ≠ [] ∧
   ¬ ∃ r, choose_among Sample.close_lines (dbl 5000) = Return r ∧
          nearest_line Sample.close_lines (dbl 5000) r)
  ∧ (Sample.unlabelled_lines ≠ [] ∧
     ¬ ∃ r, choose_among Sample.unlabelled_lines (dbl 5000) = Return r ∧
            nearest_line Sample.unlabelled_lines (dbl 5000) r).
Proof.
  split; (split; [done|]).
  - intros (r & Hr & t & Ht & Heq & _ & Hmin).
    rewrite choose_among_close_lines in Hr. injection Hr as <-.
    specialize (Hmin (2%Z, dbl 5000, "5000")).
    unfold Sample.close_lines in Ht.
    apply elem_of_cons in Ht as [->|Ht].
    + discriminate Hmin; [by right; left|done].
    + apply list_elem_of_singleton in Ht as ->. discriminate Heq.
  - intros (r & Hr & t & Ht & Heq & Hnan & _).
    unfold Sample.unlabelled_lines in Ht.
    repeat (apply elem_of_cons in Ht as [->|Ht]; [discriminate Hnan|]).
    by apply elem_of_nil in Ht.
Qed.

Lemma choose_among_first_within_else_nearest_witness :
  (∃ l1 t l2,
     Sample.close_lines = l1 ++ t :: l2 ∧
     Forall (λ x : line,
               ¬ (isnan x.1.2 = false
                  ∧ flt (distance (dbl 5000) x) tol = true)) l1 ∧
     isnan t.1.2 = false ∧ flt (distance (dbl 5000) t) tol = true ∧
     choose_among Sample.close_lines (dbl 5000) = Return (t.1.1, t.1.2))
  ∧ (∃ t, t ∈ Sample.far_lines ∧
          choose_among Sample.far_lines (dbl 5000) = Return (t.1.1, t.1.2) ∧
          isnan t.1.2 = false ∧
          flt (distance (dbl 5000) t) (Inf false) = true ∧
          (∀ t', t' ∈ Sample.far_lines → isnan t'.1.2 = false →
                 flt (distance (dbl 5000) t') (distance (dbl 5000) t) = false) ∧
          nearest_line Sample.far_lines (dbl 5000) (t.1.1, t.1.2))
  ∧ (∃ t rest,
       Sample.overflow_lines = t :: rest ∧
       choose_among Sample.overflow_lines (dbl (- 2 ^ 1023))
       = Return (t.1.1, t.1.2)).
Proof.
  split; [|split].
  - assert (Sample.close_lines ≠ []) as H by discriminate.
    apply (proj1 (proj2 (choose_among_first_within_else_nearest
                           Sample.close_lines (dbl 5000) H))
             (2%Z, dbl 5000, "5000")); [right; left|reflexivity|].
    vm_compute. reflexivity.
  - assert (Sample.far_lines ≠ []) as H by discriminate.
    apply (proj1 (proj2 (proj2 (choose_among_first_within_else_nearest
                                  Sample.far_lines (dbl 5000) H)))).
    + intros t Ht _. unfold Sample.far_lines in Ht.
      repeat (apply elem_of_cons in Ht as [->|Ht]; [vm_compute; reflexivity|]).
      by apply elem_of_nil in Ht.
    + exists (1%Z, dbl 4000, "4000"). split; [left|].
      split; vm_compute; reflexivity.
  - assert (Sample.overflow_lines ≠ []) as H by discriminate.
    apply (proj2 (proj2 (proj2 (choose_among_first_within_else_nearest
                                  Sample.overflow_lines (dbl (- 2 ^ 1023))
                                  H)))).
    intros t Ht Hn. unfold Sample.overflow_lines in Ht.
    apply elem_of_cons in Ht as [->|Ht]; [discriminate Hn|].
    apply list_elem_of_singleton in Ht as ->. vm_compute. reflexivity.
Defined.

(** The test of the first loop is made on the rounded difference: one
    millionth above 1 is within the tolerance, one millionth above 2 is
    not. *)
Example exact_match_rounds :
  exact_match (dbl 1) (1%Z, dbl (1000001 # 1000000), "1.000001") = true
  ∧ exact_match (dbl 2) (1%Z, dbl (2000001 # 1000000), "2.000001") = false.
Proof. by vm_compute. Qed.

(** The difference [2^1023 - (-2^1023)] overflows: no distance is finite and
    the first line is returned, which has no wavelength. *)
Example choose_among_overflow :
  choose_among Sample.overflow_lines (dbl (- 2 ^ 1023)) = Return (1%Z, NaN).
Proof. by vm_compute. Qed.

Example choose_among_far_lines :
  choose_among Sample.far_lines (dbl 5000) = Return (3%Z, dbl 5001).
Proof. reflexivity. Qed.

(** ** C10 on lines without wavelengths and on the sample dropdown *)

Lemma choose_wi_total_on_fetched_lines_witness :
  (∃ r, choose_among Sample.far_lines NaN = Return r)
  ∧ choose_among Sample.unlabelled_lines (dbl 5000) = Return (5%Z, NaN)
  ∧ ∃ r, choose_wi_from_wavelength Sample.py_int Sample.py_float "O"
           (dbl 7000) (make_session Sample.requests_Session)
           {| network := Sample.failing_network; sent := [] |}
         = (Return r,
            {| network := Sample.failing_network;
               sent := [lines_request "O"] |}).
Proof.
  destruct (choose_wi_total_on_fetched_lines Sample.py_int Sample.py_float)
    as (Htotal & Hnan & Hfetch).
  split; [|split].
  - apply Htotal. discriminate.
  - apply (Hnan (5%Z, NaN, "first") [(6%Z, NaN, "second")]).
    repeat constructor.
  - eapply Hfetch. vm_compute. reflexivity.
Defined.

(** ** C5 on rows with two columns outside the preferred ones *)

Lemma write_csv_header_witness :
  Sample.csv_rows ≠ [] ∧
  ∃ t rest,
    write_csv Sample.csv_rows None = Some t ∧
    header t = filter (λ c, c ∈ columns Sample.csv_rows) preferred ++ rest ∧
    StronglySorted String.le rest ∧
    (∀ c, c ∈ rest ↔ c ∈ columns Sample.csv_rows ∧ c ∉ preferred) ∧
    (∀ c, c ∈ columns Sample.csv_rows
          ↔ ∃ r, r ∈ Sample.csv_rows ∧ is_Some (r !! c)) ∧
    NoDup (header t) ∧
    (∀ c, c ∈ header t ↔ ∃ r, r ∈ Sample.csv_rows ∧ is_Some (r !! c)).
Proof.
  assert (Sample.csv_rows ≠ []) as H by discriminate.
  split; [exact H|]. exact (write_csv_header Sample.csv_rows None H).
Defined.

Example write_csv_header_ex :
  header <$> write_csv Sample.csv_rows None
  = Some ["mode"; "A_LTE"; "Alpha"; "zeta"].
Proof. by vm_compute. Qed.

(** ** C3 on a run whose second value is out of range *)

Lemma missing_pre_exits_batch_witness :
  let w := {| network := Sample.out_of_range_network; sent := [] |} in
  ∃ j, (j ≤ 1)%nat ∧
    main Sample.py_int Sample.py_float Sample.py_str Sample.format_g
      Sample.time_sleep Sample.requests_Session Sample.args w
    = (Raise (SystemExit (ExitInt 1)),
       {| network := network w;
          sent := sent w ++ lines_request (element Sample.args)
                  :: map (request_of Sample.py_str Sample.format_g
                            Sample.args 7)
                         (take (S j) (values Sample.args)) |}).
Proof.
  intros w.
  destruct (missing_pre_exits_batch Sample.py_int Sample.py_float
              Sample.py_str Sample.format_g Sample.time_sleep
              Sample.requests_Session)
    as (_ & _ & _ & Hmain).
  apply (Hmain Sample.args w 7%Z NaN
           {| network := Sample.out_of_range_network;
              sent := [lines_request "O"] |}
           1%nat (dbl 80)
           {| http_error := None; body := Sample.empty_page |}).
  - reflexivity.
  - vm_compute. reflexivity.
  - reflexivity.
  - reflexivity.
  - reflexivity.
  - reflexivity.
  - right. reflexivity.
Defined.

Example main_out_of_range :
  main Sample.py_int Sample.py_float Sample.py_str Sample.format_g
    Sample.time_sleep Sample.requests_Session Sample.args
    {| network := Sample.out_of_range_network; sent := [] |}
  = (Raise (SystemExit (ExitInt 1)),
     {| network := Sample.out_of_range_network;
        sent := [lines_request "O";
                 request_of Sample.py_str Sample.format_g Sample.args 7 (dbl 65);
                 request_of Sample.py_str Sample.format_g Sample.args 7
                   (dbl 80)] |}).
Proof. by vm_compute. Qed.

(** ** C4 on a run whose second query meets a server error *)

Lemma main_one_row_per_value_witness :
  let w := {| network := Sample.failing_network; sent := [] |} in
  let w1 := {| network := Sample.failing_network;
               sent := [lines_request "O"] |} in
  (resolve Sample.py_int Sample.py_float Sample.args
     (make_session Sample.requests_Session) w = (Return (7%Z, NaN), w1) ∧
   (∀ i v, values Sample.args !! i = Some v →
     ∀ e, answer_of Sample.py_float Sample.args
            (network w1 (length (sent w1) + i)
               (request_of Sample.py_str Sample.format_g Sample.args 7 v))
          = Raise e →
          is_Exception e = true) ∧
   Sample.time_sleep (sleep Sample.args) = Return ())
  ∧ ∃ rows,
      (main Sample.py_int Sample.py_float Sample.py_str Sample.format_g
         Sample.time_sleep Sample.requests_Session Sample.args w).1
      = Return (write_csv rows (out Sample.args))
      ∧ one_row_per_value Sample.py_float Sample.py_str Sample.format_g
          Sample.args 7 NaN w1 rows.
Proof.
  intros w w1.
  assert (resolve Sample.py_int Sample.py_float Sample.args
            (make_session Sample.requests_Session) w
          = (Return (7%Z, NaN), w1)) as Hres by (vm_compute; reflexivity).
  assert (∀ i v, values Sample.args !! i = Some v →
     ∀ e, answer_of Sample.py_float Sample.args
            (network w1 (length (sent w1) + i)
               (request_of Sample.py_str Sample.format_g Sample.args 7 v))
          = Raise e →
          is_Exception e = true) as Hall.
  { intros [|[|i]] v Hv e He; simpl in Hv; [| |discriminate Hv].
    - injection Hv as <-. vm_compute in He. discriminate He.
    - injection Hv as <-. vm_compute in He. injection He as <-. reflexivity. }
  assert (Sample.time_sleep (sleep Sample.args) = Return ()) as Hp
    by reflexivity.
  split; [split; [exact Hres|split; [exact Hall|exact Hp]]|].
  exact (proj1 (main_one_row_per_value Sample.py_int Sample.py_float
                  Sample.py_str Sample.format_g Sample.time_sleep
                  Sample.requests_Session
                  Sample.args w 7%Z NaN w1 eq_refl
                  ltac:(discriminate) Hres Hall) Hp).
Defined.

(** ** C8 on two runs that see the same exchanges *)

Lemma rows_depend_on_own_exchange_witness :
  let vs := [dbl 65; dbl 80] in
  let w1 := {| network := Sample.after_dropdown Sample.failing_network;
               sent := [] |} in
  let w2 := {| network := Sample.failing_network;
               sent := [lines_request "O"] |} in
  exchanges Sample.py_str Sample.format_g Sample.args 7 w1 vs
  = exchanges Sample.py_str Sample.format_g Sample.args 7 w2 vs
  ∧ (for_each (iteration Sample.py_float Sample.py_str Sample.format_g
                   Sample.time_sleep
                 Sample.args 7 NaN (make_session Sample.requests_Session))
       vs [] w1).1
    = (for_each (iteration Sample.py_float Sample.py_str Sample.format_g
                   Sample.time_sleep
                   Sample.args 7 NaN (make_session Sample.requests_Session))
         vs [] w2).1.
Proof.
  intros vs w1 w2.
  assert (exchanges Sample.py_str Sample.format_g Sample.args 7 w1 vs
          = exchanges Sample.py_str Sample.format_g Sample.args 7 w2 vs)
    as Hex by reflexivity.
  split; [exact Hex|].
  destruct (rows_depend_on_own_exchange Sample.py_float Sample.py_str
              Sample.format_g Sample.time_sleep Sample.args 7%Z NaN
              (make_session Sample.requests_Session) vs [])
    as (_ & _ & Hsame & _).
  exact (Hsame w1 w2 Hex).
Defined.

(** ** C9 on the sample dropdown, which has the indices 1 and 3 only *)

Lemma unlisted_wi_taken_unvalidated_witness :
  let w := {| network := Sample.failing_network; sent := [] |} in
  let w1 := {| network := Sample.failing_network;
               sent := [lines_request "O"] |} in
  let lines : list line :=
    [(1%Z, dbl (30791 # 5), "6158.2"); (3%Z, dbl (77719 # 10), "7771.9")] in
  (wavelength Sample.args = None ∧ arg_wi Sample.args = Some 7%Z ∧
   fetch_available_lines Sample.py_int Sample.py_float (element Sample.args)
     (make_session Sample.requests_Session) w = (Return lines, w1) ∧
   (∀ t, t ∈ lines → t.1.1 ≠ 7%Z) ∧
   values Sample.args ≠ [])
  ∧ resolve Sample.py_int Sample.py_float Sample.args
      (make_session Sample.requests_Session) w = (Return (7%Z, NaN), w1)
  ∧ ∃ n, (0 < n ≤ length (values Sample.args))%nat ∧
      sent (main Sample.py_int Sample.py_float Sample.py_str Sample.format_g
              Sample.time_sleep Sample.requests_Session Sample.args w).2
      = sent w ++ lines_request (element Sample.args)
               :: map (request_of Sample.py_str Sample.format_g Sample.args 7)
                      (take n (values Sample.args)) ∧
      (∀ x, (main Sample.py_int Sample.py_float Sample.py_str
               Sample.format_g Sample.time_sleep Sample.requests_Session
               Sample.args w).1 = Return x →
            n = length (values Sample.args)).
Proof.
  intros w w1 lines.
  assert (fetch_available_lines Sample.py_int Sample.py_float
            (element Sample.args) (make_session Sample.requests_Session) w
          = (Return lines, w1)) as Hfetch by (vm_compute; reflexivity).
  assert (∀ t, t ∈ lines → t.1.1 ≠ 7%Z) as Hno.
  { intros t Ht. apply elem_of_cons in Ht as [->|Ht]; [discriminate|].
    apply list_elem_of_singleton in Ht as ->. discriminate. }
  assert (values Sample.args ≠ []) as Hvals by discriminate.
  split; [by repeat split|].
  destruct (unlisted_wi_taken_unvalidated Sample.py_int Sample.py_float
              Sample.py_str Sample.format_g Sample.time_sleep
              Sample.requests_Session
              Sample.args 7%Z w lines w1 eq_refl eq_refl Hfetch Hno Hvals)
    as (Hres & Hsent & _).
  split; [exact Hres|exact Hsent].
Defined.

(** The run of the witness returns: both queries were sent with [wi=7]. *)
Example main_unlisted_wi_requests :
  sent (main Sample.py_int Sample.py_float Sample.py_str Sample.format_g
          Sample.time_sleep Sample.requests_Session Sample.args
          {| network := Sample.failing_network; sent := [] |}).2
  = [lines_request "O";
     request_of Sample.py_str Sample.format_g Sample.args 7 (dbl 65);
     request_of Sample.py_str Sample.format_g Sample.args 7 (dbl 80)]
  ∧ params (request_of Sample.py_str Sample.format_g Sample.args 7 (dbl 65))
    = [("element_name", "O"); ("e", "65"); ("t", "5777"); ("g", "?");
       ("f", "0"); ("x", "1"); ("wi", "7")].
Proof. by vm_compute. Qed.

(** * More of the code on concrete inputs *)

Example findall_cuts_ex :
  Shape.weave ["x="; " +/- "; " mA"] ["-1.5e3"; "0.2"] = "x=-1.5e3 +/- 0.2 mA"
  ∧ FloatRe.findall "x=-1.5e3 +/- 0.2 mA" = ["-1.5e3"; "0.2"].
Proof. by vm_compute. Qed.

(** ** Reading the values *)

Lemma values_of_lines_one_per_digit_line_witness :
  values_of_lines Sample.py_float Sample.value_lines
  = Return [dbl 65; dbl (161 # 2)]
  ∧ length [dbl 65; dbl (161 # 2)]
    = length (filter (λ ln, Str.has Str.is_digit ln = true) Sample.value_lines).
Proof.
  assert (values_of_lines Sample.py_float Sample.value_lines
          = Return [dbl 65; dbl (161 # 2)]) as H by (vm_compute; reflexivity).
  split; [exact H|].
  exact (proj1 (values_of_lines_one_per_digit_line Sample.py_float
                  Sample.value_lines [dbl 65; dbl (161 # 2)] H)).
Defined.

Lemma values_of_lines_skips_text_witness :
  Str.has Str.is_digit "n/a" = false
  ∧ values_of_lines Sample.py_float (["65"] ++ "n/a" :: ["80"])
    = values_of_lines Sample.py_float (["65"] ++ ["80"]).
Proof.
  split; [reflexivity|].
  apply (values_of_lines_skips_text Sample.py_float ["65"] "n/a" ["80"]).
  reflexivity.
Defined.

Lemma read_values_from_nonempty_or_exit_witness :
  (read_values_from Sample.py_float Sample.sources_all
   = Return [dbl 65; dbl 80; dbl 100; dbl 70]
   ∧ [dbl 65; dbl 80; dbl 100; dbl 70] ≠ [])
  ∧ (((∀ v, src_values Sample.sources_blank = Some v →
            Forall (λ item, Str.strip item = "") (Text.split "," v)) ∧
      (∀ x, src_values_file Sample.sources_blank = Some x →
            ∃ text, x = Return text ∧
                    Forall (λ ln, Str.has Str.is_digit ln = false)
                           (Str.splitlines text)) ∧
      (∀ lns, src_stdin Sample.sources_blank = Some lns →
              Forall (λ ln, Str.has Str.is_digit ln = false) lns))
     ∧ read_values_from Sample.py_float Sample.sources_blank
       = Raise (SystemExit (ExitMsg
           "No input values found. Use --values, --values-file, or pipe via stdin."))).
Proof.
  split.
  - assert (read_values_from Sample.py_float Sample.sources_all
            = Return [dbl 65; dbl 80; dbl 100; dbl 70]) as H
      by (vm_compute; reflexivity).
    split; [exact H|].
    exact (proj1 (proj1 (read_values_from_nonempty_or_exit Sample.py_float
                           Sample.sources_all) _ H)).
  - assert (∀ v, src_values Sample.sources_blank = Some v →
              Forall (λ item, Str.strip item = "") (Text.split "," v)) as H1.
    { intros v Hv. injection Hv as <-. repeat constructor. }
    assert (∀ x, src_values_file Sample.sources_blank = Some x →
              ∃ text, x = Return text ∧
                      Forall (λ ln, Str.has Str.is_digit ln = false)
                             (Str.splitlines text)) as H2.
    { intros x Hx. injection Hx as <-. eexists. split; [reflexivity|].
      repeat constructor. }
    assert (∀ lns, src_stdin Sample.sources_blank = Some lns →
              Forall (λ ln, Str.has Str.is_digit ln = false) lns) as H3.
    { intros lns Hl. injection Hl as <-. repeat constructor. }
    split; [by repeat split|].
    exact (proj1 (proj2 (read_values_from_nonempty_or_exit Sample.py_float
                           Sample.sources_blank)) H1 H2 H3).
Defined.

Lemma read_values_from_rejects_bad_item_witness :
  (src_values Sample.sources_bad = Some "65,abc"
   ∧ "abc" ∈ Text.split "," "65,abc"
   ∧ Str.strip "abc" ≠ ""
   ∧ Sample.py_float (Str.strip "abc") = None)
  ∧ ∃ msg, read_values_from Sample.py_float Sample.sources_bad
           = Raise (ValueError msg).
Proof.
  assert ("abc" ∈ Text.split "," "65,abc") as Hin by (right; left).
  assert (Str.strip "abc" ≠ "") as Hne by discriminate.
  split; [by repeat split|].
  exact (read_values_from_rejects_bad_item Sample.py_float Sample.sources_bad
           "65,abc" "abc" eq_refl Hin Hne eq_refl).
Defined.

(** ** The dropdown *)

Lemma fetch_available_lines_options_witness :
  let w := {| network := Sample.failing_network; sent := [] |} in
  let lines : list line :=
    [(1%Z, dbl (30791 # 5), "6158.2"); (3%Z, dbl (77719 # 10), "7771.9")] in
  (fetch_available_lines Sample.py_int Sample.py_float "O"
     (make_session Sample.requests_Session) w).1 = Return lines
  ∧ ∃ r options,
      network w (length (sent w)) (lines_request "O") = Response r ∧
      http_error r = None ∧
      select_wi (body r) = Some options ∧
      lines = omap (line_of_option Sample.py_int Sample.py_float) options ∧
      lines ≠ [].
Proof.
  intros w lines.
  assert ((fetch_available_lines Sample.py_int Sample.py_float "O"
             (make_session Sample.requests_Session) w).1 = Return lines) as H
    by (vm_compute; reflexivity).
  split; [exact H|].
  exact (proj1 (fetch_available_lines_options Sample.py_int Sample.py_float
                  "O" (make_session Sample.requests_Session) w lines) H).
Defined.

Lemma fetch_available_lines_failures_witness :
  let w := {| network := Sample.no_select_network; sent := [] |} in
  (fetch_available_lines Sample.py_int Sample.py_float "O"
     (make_session Sample.requests_Session) w).1
  = Raise (RuntimeError "Could not find wavelength selector for element O.")
  ∧ is_Exception
      (RuntimeError "Could not find wavelength selector for element O.") = true.
Proof.
  intros w.
  assert ((fetch_available_lines Sample.py_int Sample.py_float "O"
             (make_session Sample.requests_Session) w).1
          = Raise (RuntimeError
                     "Could not find wavelength selector for element O.")) as H
    by (vm_compute; reflexivity).
  split; [exact H|].
  exact (proj1 (fetch_available_lines_failures Sample.py_int Sample.py_float
                  "O" (make_session Sample.requests_Session) w _ H)).
Defined.

(** ** Resolving the line *)

Lemma choose_among_request_not_finite_witness :
  is_finite NaN = false
  ∧ choose_among Sample.far_lines NaN = Return (1%Z, dbl 4000).
Proof.
  split; [reflexivity|].
  exact (choose_among_request_not_finite (1%Z, dbl 4000, "4000")
           [(2%Z, NaN, "n/a"); (3%Z, dbl 5001, "5001"); (4%Z, dbl 4999, "4999")]
           NaN eq_refl).
Defined.

Lemma resolve_listed_wi_witness :
  let w := {| network := Sample.duplicate_network; sent := [] |} in
  let w1 := {| network := Sample.duplicate_network;
               sent := [lines_request "O"] |} in
  fetch_available_lines Sample.py_int Sample.py_float
    (element Sample.args_wi3) (make_session Sample.requests_Session) w
  = (Return ([(1%Z, dbl (30791 # 5), "6158.2");
              (3%Z, dbl (77719 # 10), "7771.9")]
             ++ (3%Z, dbl (38871 # 5), "7774.2") :: []), w1)
  ∧ resolve Sample.py_int Sample.py_float Sample.args_wi3
      (make_session Sample.requests_Session) w
    = (Return (3%Z, dbl (38871 # 5)), w1).
Proof.
  intros w w1.
  assert (fetch_available_lines Sample.py_int Sample.py_float
            (element Sample.args_wi3) (make_session Sample.requests_Session) w
          = (Return ([(1%Z, dbl (30791 # 5), "6158.2");
                      (3%Z, dbl (77719 # 10), "7771.9")]
                     ++ (3%Z, dbl (38871 # 5), "7774.2") :: []), w1)) as H
    by (vm_compute; reflexivity).
  split; [exact H|].
  apply (resolve_listed_wi Sample.py_int Sample.py_float
           Sample.requests_Session Sample.args_wi3 3%Z w _ [] _ "7774.2" w1
           eq_refl eq_refl H).
  intros t Ht. by apply elem_of_nil in Ht.
Defined.

Lemma resolve_wavelength_picks_a_line_witness :
  let w := {| network := Sample.failing_network; sent := [] |} in
  let w1 := {| network := Sample.failing_network;
               sent := [lines_request "O"] |} in
  let lines : list line :=
    [(1%Z, dbl (30791 # 5), "6158.2"); (3%Z, dbl (77719 # 10), "7771.9")] in
  fetch_available_lines Sample.py_int Sample.py_float
    (element Sample.args_wavelength) (make_session Sample.requests_Session) w
  = (Return lines, w1)
  ∧ ∃ wi wav label,
      (wi, wav, label) ∈ lines ∧
      resolve Sample.py_int Sample.py_float Sample.args_wavelength
        (make_session Sample.requests_Session) w = (Return (wi, wav), w1).
Proof.
  intros w w1 lines.
  assert (fetch_available_lines Sample.py_int Sample.py_float
            (element Sample.args_wavelength)
            (make_session Sample.requests_Session) w = (Return lines, w1)) as H
    by (vm_compute; reflexivity).
  split; [exact H|].
  exact (resolve_wavelength_picks_a_line Sample.py_int Sample.py_float
           Sample.requests_Session Sample.args_wavelength (dbl 7772) w lines w1
           eq_refl H).
Defined.

Example resolve_wavelength_ex :
  (resolve Sample.py_int Sample.py_float Sample.args_wavelength
     (make_session Sample.requests_Session)
     {| network := Sample.failing_network; sent := [] |}).1
  = Return (3%Z, dbl (77719 # 10)).
Proof. by vm_compute. Qed.

(** ** The batch and its requests *)

Lemma batch_completes_iff_pre_present_witness :
  let w := {| network := Sample.after_dropdown Sample.failing_network;
              sent := [] |} in
  (([dbl 65; dbl 80] = [] ∨ Sample.time_sleep (sleep Sample.args) = Return ())
   ∧ ∀ i v r,
       [dbl 65; dbl 80] !! i = Some v →
       network w (length (sent w) + i)
         (request_of Sample.py_str Sample.format_g Sample.args 7 v)
       = Response r →
       http_error r = None → is_Some (pre (body r)))
  ∧ ∃ rows',
      (for_each (iteration Sample.py_float Sample.py_str Sample.format_g
                   Sample.time_sleep
                   Sample.args 7 NaN (make_session Sample.requests_Session))
         [dbl 65; dbl 80] [] w).1 = Return rows'.
Proof.
  intros w.
  assert (([dbl 65; dbl 80] = []
           ∨ Sample.time_sleep (sleep Sample.args) = Return ())
   ∧ ∀ i v r,
       [dbl 65; dbl 80] !! i = Some v →
       network w (length (sent w) + i)
         (request_of Sample.py_str Sample.format_g Sample.args 7 v)
       = Response r →
       http_error r = None → is_Some (pre (body r))) as Hall.
  { split; [right; reflexivity|].
    intros [|[|i]] v r Hv Hnet Herr; simpl in Hv; [| |discriminate Hv].
    - injection Hnet as <-. by eexists.
    - injection Hnet as <-. discriminate Herr. }
  split; [exact Hall|].
  exact (proj2 (batch_completes_iff_pre_present Sample.py_float Sample.py_str
                  Sample.format_g Sample.time_sleep Sample.args 7%Z NaN
                  (make_session Sample.requests_Session) [dbl 65; dbl 80] [] w)
           Hall).
Defined.

Lemma main_requests_witness :
  let w := {| network := Sample.failing_network; sent := [] |} in
  sent (main Sample.py_int Sample.py_float Sample.py_str Sample.format_g
          Sample.time_sleep Sample.requests_Session Sample.args_neither w).2
  = sent w
  ∧ ∃ n,
      (0 < n ≤ length (values Sample.args))%nat ∧
      sent (main Sample.py_int Sample.py_float Sample.py_str Sample.format_g
              Sample.time_sleep Sample.requests_Session Sample.args w).2
      = sent w ++ lines_request (element Sample.args)
                  :: map (request_of Sample.py_str Sample.format_g
                            Sample.args 7)
                         (take n (values Sample.args)) ∧
      (∀ x, (main Sample.py_int Sample.py_float Sample.py_str
               Sample.format_g Sample.time_sleep Sample.requests_Session
               Sample.args w).1 = Return x →
            n = length (values Sample.args)).
Proof.
  intros w. split.
  - apply (proj1 (proj2 (main_requests Sample.py_int Sample.py_float
                           Sample.py_str Sample.format_g Sample.time_sleep
                           Sample.requests_Session Sample.args_neither w))).
    left. reflexivity.
  - pose proof (proj2 (proj2 (main_requests Sample.py_int Sample.py_float
                                Sample.py_str Sample.format_g
                                Sample.time_sleep
                                Sample.requests_Session Sample.args w))
                  eq_refl ltac:(discriminate)) as H.
    assert ((resolve Sample.py_int Sample.py_float Sample.args
               (make_session Sample.requests_Session) w).1
            = Return (7%Z, NaN)) as Hres by (vm_compute; reflexivity).
    rewrite Hres in H. exact H.
Defined.

Lemma main_needs_the_dropdown_witness :
  let w := {| network := Sample.no_select_network; sent := [] |} in
  (fetch_available_lines Sample.py_int Sample.py_float (element Sample.args)
     (make_session Sample.requests_Session) w).1
  = Raise (RuntimeError "Could not find wavelength selector for element O.")
  ∧ (main Sample.py_int Sample.py_float Sample.py_str Sample.format_g
       Sample.time_sleep Sample.requests_Session Sample.args w).1
    = Raise (RuntimeError "Could not find wavelength selector for element O.").
Proof.
  intros w.
  assert ((fetch_available_lines Sample.py_int Sample.py_float
             (element Sample.args) (make_session Sample.requests_Session) w).1
          = Raise (RuntimeError
                     "Could not find wavelength selector for element O.")) as H
    by (vm_compute; reflexivity).
  split; [exact H|].
  exact (proj1 (main_needs_the_dropdown Sample.py_int Sample.py_float
                  Sample.py_str Sample.format_g Sample.time_sleep
                  Sample.requests_Session
                  Sample.args w _ eq_refl ltac:(discriminate) H)).
Defined.

Lemma refused_pause_ends_run_witness :
  let w := {| network := Sample.failing_network; sent := [] |} in
  let w1 := {| network := Sample.failing_network;
               sent := [lines_request "O"] |} in
  (resolve Sample.py_int Sample.py_float Sample.args_negative_sleep
     (make_session Sample.requests_Session) w = (Return (7%Z, NaN), w1)
   ∧ Sample.time_sleep (sleep Sample.args_negative_sleep)
     = Raise (ValueError "sleep length must be non-negative"))
  ∧ main Sample.py_int Sample.py_float Sample.py_str Sample.format_g
      Sample.time_sleep Sample.requests_Session Sample.args_negative_sleep w
    = (Raise (match row_of Sample.py_float Sample.args_negative_sleep 7 NaN
                      (dbl 65)
                      (network w1 (length (sent w1))
                         (request_of Sample.py_str Sample.format_g
                            Sample.args_negative_sleep 7 (dbl 65))) with
              | Return _ => ValueError "sleep length must be non-negative"
              | Raise exit => exit
              end),
       {| network := network w;
          sent := sent w ++ [lines_request (element Sample.args_negative_sleep);
                             request_of Sample.py_str Sample.format_g
                               Sample.args_negative_sleep 7 (dbl 65)] |}).
Proof.
  intros w w1.
  assert (resolve Sample.py_int Sample.py_float Sample.args_negative_sleep
            (make_session Sample.requests_Session) w
          = (Return (7%Z, NaN), w1)) as Hres by (vm_compute; reflexivity).
  assert (Sample.time_sleep (sleep Sample.args_negative_sleep)
          = Raise (ValueError "sleep length must be non-negative")) as Hp
    by reflexivity.
  split; [split; [exact Hres|exact Hp]|].
  exact (refused_pause_ends_run Sample.py_int Sample.py_float Sample.py_str
           Sample.format_g Sample.time_sleep Sample.requests_Session
           Sample.args_negative_sleep w 7%Z NaN w1 _ (dbl 65) [dbl 80]
           eq_refl eq_refl Hres Hp).
Defined.

(** ** The table *)

Lemma main_returns_table_witness :
  let w := {| network := Sample.failing_network; sent := [] |} in
  ∃ x,
    (main Sample.py_int Sample.py_float Sample.py_str Sample.format_g
       Sample.time_sleep Sample.requests_Session Sample.args w).1 = Return x
    ∧ ∃ t rest,
        x = Some t ∧
        values Sample.args ≠ [] ∧
        length (records t) = length (values Sample.args) ∧
        Forall (λ record, length record = length (header t)) (records t) ∧
        header t = context_names ++ rest ∧
        rest `sublist_of` parsed_names ++ ["error"].
Proof.
  intros w.
  destruct (main Sample.py_int Sample.py_float Sample.py_str Sample.format_g
              Sample.time_sleep Sample.requests_Session Sample.args w).1 as [x|e] eqn:H.
  - exists x. split; [reflexivity|].
    exact (main_returns_table Sample.py_int Sample.py_float Sample.py_str
             Sample.format_g Sample.time_sleep Sample.requests_Session
             Sample.args w x H).
  - vm_compute in H. discriminate H.
Defined.

Lemma write_csv_keeps_rows_witness :
  ∃ t r,
    write_csv Sample.csv_rows None = Some t ∧
    Sample.csv_rows !! 0%nat = Some r ∧
    (∀ k, r !! k ≠ Some (VStr "")) ∧
    ∃ record,
      records t !! 0%nat = Some record ∧
      length record = length (header t) ∧
      (∀ j c, header t !! j = Some c →
              record !! j = Some (default (VStr "") (r !! c))) ∧
      (∀ k x, r !! k = Some x →
              ∃ j, header t !! j = Some k ∧ record !! j = Some x) ∧
      row_of_record (header t) record = r.
Proof.
  destruct (write_csv Sample.csv_rows None) as [t|] eqn:H;
    [|vm_compute in H; discriminate H].
  set (r := ({[ "A_LTE" := VFloat (dbl 1); "zeta" := VStr "z" ]} : dict)).
  assert (∀ k, r !! k ≠ Some (VStr "")) as Hne.
  { intros k Hk. unfold r in Hk.
    apply lookup_insert_Some in Hk as [[_ Hk]|[_ Hk]]; [discriminate Hk|].
    apply lookup_singleton_Some in Hk as [_ Hk]. discriminate Hk. }
  exists t, r. split; [reflexivity|]. split; [reflexivity|].
  split; [exact Hne|].
  destruct (write_csv_keeps_rows Sample.csv_rows None t 0%nat r H eq_refl)
    as (record & H1 & H2 & H3 & H4 & H5).
  exists record. split; [exact H1|]. split; [exact H2|]. split; [exact H3|].
  split; [exact H4|]. exact (H5 Hne).
Defined.

(** A missing key and an empty string are written alike: the row with an
    empty [element] has the record of a row without it. *)
Example write_csv_blank_cell :
  records <$> write_csv Sample.csv_rows_blank None
  = Some [[VStr "ew"; VStr ""]]
  ∧ header <$> write_csv Sample.csv_rows_blank None
    = Some ["mode"; "element"]
  ∧ row_of_record ["mode"; "element"] [VStr "ew"; VStr ""]
    = {[ "mode" := VStr "ew" ]}.
Proof. by vm_compute. Qed.

Lemma write_csv_header_order_free_witness :
  Sample.csv_rows ≡ₚ Sample.csv_rows_swapped
  ∧ header <$> write_csv Sample.csv_rows None
    = header <$> write_csv Sample.csv_rows_swapped None.
Proof.
  assert (Sample.csv_rows ≡ₚ Sample.csv_rows_swapped) as H
    by apply perm_swap.
  split; [exact H|].
  exact (write_csv_header_order_free _ _ None H).
Defined.

Lemma error_cell_is_message_prefix_witness :
  let resp := Response {| http_error := Some "500 Server Error";
                          body := Sample.empty_page |} in
  let row := error_row Sample.args 7 NaN (dbl 80) "500 Server Error" in
  (row_of Sample.py_float Sample.args 7 NaN (dbl 80) resp = Return row
   ∧ row !! "error" = Some (VStr "500 Server Error"))
  ∧ ∃ e s rest,
      answer_of Sample.py_float Sample.args resp = Raise e ∧
      VStr "500 Server Error" = VStr s ∧
      str_exn e = s +:+ rest ∧
      String.length s = Nat.min 300 (String.length (str_exn e)).
Proof.
  intros resp row.
  assert (row_of Sample.py_float Sample.args 7 NaN (dbl 80) resp = Return row)
    as H by reflexivity.
  assert (row !! "error" = Some (VStr "500 Server Error")) as Hc
    by (vm_compute; reflexivity).
  split; [split; [exact H|exact Hc]|].
  exact (error_cell_is_message_prefix Sample.py_float Sample.args 7%Z NaN
           (dbl 80) resp row _ H Hc).
Defined.

(** ** The parser *)

Lemma parse_pre_block_fields_witness :
  ∃ parsed,
    parse_pre_block Sample.py_float Sample.ew_page = Return parsed
    ∧ (dom parsed = list_to_set ["A_LTE"; "A_NLTE"; "Delta"]
       ∨ dom parsed = list_to_set ["A_LTE"; "A_NLTE"; "Delta"; "OFe_NLTE"]
       ∨ dom parsed
         = list_to_set ["EW_mA"; "A_LTE"; "A_NLTE"; "Delta"; "OFe_NLTE"])
    ∧ ∀ k cell, parsed !! k = Some cell → ∃ x, cell = VFloat x.
Proof.
  destruct (parse_pre_block Sample.py_float Sample.ew_page) as [parsed|e] eqn:H;
    [|vm_compute in H; discriminate H].
  exists parsed. split; [reflexivity|].
  exact (parse_pre_block_fields Sample.py_float Sample.ew_page parsed H).
Defined.

Lemma parse_pre_block_ignores_footer_witness :
  (nonblank_lines Sample.footer_text
   = nonblank_lines Sample.ew_text ++ ["computed by INSPECT"]
   ∧ Forall (λ ln, Str.has Str.is_digit ln = false) ["computed by INSPECT"]
   ∧ (2 ≤ length (nonblank_lines Sample.ew_text))%nat)
  ∧ parse_pre_block Sample.py_float Sample.footer_page
    = parse_pre_block Sample.py_float Sample.ew_page.
Proof.
  assert (nonblank_lines Sample.footer_text
          = nonblank_lines Sample.ew_text ++ ["computed by INSPECT"]) as H1
    by (vm_compute; reflexivity).
  assert (Forall (λ ln, Str.has Str.is_digit ln = false)
            ["computed by INSPECT"]) as H2 by (repeat constructor).
  assert (2 ≤ length (nonblank_lines Sample.ew_text))%nat as H3
    by (vm_compute; lia).
  split; [by repeat split|].
  exact (parse_pre_block_ignores_footer Sample.py_float Sample.ew_page
           Sample.footer_page Sample.ew_text Sample.footer_text
           ["computed by INSPECT"] eq_refl eq_refl H1 H2 H3).
Defined.

(** ** The two calculators *)

Lemma queries_differ_in_mode_only_witness :
  let w := {| network := Sample.after_dropdown Sample.failing_network;
              sent := [] |} in
  let resp := Response {| http_error := None; body := Sample.ew_page |} in
  (∀ rq, network w (length (sent w)) rq = resp)
  ∧ match (query_A_from_e Sample.py_float Sample.py_str Sample.format_g
             "O" (dbl 65) (dbl 5777) (dbl (111 # 25)) (dbl 0) (dbl 1) 3
             (make_session Sample.requests_Session) w).1,
          (query_nlte_from_lte Sample.py_float Sample.py_str Sample.format_g
             "O" (dbl 65) (dbl 5777) (dbl (111 # 25)) (dbl 0) (dbl 1) 3
             (make_session Sample.requests_Session) w).1 with
    | Return d1, Return d2 =>
        d1 !! "mode" = Some (VStr "ew") ∧ d2 !! "mode" = Some (VStr "lte")
        ∧ ∀ k, k ≠ "mode" → d1 !! k = d2 !! k
    | Raise e1, Raise e2 => e1 = e2
    | _, _ => False
    end.
Proof.
  intros w resp.
  assert (∀ rq, network w (length (sent w)) rq = resp) as H
    by (intros rq; reflexivity).
  split; [exact H|].
  exact (queries_differ_in_mode_only Sample.py_float Sample.py_str
           Sample.format_g "O" (dbl 65) (dbl 5777) (dbl (111 # 25)) (dbl 0)
           (dbl 1) 3%Z (make_session Sample.requests_Session) w resp H).
Defined.
